(** * Subscription reconciliation engine and webhook dispatchers

    A shallow embedding of the parts of the payment service that own the
    subscription life cycle:

    - [models/Subscription.js]: the two schema hooks ([pre("save")] and
      [pre("findOneAndUpdate")]);
    - [services/subscriptionIntegrationService.js]: [updateSubscription],
      [cancelSubscriptionAtPeriodEnd], [reactivateSubscription],
      [changePlan];
    - [controllers/webhookController.js]: [processWebhookEvent];
    - [controllers/webhook.controller.js]: [handleStripeWebhook] and
      [handleSubscriptionDeleted].

    JavaScript objects are finite maps from property names to values,
    [async] functions are computations in a state-and-exception monad over
    an explicit world (the two collections, the trace of calls issued to
    the outside, and the environment the process runs in). *)

From Stdlib Require Import ZArith Lia Floats.
From stdpp Require Import gmap strings pretty.

Set Warnings "-inexact-float".
Local Open Scope string_scope.
Local Open Scope Z_scope.

(** ** ECMAScript time values

    A time value is a number of milliseconds since the epoch; a [Date]
    object holds a time value or [NaN].  The day and calendar functions are
    the ones of the language specification (section "Date Objects"); local
    time is UTC shifted by the offset the time zone has in force at the
    time in question, which daylight saving makes change over the year. *)

Module JsDate.

Definition msPerDay : Z := 86400000.
Definition maxTime : Z := 8640000000000000.

Definition Day (t : Z) : Z := t / msPerDay.
Definition TimeWithinDay (t : Z) : Z := t mod msPerDay.

Definition leap (y : Z) : Z :=
  if (y mod 4 =? 0) && (negb (y mod 100 =? 0) || (y mod 400 =? 0)) then 1 else 0.

Definition DaysInYear (y : Z) : Z := 365 + leap y.

Definition DayFromYear (y : Z) : Z :=
  365 * (y - 1970) + (y - 1969) / 4 - (y - 1901) / 100 + (y - 1601) / 400.

(** The largest [y] with [DayFromYear y <= d]: an estimate from the mean
    length of a year, corrected by at most one. *)
Definition YearFromDay (d : Z) : Z :=
  let y := 1970 + (400 * d) / 146097 in
  if d <? DayFromYear y then y - 1
  else if DayFromYear (y + 1) <=? d then y + 1
  else y.

Definition YearFromTime (t : Z) : Z := YearFromDay (Day t).
Definition InLeapYear (t : Z) : Z := leap (YearFromTime t).
Definition DayWithinYear (t : Z) : Z := Day t - DayFromYear (YearFromTime t).

(** First day (within the year) of month [m], months counted from 0. *)
Definition monthStart (lp m : Z) : Z :=
  match m with
  | 0 => 0
  | 1 => 31
  | 2 => 59 + lp
  | 3 => 90 + lp
  | 4 => 120 + lp
  | 5 => 151 + lp
  | 6 => 181 + lp
  | 7 => 212 + lp
  | 8 => 243 + lp
  | 9 => 273 + lp
  | 10 => 304 + lp
  | _ => 334 + lp
  end.

Definition monthOfDay (lp d : Z) : Z :=
  if d <? 31 then 0
  else if d <? 59 + lp then 1
  else if d <? 90 + lp then 2
  else if d <? 120 + lp then 3
  else if d <? 151 + lp then 4
  else if d <? 181 + lp then 5
  else if d <? 212 + lp then 6
  else if d <? 243 + lp then 7
  else if d <? 273 + lp then 8
  else if d <? 304 + lp then 9
  else if d <? 334 + lp then 10
  else 11.

Definition MonthFromTime (t : Z) : Z := monthOfDay (InLeapYear t) (DayWithinYear t).

Definition DateFromTime (t : Z) : Z :=
  DayWithinYear t - monthStart (InLeapYear t) (MonthFromTime t) + 1.

Definition MakeDay (year month date : Z) : Z :=
  let ym := year + month / 12 in
  let mn := month mod 12 in
  DayFromYear ym + monthStart (leap ym) mn + date - 1.

Definition MakeDate (day time : Z) : Z := day * msPerDay + time.

Definition TimeClip (t : Z) : option Z :=
  if Z.abs t <=? maxTime then Some t else None.

(** A [Date] object: [None] is the invalid date, whose time value is NaN. *)
Definition Date := option Z.

Definition isNaN_getTime (d : Date) : bool :=
  match d with None => true | Some _ => false end.

(** A time zone gives the offset of local time from UTC, in milliseconds:
    [offsetAt t] is the offset in force at the time value [t]
    ([LocalTZA(t, true)]), [offsetAtLocal l] the one by which the local
    time value [l] is read back ([LocalTZA(l, false)]: for a local time
    that a transition skips or repeats, the offset before the
    transition). *)
Record TimeZone : Type := mkTimeZone {
  offsetAt : Z -> Z;
  offsetAtLocal : Z -> Z
}.

Section Local.
Variable tza : TimeZone.

Definition LocalTime (t : Z) : Z := t + offsetAt tza t.
Definition UTC (t : Z) : Z := t - offsetAtLocal tza t.

Definition getFullYear (d : Date) : option Z :=
  match d with None => None | Some t => Some (YearFromTime (LocalTime t)) end.

Definition getMonth (d : Date) : option Z :=
  match d with None => None | Some t => Some (MonthFromTime (LocalTime t)) end.

(** [d.setMonth(m)]: an invalid date stays invalid. *)
Definition setMonth (d : Date) (m : option Z) : Date :=
  match d, m with
  | Some t0, Some m =>
      let t := LocalTime t0 in
      TimeClip (UTC (MakeDate (MakeDay (YearFromTime t) m (DateFromTime t))
                              (TimeWithinDay t)))
  | _, _ => None
  end.

(** [d.setFullYear(y)]: an invalid date is read as time value [+0]. *)
Definition setFullYear (d : Date) (y : option Z) : Date :=
  match y with
  | Some y =>
      let t := match d with Some t0 => LocalTime t0 | None => 0 end in
      TimeClip (UTC (MakeDate (MakeDay y (MonthFromTime t) (DateFromTime t))
                              (TimeWithinDay t)))
  | None => None
  end.

(** [d.setMonth(d.getMonth() + 1)] and [d.setFullYear(d.getFullYear() + 1)]. *)
Definition addOneMonth (d : Date) : Date :=
  setMonth d (match getMonth d with Some m => Some (m + 1) | None => None end).

Definition addOneYear (d : Date) : Date :=
  setFullYear d (match getFullYear d with Some y => Some (y + 1) | None => None end).

Definition pad2 (n : Z) : string :=
  if n <? 10 then "0" +:+ pretty n else pretty n.

(** [d.toLocaleDateString("fr-FR")]: day/month/year in local time. *)
Definition toLocaleDateString_frFR (d : Date) : string :=
  match d with
  | None => "Invalid Date"
  | Some t0 =>
      let t := LocalTime t0 in
      pad2 (DateFromTime t) +:+ "/" +:+ pad2 (MonthFromTime t + 1) +:+ "/"
        +:+ pretty (YearFromTime t)
  end.
End Local.

(** [Math.max(0, Math.ceil(diff / msPerDay))]. *)
Definition daysRemaining (endTime now : Z) : Z :=
  Z.max 0 (- ((- (endTime - now)) / msPerDay)).

End JsDate.

(** ** JavaScript values, objects and exceptions *)

Inductive JsVal : Type :=
  | JNull
  | JBool (b : bool)
  | JNum (n : Z)
  | JNaN
  | JStr (s : string)
  | JDate (d : JsDate.Date).

#[global] Instance JsVal_eq_dec : EqDecision JsVal.
Proof. solve_decision. Defined.

(** A plain object or a document: property name to value; a name that is
    not bound reads as [undefined]. *)
Abbreviation Obj := (gmap string JsVal).

(** [ToBoolean]; [undefined] is falsy, every object (a [Date] too) truthy. *)
Definition truthy (v : option JsVal) : bool :=
  match v with
  | None | Some JNull | Some JNaN => false
  | Some (JBool b) => b
  | Some (JNum n) => negb (n =? 0)
  | Some (JStr s) => negb (String.eqb s "")
  | Some (JDate _) => true
  end.

(** [v === w] for a property read and a primitive literal. *)
Definition strictEq (v : option JsVal) (w : JsVal) : bool :=
  match v with
  | Some u => bool_decide (u = w)
  | None => false
  end.

Record JsError : Type := mkError {
  message : string;
  code : option string
}.

Definition Error (msg : string) : JsError := mkError msg None.

(** ** The world and the monad of [async] functions

    A computation reads and changes a world and either returns a value or
    throws; what it changed before throwing stays changed. *)

Inductive Result (A : Type) : Type :=
  | Return (a : A)
  | Throw (e : JsError).
Arguments Return {A} a.
Arguments Throw {A} e.

Definition M (W A : Type) : Type := W -> Result A * W.

Definition ret {W A} (a : A) : M W A := fun w => (Return a, w).
Definition throw {W A} (e : JsError) : M W A := fun w => (Throw e, w).

Definition bind {W A B} (c : M W A) (k : A -> M W B) : M W B :=
  fun w =>
    match c w with
    | (Return a, w') => k a w'
    | (Throw e, w') => (Throw e, w')
    end.

(** [try { body } catch (e) { handler }] *)
Definition try_catch {W A} (body : M W A) (handler : JsError -> M W A) : M W A :=
  fun w =>
    match body w with
    | (Return a, w') => (Return a, w')
    | (Throw e, w') => handler e w'
    end.

Definition gets {W A} (f : W -> A) : M W A := fun w => (Return (f w), w).
Definition modify {W} (f : W -> W) : M W unit := fun w => (Return tt, f w).

Declare Scope js_scope.
Delimit Scope js_scope with js.
Notation "x <- c ;; k" := (bind c (fun x => k))
  (at level 100, c at next level, right associativity) : js_scope.
Notation "c ;;; k" := (bind c (fun _ => k))
  (at level 100, right associativity) : js_scope.

(** ** The payment gateway, seen from the service *)

Record StripeSubscription : Type := mkStripeSub {
  stripe_id : string;
  cancel_at_period_end : bool;
  (** epoch seconds; [None] when the property is missing *)
  current_period_end : option Z;
  (** the ids of [items.data] *)
  items_data : list string
}.

Inductive StripeUpdate : Type :=
  | SetCancelAtPeriodEnd (flag : bool) (metadata : Obj)
  | SwapPriceItem (item : string) (price : string)
                  (proration_behavior : string) (metadata : Obj).

(** ** The stores *)

Inductive StoreOp : Type :=
  | SubscriptionFind
  | SubscriptionUpdate
  | UserUpdate.

(** Calls that leave the process, in the order they were issued. *)
Inductive Call : Type :=
  | CallStripeRetrieve (id : string)
  | CallStripeUpdate (id : string) (params : StripeUpdate)
  | CallUserUpdate (id : string) (update : Obj)
  | CallSubscriptionUpdate (userId : string) (update : Obj).

Definition isStripeCall (c : Call) : bool :=
  match c with
  | CallStripeRetrieve _ | CallStripeUpdate _ _ => true
  | _ => false
  end.

Record World : Type := mkWorld {
  (** the Subscription collection; [userId] carries a unique index *)
  subscriptions : gmap string Obj;
  (** the User collection, by [_id] *)
  users : gmap string Obj;
  calls : list Call
}.

(** What the process does not control: the clock, the time zone, the
    configuration, the host's [Date.parse], the driver's test for a
    well-formed ObjectId string, how the gateway answers and whether a
    store operation is rejected. *)
Record Env : Type := mkEnv {
  clock : Z;
  tza : JsDate.TimeZone;
  dateParse : string -> option Z;
  validObjectId : string -> bool;
  STRIPE_PRICE_ANNUAL_ID : option string;
  STRIPE_PRICE_MONTHLY_ID : option string;
  stripe_retrieve : string -> Result StripeSubscription;
  stripe_update : string -> StripeUpdate -> Result StripeSubscription;
  storeFault : StoreOp -> option JsError
}.

Local Open Scope js_scope.

Section WithEnv.
Variable env : Env.

(** [new Date()] *)
Definition newDate : JsDate.Date := Some (clock env).

(** [new Date(v)] for a defined [v]. *)
Definition toDate (v : JsVal) : JsDate.Date :=
  match v with
  | JNull => Some 0
  | JBool b => Some (if b then 1 else 0)
  | JNum n => JsDate.TimeClip n
  | JNaN => None
  | JStr s => dateParse env s
  | JDate d => d
  end.

(** *** models/Subscription.js *)

Inductive SchemaType : Type := TString | TDate | TBoolean | TNumber | TObjectId.

Definition SubscriptionSchema : list (string * SchemaType) :=
  [ ("userId", TObjectId); ("plan", TString); ("startDate", TDate);
    ("endDate", TDate); ("isActive", TBoolean); ("status", TString);
    ("paymentMethod", TString); ("cancelationType", TString);
    ("stripeCustomerId", TString); ("stripeSubscriptionId", TString);
    ("stripePriceId", TString); ("sessionId", TString);
    ("lastPaymentDate", TDate); ("lastTransactionId", TString);
    ("paymentStatus", TString); ("paymentFailureReason", TString);
    ("lastFailureDate", TDate); ("refundStatus", TString);
    ("refundAmount", TNumber); ("refundDate", TDate);
    ("refundReason", TString); ("totalPaid", TNumber);
    ("totalRefunded", TNumber);
    (* timestamps: true *)
    ("createdAt", TDate); ("updatedAt", TDate) ].

(** The [default:] entries of the schema. *)
Definition schemaDefaults : Obj :=
  list_to_map
    [ ("plan", JStr "free"); ("startDate", JDate newDate);
      ("isActive", JBool true); ("status", JStr "active");
      ("paymentMethod", JStr "stripe"); ("cancelationType", JNull);
      ("paymentStatus", JStr "success"); ("refundStatus", JStr "none");
      ("refundAmount", JNum 0); ("refundDate", JNull);
      ("refundReason", JNull); ("totalPaid", JNum 0);
      ("totalRefunded", JNum 0) ].

(** [SubscriptionSchema.pre("save")], run on the document being saved:
    drop an invalid [endDate], then deactivate an expired cancellation.
    Reading [getTime] off a value that is not a [Date] throws. *)
Definition preSave (this : Obj) : Result Obj :=
  let dropInvalid : Result Obj :=
    if truthy (this !! "endDate") then
      match this !! "endDate" with
      | Some (JStr "Invalid Date") => Return (delete "endDate" this)
      | Some (JDate d) =>
          if JsDate.isNaN_getTime d then Return (delete "endDate" this)
          else Return this
      | _ => Throw (Error "this.endDate.getTime is not a function")
      end
    else Return this in
  match dropInvalid with
  | Throw e => Throw e
  | Return this1 =>
      if strictEq (this1 !! "status") (JStr "canceled")
         && truthy (this1 !! "endDate")
         && match this1 !! "endDate" with
            | Some (JDate (Some t)) => t <=? clock env
            | _ => false
            end
      then Return (<["isActive" := JBool false]> this1)
      else Return this1
  end.

(** [SubscriptionSchema.pre("findOneAndUpdate")], run on the update. *)
Definition preFindOneAndUpdate (update : Obj) : Obj :=
  match update !! "endDate" with
  | None => update
  | Some v =>
      if bool_decide (v = JNull) || bool_decide (v = JStr "null")
         || bool_decide (v = JStr "")
      then delete "endDate" update
      else if JsDate.isNaN_getTime (toDate v) then delete "endDate" update
      else update
  end.

(** *** The driver: queries and updates on the two collections

    The object-document mapper is not part of the repository; what
    follows is its documented behaviour for the calls the service makes:
    the filter's [userId] must be a well-formed id, the update is
    restricted to the paths of the schema (strict mode), stamped
    ([timestamps: true]) and its [Date] paths are cast, an upsert inserts
    the schema defaults, and the updated document is returned
    ([new: true]).  The records of the collection are taken to carry
    every path that has a default, as the records the upsert below makes
    do, so that the document the mapper hands out is the record
    stored. *)

Definition storeOp (op : StoreOp) : M World unit :=
  match storeFault env op with
  | Some e => throw e
  | None => ret tt
  end.

Definition logCall (c : Call) : M World unit :=
  modify (fun w => mkWorld (subscriptions w) (users w) (calls w ++ [c])).

Definition castError (path : string) : JsError :=
  Error ("Cast failed at path " +:+ path).

Inductive Cond : Type :=
  | Is (path : string) (v : JsVal)
  | IsNot (path : string) (v : JsVal).

Definition satisfies (doc : Obj) (c : Cond) : bool :=
  match c with
  | Is k v => strictEq (doc !! k) v
  | IsNot k v => negb (strictEq (doc !! k) v)
  end.

(** [Subscription.findOne({ userId, ...conds })] *)
Definition Subscription_findOne (userId : string) (conds : list Cond)
  : M World (option Obj) :=
  if validObjectId env userId then
    storeOp SubscriptionFind ;;;
    docs <- gets subscriptions ;;
    ret (match docs !! userId with
         | Some doc => if forallb (satisfies doc) conds then Some doc else None
         | None => None
         end)
  else throw (castError "userId").

(** The value of a string of decimal digits, after the digits [acc]. *)
Fixpoint digits (s : string) (acc : Z) : option Z :=
  match s with
  | EmptyString => Some acc
  | String c rest =>
      let n := Z.of_N (Ascii.N_of_ascii c) - 48 in
      if (0 <=? n) && (n <=? 9) then digits rest (10 * acc + n) else None
  end.

(** [Number(s)] for a string that writes a whole number as decimal digits
    after an optional sign; the other notations of a number (a fraction,
    an exponent, a radix prefix, blanks around it) are not read here. *)
Definition wholeNumber (s : string) : option Z :=
  match s with
  | EmptyString => None
  | String c rest =>
      if String.eqb (String c "") "+" || String.eqb (String c "") "-" then
        if String.eqb rest "" then None
        else if String.eqb (String c "") "-" then Z.opp <$> digits rest 0
        else digits rest 0
      else digits s 0
  end.

(** The cast of a [Date] path.  [null] and the empty string cast to
    [null]; a number is a time value; a string that writes a whole number
    of at least 275761 or below -271820 (more than a year can be) is read
    as that number of milliseconds, and any other string goes to
    [new Date(s)]; what gives no valid date is a cast error. *)
Definition castDate (path : string) (v : JsVal) : Result JsVal :=
  let dated (d : JsDate.Date) : Result JsVal :=
    match d with
    | Some t => Return (JDate (Some t))
    | None => Throw (castError path)
    end in
  match v with
  | JNull => Return JNull
  | JDate d => dated d
  | JNum n => dated (JsDate.TimeClip n)
  | JStr s =>
      if String.eqb s "" then Return JNull
      else match wholeNumber s with
           | Some n =>
               if (275761 <=? n) || (n <? -271820) then dated (JsDate.TimeClip n)
               else dated (dateParse env s)
           | None => dated (dateParse env s)
           end
  | _ => Throw (castError path)
  end.

Definition castPath (path : string) (ty : SchemaType) (v : JsVal) : Result JsVal :=
  match ty with
  | TDate => castDate path v
  | _ => Return v
  end.

(** Keep the paths of the schema, cast each; the first path that does not
    cast rejects the update. *)
Fixpoint castUpdate (schema : list (string * SchemaType)) (update : Obj)
  : Result Obj :=
  match schema with
  | [] => Return ∅
  | (path, ty) :: rest =>
      match update !! path with
      | None => castUpdate rest update
      | Some v =>
          match castPath path ty v with
          | Throw e => Throw e
          | Return v' =>
              match castUpdate rest update with
              | Throw e => Throw e
              | Return u => Return (<[path := v']> u)
              end
          end
      end
  end.

Definition liftResult {A} (r : Result A) : M World A :=
  match r with
  | Return a => ret a
  | Throw e => throw e
  end.

Definition setSubscription (userId : string) (doc : Obj) : M World unit :=
  modify (fun w => mkWorld (<[userId := doc]> (subscriptions w)) (users w) (calls w)).

(** [Subscription.findOneAndUpdate({ userId }, update, { upsert, new: true })] *)
Definition Subscription_findOneAndUpdate (userId : string) (update : Obj)
    (upsert : bool) : M World (option Obj) :=
  logCall (CallSubscriptionUpdate userId update) ;;;
  (if validObjectId env userId then ret tt else throw (castError "userId")) ;;;
  (* timestamps: true *)
  let update1 := <["updatedAt" := JDate newDate]> (preFindOneAndUpdate update) in
  set <- liftResult (castUpdate SubscriptionSchema update1) ;;
  storeOp SubscriptionUpdate ;;;
  docs <- gets subscriptions ;;
  match docs !! userId with
  | Some doc =>
      let doc' := set ∪ doc in
      setSubscription userId doc' ;;;
      ret (Some doc')
  | None =>
      if upsert then
        let doc' :=
          set ∪ (<["userId" := JStr userId]>
                   (<["createdAt" := JDate newDate]> schemaDefaults)) in
        setSubscription userId doc' ;;;
        ret (Some doc')
      else ret None
  end.

(** [User.findByIdAndUpdate(id, update)]: no upsert; the User schema has
    [timestamps: true]. *)
Definition User_findByIdAndUpdate (id : string) (update : Obj) : M World unit :=
  logCall (CallUserUpdate id update) ;;;
  storeOp UserUpdate ;;;
  modify (fun w =>
    mkWorld (subscriptions w)
            (match users w !! id with
             | Some u =>
                 <[id := <["updatedAt" := JDate newDate]> update ∪ u]> (users w)
             | None => users w
             end)
            (calls w)).

(** *** services/subscriptionIntegrationService.js *)

(** Lines 21-48 of [updateSubscription]: the check of [data.endDate]. *)
Definition checkEndDate (data : Obj) : Obj :=
  match data !! "endDate" with
  | None => data
  | Some v =>
      if bool_decide (v = JNull) || bool_decide (v = JStr "null")
         || bool_decide (v = JStr "")
      then delete "endDate" data
      else if truthy (Some v) && JsDate.isNaN_getTime (toDate v)
      then delete "endDate" data
      else if truthy (Some v)
      then <["endDate" := JDate (toDate v)]> data
      else data
  end.

(** Lines 50-70: which role, if any, is written. *)
Definition roleChange (data : Obj) : option string :=
  if strictEq (data !! "updateUserRole") (JBool true) then
    if strictEq (data !! "status") (JStr "active") && truthy (data !! "isActive")
    then Some "premium"
    else if strictEq (data !! "status") (JStr "canceled")
            && negb (truthy (data !! "isActive"))
    then Some "user"
    else None
  else None.

Definition updateSubscription (userId : string) (data : Obj) : M World Obj :=
  (* new mongoose.Types.ObjectId(userId) *)
  (if validObjectId env userId then ret tt
   else throw (Error "input must be a 24 character hex string")) ;;;
  let data := checkEndDate data in
  match roleChange data with
  | Some role => User_findByIdAndUpdate userId {["role" := JStr role]}
  | None => ret tt
  end ;;;
  updated <- Subscription_findOneAndUpdate userId
               (<["updatedAt" := JDate newDate]> data) true ;;
  match updated with
  | Some doc => ret doc
  | None => throw (Error "Cannot read properties of null (reading 'status')")
  end.

(** A property whose value is [undefined] is not sent to the store. *)
Definition setDefined (k : string) (v : option JsVal) (o : Obj) : Obj :=
  match v with
  | Some v => <[k := v]> o
  | None => o
  end.

Definition recordSubscriptionPayment (userId : string) (paymentData : Obj)
  : M World (option Obj) :=
  Subscription_findOneAndUpdate userId
    (setDefined "lastTransactionId" (paymentData !! "transactionId")
       (list_to_map
          [ ("lastPaymentDate", JDate newDate);
            ("paymentStatus", JStr "success") ]))
    false.

Definition recordPaymentFailure (userId : string) (failureData : Obj)
  : M World (option Obj) :=
  Subscription_findOneAndUpdate userId
    (setDefined "paymentFailureReason" (failureData !! "failureReason")
       (list_to_map
          [ ("paymentStatus", JStr "failed");
            ("lastFailureDate", JDate newDate) ]))
    false.

(** [stripe.subscriptions.retrieve] and [stripe.subscriptions.update] *)
Definition stripe_subscriptions_retrieve (id : string) : M World StripeSubscription :=
  logCall (CallStripeRetrieve id) ;;;
  liftResult (stripe_retrieve env id).

Definition stripe_subscriptions_update (id : string) (params : StripeUpdate)
  : M World StripeSubscription :=
  logCall (CallStripeUpdate id params) ;;;
  liftResult (stripe_update env id params).

(** [endDate = new Date()] followed by [setFullYear(getFullYear() + 1)]
    for the annual plan and by [setMonth(getMonth() + 1)] otherwise. *)
Definition localEndDate (plan : option JsVal) : JsDate.Date :=
  if strictEq plan (JStr "annual")
  then JsDate.addOneYear (tza env) newDate
  else JsDate.addOneMonth (tza env) newDate.

(** [!endDate || isNaN(endDate.getTime())] *)
Definition lacksValidDate (endDate : option JsVal) : Result bool :=
  if negb (truthy endDate) then Return true
  else match endDate with
       | Some (JDate d) => Return (JsDate.isNaN_getTime d)
       | _ => Throw (Error "endDate.getTime is not a function")
       end.

(** [new Date(seconds * 1000)] *)
Definition dateOfSeconds (seconds : Z) : JsVal :=
  JDate (JsDate.TimeClip (seconds * 1000)).

(** [subscription.stripeSubscriptionId], when truthy.  The path has type
    String: a document holds a string, [null] or nothing there. *)
Definition remoteId (subscription : Obj) : option string :=
  match subscription !! "stripeSubscriptionId" with
  | Some (JStr id) => if String.eqb id "" then None else Some id
  | _ => None
  end.

Definition msgAlreadyScheduled (endDateFormatted : string) : string :=
  "Votre abonnement est déjà programmé pour annulation le "
    +:+ endDateFormatted
    +:+ ". Vous pouvez le réactiver si vous changez d'avis.".

Definition msgExpired : string :=
  "Votre abonnement a déjà expiré. Vous pouvez souscrire à un nouveau plan depuis la page Premium.".

Definition msgNothingToCancel : string := "Aucun abonnement à annuler trouvé.".

(** Lines 237-290 of [cancelSubscriptionAtPeriodEnd]: the record to
    cancel, or the reason there is none. *)
(** The filters of the queries, next to [userId]. *)
Definition activeRecord : list Cond :=
  [Is "status" (JStr "active"); Is "isActive" (JBool true)].

Definition scheduledRecord : list Cond :=
  [ Is "status" (JStr "canceled"); Is "isActive" (JBool true);
    IsNot "cancelationType" (JStr "immediate") ].

Definition expiredRecord : list Cond :=
  [Is "status" (JStr "canceled"); Is "isActive" (JBool false)].

Definition reactivableRecord : list Cond :=
  [ Is "status" (JStr "canceled"); Is "isActive" (JBool true);
    Is "cancelationType" (JStr "end_of_period") ].

Definition findCancellable (userId : string) : M World Obj :=
  active <- Subscription_findOne userId activeRecord ;;
  match active with
  | Some subscription => ret subscription
  | None =>
      scheduled <- Subscription_findOne userId scheduledRecord ;;
      match scheduled with
      | Some subscription =>
          let endDateFormatted :=
            if truthy (subscription !! "endDate") then
              JsDate.toLocaleDateString_frFR (tza env)
                (match subscription !! "endDate" with
                 | Some v => toDate v
                 | None => None
                 end)
            else "fin de période" in
          throw (Error (msgAlreadyScheduled endDateFormatted))
      | None =>
          expiredSub <- Subscription_findOne userId expiredRecord ;;
          match expiredSub with
          | Some _ => throw (Error msgExpired)
          | None => throw (Error msgNothingToCancel)
          end
      end
  end.

(** The update sent at line 332; [canceled_at] is the clock, which the
    source formats with [toISOString]. *)
Definition scheduleCancellation : StripeUpdate :=
  SetCancelAtPeriodEnd true
    (list_to_map [ ("canceled_by_user", JStr "true");
                   ("canceled_at", JDate newDate) ]).

(** Lines 302-377: the body of the [try] around the gateway calls. *)
Definition cancelRemotely (id : string) (subscription : Obj) : M World (option JsVal) :=
  let endDate := subscription !! "endDate" in
  current <- stripe_subscriptions_retrieve id ;;
  endDate <-
    (if cancel_at_period_end current then
       ret (match current_period_end current with
            | Some cpe => if cpe =? 0 then endDate else Some (dateOfSeconds cpe)
            | None => endDate
            end)
     else
       updated <- stripe_subscriptions_update id scheduleCancellation ;;
       ret (match current_period_end updated with
            | Some cpe => if 0 <? cpe then Some (dateOfSeconds cpe) else endDate
            | None => endDate
            end)) ;;
  lacks <- liftResult (lacksValidDate endDate) ;;
  if lacks then ret (Some (JDate (localEndDate (subscription !! "plan"))))
  else ret endDate.

(** The fields persisted at line 434. *)
Definition cancellation (endDate : option JsVal) : Obj :=
  setDefined "endDate" endDate
    (list_to_map
       [ ("status", JStr "canceled"); ("isActive", JBool true);
         ("cancelationType", JStr "end_of_period");
         ("updateUserRole", JBool false) ]).

(** Lines 299-423: the end date, from the gateway when the record has a
    remote id and from the clock otherwise. *)
Definition determineEndDate (subscription : Obj) : M World (option JsVal) :=
  match remoteId subscription with
  | Some id =>
      try_catch (cancelRemotely id subscription)
        (fun stripeError =>
           if bool_decide (code stripeError = Some "resource_missing")
           then ret (Some (JDate (localEndDate (subscription !! "plan"))))
           else throw (Error ("Échec programmation annulation Stripe: "
                                +:+ message stripeError)))
  | None => ret (Some (JDate (localEndDate (subscription !! "plan"))))
  end.

Definition cancelSubscriptionAtPeriodEnd (userId : string) : M World Obj :=
  subscription <- findCancellable userId ;;
  endDate <- determineEndDate subscription ;;
  lacks <- liftResult (lacksValidDate endDate) ;;
  if lacks then
    throw (Error "Impossible de déterminer la date de fin d'abonnement")
  else
    try_catch
      (updatedSubscription <-
         updateSubscription userId (cancellation endDate) ;;
       match endDate with
       | Some (JDate (Some t)) =>
           ret (<["daysRemaining" := JNum (JsDate.daysRemaining t (clock env))]>
                  updatedSubscription)
       | _ => ret updatedSubscription
       end)
      (fun dbError =>
         throw (Error ("Erreur sauvegarde annulation: " +:+ message dbError))).

Definition msgNothingReactivable : string :=
  "Aucun abonnement annulé réactivable trouvé.".

(** The update sent at line 495. *)
Definition clearCancellation : StripeUpdate :=
  SetCancelAtPeriodEnd false
    (list_to_map [ ("reactivated_by_user", JStr "true");
                   ("reactivated_at", JDate newDate) ]).

(** The fields persisted at line 523. *)
Definition reactivation : Obj :=
  list_to_map
    [ ("status", JStr "active"); ("isActive", JBool true);
      ("cancelationType", JNull); ("updateUserRole", JBool true) ].

Definition reactivateSubscription (userId : string) : M World Obj :=
  found <- Subscription_findOne userId reactivableRecord ;;
  match found with
  | None => throw (Error msgNothingReactivable)
  | Some subscription =>
      match remoteId subscription with
      | Some id =>
          try_catch
            (stripe_subscriptions_update id clearCancellation ;;;
             ret tt)
            (fun stripeError =>
               throw (Error ("Échec réactivation Stripe: " +:+ message stripeError)))
      | None => ret tt
      end ;;;
      updateSubscription userId reactivation
  end.

Record PlanChange : Type := mkPlanChange {
  pc_subscription : Obj;
  oldPlan : option JsVal;
  newPlan : string;
  effectiveDate : JsDate.Date;
  prorationAmount : float
}.

Definition monthlyPrice : float := 9.99%float.
Definition annualPrice : float := 99.99%float.

(** Lines 636-649 of [changePlan]. *)
Definition proration (oldPlan : option JsVal) (newPlan : string) : float :=
  if strictEq oldPlan (JStr "monthly") && String.eqb newPlan "annual"
  then (- (monthlyPrice * 12 - annualPrice))%float
  else if strictEq oldPlan (JStr "annual") && String.eqb newPlan "monthly"
  then (annualPrice / 12 - monthlyPrice)%float
  else 0%float.

(** Lines 621-634 and 673-680: one period ahead of now. *)
Definition periodAhead (newPlan : string) : JsDate.Date :=
  if String.eqb newPlan "annual" then JsDate.addOneYear (tza env) newDate
  else if String.eqb newPlan "monthly" then JsDate.addOneMonth (tza env) newDate
  else newDate.

(** The update sent at line 602. *)
Definition swapPrice (item price : string) (oldPlan : option JsVal) (newPlan : string)
  : StripeUpdate :=
  SwapPriceItem item price "create_prorations"
    (setDefined "old_plan" oldPlan
       (list_to_map [ ("changed_by_user", JStr "true");
                      ("changed_at", JDate newDate);
                      ("new_plan", JStr newPlan) ])).

(** Lines 575-657: the body of the [try] around the gateway calls. *)
Definition changeRemotely (id : string) (oldPlan : option JsVal) (newPlan : string)
  : M World (JsDate.Date * float) :=
  let newPriceId :=
    if String.eqb newPlan "annual" then STRIPE_PRICE_ANNUAL_ID env
    else STRIPE_PRICE_MONTHLY_ID env in
  match newPriceId with
  | Some price =>
      if String.eqb price "" then
        throw (Error ("Price ID non défini pour le plan " +:+ newPlan))
      else
        stripeSubscription <- stripe_subscriptions_retrieve id ;;
        match items_data stripeSubscription with
        | [] => throw (Error "Cannot read properties of undefined (reading 'id')")
        | item :: _ =>
            stripe_subscriptions_update id (swapPrice item price oldPlan newPlan) ;;;
            ret (periodAhead newPlan, proration oldPlan newPlan)
        end
  | None => throw (Error ("Price ID non défini pour le plan " +:+ newPlan))
  end.

(** Lines 570-681: the new end date and the proration, through the
    gateway when the record has a remote id. *)
Definition determineChange (subscription : Obj) (newPlan : string)
  : M World (JsDate.Date * float) :=
  match remoteId subscription with
  | Some id =>
      try_catch (changeRemotely id (subscription !! "plan") newPlan)
        (fun stripeError =>
           throw (Error ("Échec changement de plan Stripe: "
                           +:+ message stripeError)))
  | None => ret (periodAhead newPlan, 0%float)
  end.

(** The fields persisted at line 685. *)
Definition planUpdate (newPlan : string) (effectiveDate : JsDate.Date) : Obj :=
  list_to_map
    [ ("plan", JStr newPlan); ("endDate", JDate effectiveDate);
      ("updateUserRole", JBool false) ].

Definition changePlan (userId : string) (newPlan : string) : M World PlanChange :=
  found <- Subscription_findOne userId activeRecord ;;
  match found with
  | None => throw (Error "Aucun abonnement actif trouvé pour changer le plan.")
  | Some subscription =>
      if strictEq (subscription !! "plan") (JStr newPlan) then
        throw (Error ("Vous êtes déjà sur le plan " +:+ newPlan +:+ "."))
      else
        let oldPlan := subscription !! "plan" in
        change <- determineChange subscription newPlan ;;
        try_catch
          (updatedSubscription <-
             updateSubscription userId (planUpdate newPlan (fst change)) ;;
           ret (mkPlanChange updatedSubscription oldPlan newPlan
                             (fst change) (snd change)))
          (fun dbError =>
             throw (Error ("Erreur sauvegarde changement plan: "
                             +:+ message dbError)))
  end.

End WithEnv.

(** ** HTTP responses and gateway events *)

Inductive Body : Type :=
  | Json (payload : option Obj)
  | Text (payload : string).

Record Response : Type := mkResponse {
  statusCode : Z;
  body : Body
}.

(** [event.data.object]: a gateway object has an id and further fields. *)
Record StripeObject : Type := mkStripeObject {
  object_id : string;
  object_fields : Obj
}.

Record Event : Type := mkEvent {
  event_type : string;
  event_object : StripeObject
}.

Record Request : Type := mkRequest {
  stripe_signature : option string;
  rawBody : option string
}.

(** ** controllers/webhookController.js *)

Module WebhookController.
Section Dispatcher.
(** The handlers the class defines are left arbitrary: computations over
    any world that return the value handed to [res.json] or throw. *)
Variable W : Type.
Variable handleCheckoutSessionCompleted : StripeObject -> M W (option Obj).
Variable handleSubscriptionUpdated : StripeObject -> M W (option Obj).
Variable handleInvoicePaid : StripeObject -> M W (option Obj).
Variable handleInvoicePaymentFailed : StripeObject -> M W (option Obj).
(** [stripe.webhooks.constructEvent(req.body, sig, endpointSecret)] *)
Variable constructEvent : Request -> Result Event.

(** The class has no static method [handleSubscriptionDeleted]: the call
    in the switch applies [undefined]. *)
Definition handleSubscriptionDeleted (_ : StripeObject) : M W (option Obj) :=
  throw (Error "WebhookController.handleSubscriptionDeleted is not a function").

(** [res.json(v)] answers with the status set so far, 200 by default. *)
Definition res_json (payload : option Obj) : Response := mkResponse 200 (Json payload).

Definition route (event : Event) : option (StripeObject -> M W (option Obj)) :=
  if String.eqb (event_type event) "checkout.session.completed"
  then Some handleCheckoutSessionCompleted
  else if String.eqb (event_type event) "customer.subscription.deleted"
  then Some handleSubscriptionDeleted
  else if String.eqb (event_type event) "customer.subscription.updated"
  then Some handleSubscriptionUpdated
  else if String.eqb (event_type event) "invoice.paid"
  then Some handleInvoicePaid
  else if String.eqb (event_type event) "invoice.payment_failed"
  then Some handleInvoicePaymentFailed
  else None.

Definition processWebhookEvent (event : Event) : M W Response :=
  try_catch
    (match route event with
     | Some handler =>
         result <- handler (event_object event) ;;
         ret (res_json result)
     | None =>
         ret (mkResponse 200
                (Json (Some (list_to_map [ ("received", JBool true);
                                           ("ignored", JBool true) ]))))
     end)
    (fun error =>
       ret (mkResponse 200
              (Json (Some (list_to_map [ ("received", JBool true);
                                         ("error", JStr (message error)) ]))))).

Definition handleStripeWebhook (req : Request) : M W Response :=
  match constructEvent req with
  | Throw err => ret (mkResponse 400 (Text ("Webhook Error: " +:+ message err)))
  | Return event => processWebhookEvent event
  end.

End Dispatcher.
End WebhookController.

(** ** controllers/webhook.controller.js

    This controller works on the second Subscription model (the one with
    [canceledAt] and [currentPeriodEnd], no hooks), reaches the user
    service over HTTP and sends e-mails.  The records of its collection
    are taken to carry the paths that have a default ([status],
    [cancelAtPeriodEnd]). *)

Module Webhook_controller.

Inductive Outgoing : Type :=
  | PatchUserSubscription (userId : option JsVal) (subscriptionData : Obj)
  | GetUserById (userId : option JsVal)
  (** the text and html bodies of the message are not recorded *)
  | SendEmail (to : option JsVal) (subject : string).

Record World : Type := mkWorld {
  (** the collection of the model; [stripeSubscriptionId] is unique *)
  subscriptions : gmap string Obj;
  outgoing : list Outgoing
}.

Inductive Op : Type :=
  | OpFindOne
  | OpSave
  | OpPatchUser
  | OpSendEmail.

Record Env : Type := mkEnv {
  clock : Z;
  fault : Op -> option JsError;
  (** the error by which the mapper rejects a document that lacks
      required paths *)
  validationError : Obj -> JsError;
  (** the answer of the user service to [GET /:id] *)
  getUser : option JsVal -> Result Obj;
  (** [stripeService.constructWebhookEvent(rawBody, sig)] *)
  constructWebhookEvent : string -> string -> Result Event
}.

(** The paths the schema of the model declares [required: true]. *)
Definition requiredPaths : list string :=
  [ "userId"; "stripeSubscriptionId"; "stripeCustomerId"; "planId"; "planName";
    "currentPeriodStart"; "currentPeriodEnd" ].

(** What the validator of a required path rejects: no value, [null] and
    the empty string. *)
Definition lacks (doc : Obj) (path : string) : bool :=
  match doc !! path with
  | None | Some JNull => true
  | Some (JStr s) => String.eqb s ""
  | Some _ => false
  end.

Section Controller.
Variable env : Env.

Definition attempt (op : Op) : M World unit :=
  match fault env op with
  | Some e => throw e
  | None => ret tt
  end.

Definition send (c : Outgoing) : M World unit :=
  modify (fun w => mkWorld (subscriptions w) (outgoing w ++ [c])).

(** [Subscription.findOne({ stripeSubscriptionId })] *)
Definition Subscription_findOne (stripeSubscriptionId : string) : M World (option Obj) :=
  attempt OpFindOne ;;;
  docs <- gets subscriptions ;;
  ret (docs !! stripeSubscriptionId).

(** [doc.save()] on a document that was read as [loaded]: the document is
    validated, then written; the schema has [timestamps: true], which
    stamps a document that has changed. *)
Definition save (stripeSubscriptionId : string) (loaded doc : Obj) : M World unit :=
  (if existsb (lacks doc) requiredPaths then throw (validationError env doc)
   else ret tt) ;;;
  attempt OpSave ;;;
  let doc :=
    if bool_decide (doc = loaded) then doc
    else <["updatedAt" := JDate (Some (clock env))]> doc in
  modify (fun w => mkWorld (<[stripeSubscriptionId := doc]> (subscriptions w))
                            (outgoing w)).

Definition userService_updateUserSubscription (userId : option JsVal) (data : Obj)
  : M World unit :=
  send (PatchUserSubscription userId data) ;;;
  attempt OpPatchUser.

Definition userService_getUserById (userId : option JsVal) : M World Obj :=
  send (GetUserById userId) ;;;
  match getUser env userId with
  | Return u => ret u
  | Throw e => throw e
  end.

Definition emailService_sendEmail (to : option JsVal) (subject : string) : M World unit :=
  send (SendEmail to subject) ;;;
  attempt OpSendEmail.

(** [try { body } catch (error) { console.error(...) }] *)
Definition swallow (body : M World unit) : M World unit :=
  try_catch body (fun _ => ret tt).

Definition handleSubscriptionDeleted (subscription : StripeObject) : M World unit :=
  try_catch
    (existing <- Subscription_findOne (object_id subscription) ;;
     match existing with
     | None => ret tt
     | Some loaded =>
         let existingSubscription :=
           <["canceledAt" := JDate (Some (clock env))]>
             (<["status" := JStr "canceled"]> loaded) in
         save (object_id subscription) loaded existingSubscription ;;;
         swallow
           (userService_updateUserSubscription (existingSubscription !! "userId")
              (setDefined "subscriptionEndDate"
                 (existingSubscription !! "currentPeriodEnd")
                 {["subscriptionStatus" := JStr "canceled"]})) ;;;
         swallow
           (user <- userService_getUserById (existingSubscription !! "userId") ;;
            emailService_sendEmail (user !! "email") "Fin d'abonnement")
     end)
    (fun error => throw error).

(** The methods of the controller instance other than the one above. *)
Record Handlers : Type := mkHandlers {
  handlePaymentIntentSucceeded : StripeObject -> M World unit;
  handlePaymentIntentFailed : StripeObject -> M World unit;
  handleSubscriptionCreated : StripeObject -> M World unit;
  handleSubscriptionUpdated : StripeObject -> M World unit;
  handleInvoicePaymentSucceeded : StripeObject -> M World unit;
  handleInvoicePaymentFailed : StripeObject -> M World unit
}.

(** The cases of the switch. *)
Inductive Kind : Type :=
  | PaymentIntentSucceeded
  | PaymentIntentFailed
  | SubscriptionCreated
  | SubscriptionUpdated
  | SubscriptionDeleted
  | InvoicePaymentSucceeded
  | InvoicePaymentFailed.

Definition kindOf (type : string) : option Kind :=
  if String.eqb type "payment_intent.succeeded" then Some PaymentIntentSucceeded
  else if String.eqb type "payment_intent.payment_failed" then Some PaymentIntentFailed
  else if String.eqb type "customer.subscription.created" then Some SubscriptionCreated
  else if String.eqb type "customer.subscription.updated" then Some SubscriptionUpdated
  else if String.eqb type "customer.subscription.deleted" then Some SubscriptionDeleted
  else if String.eqb type "invoice.payment_succeeded" then Some InvoicePaymentSucceeded
  else if String.eqb type "invoice.payment_failed" then Some InvoicePaymentFailed
  else None.

(** [this.handle...]: reading a property of [undefined] throws. *)
Definition method (this : option Handlers) (k : Kind) : StripeObject -> M World unit :=
  match this with
  | None => fun _ => throw (Error "Cannot read properties of undefined")
  | Some self =>
      match k with
      | PaymentIntentSucceeded => handlePaymentIntentSucceeded self
      | PaymentIntentFailed => handlePaymentIntentFailed self
      | SubscriptionCreated => handleSubscriptionCreated self
      | SubscriptionUpdated => handleSubscriptionUpdated self
      | SubscriptionDeleted => handleSubscriptionDeleted
      | InvoicePaymentSucceeded => handleInvoicePaymentSucceeded self
      | InvoicePaymentFailed => handleInvoicePaymentFailed self
      end
  end.

Definition failure (msg : string) (error : option string) : Body :=
  Json (Some (setDefined "error" (JStr <$> error)
                (list_to_map [ ("success", JBool false); ("message", JStr msg) ]))).

(** [handleStripeWebhook(req, res)], called on receiver [this]; the
    receiver is [None] when the method is called detached from the
    instance. *)
Definition handleStripeWebhook (this : option Handlers) (req : Request) : M World Response :=
  match stripe_signature req, rawBody req with
  | Some sig, Some raw =>
      if String.eqb sig "" || String.eqb raw "" then
        ret (mkResponse 400
               (failure "Signature manquante ou corps de requête invalide" None))
      else
        match constructWebhookEvent env raw sig with
        | Throw _ =>
            ret (mkResponse 400 (failure "Signature de webhook invalide" None))
        | Return event =>
            try_catch
              (match kindOf (event_type event) with
               | Some k => method this k (event_object event)
               | None => ret tt
               end ;;;
               ret (mkResponse 200 (Json (Some {["received" := JBool true]}))))
              (fun error =>
                 ret (mkResponse 500
                        (failure ("Erreur lors du traitement de l'événement "
                                    +:+ event_type event)
                                 (Some (message error)))))
        end
  | _, _ =>
      ret (mkResponse 400
             (failure "Signature manquante ou corps de requête invalide" None))
  end.

(** routes/webhook.routes.js:
    [router.post('/stripe', webhookController.handleStripeWebhook)]. *)
Definition postStripe (req : Request) : M World Response :=
  handleStripeWebhook None req.

End Controller.
End Webhook_controller.

(** ** Observations and auxiliary notions used in the statements *)

Definition endDateOf (docs : gmap string Obj) (userId : string) : option JsVal :=
  docs !! userId ≫= (.!! "endDate").

Definition malformed (env : Env) (v : JsVal) : Prop :=
  v = JNull \/ v = JStr "null" \/ v = JStr "" \/ toDate env v = None.

Definition logged (w : World) (c : Call) : World :=
  mkWorld (subscriptions w) (users w) (calls w ++ [c]).

Definition stored (w : World) (userId : string) (doc : Obj) : World :=
  mkWorld (<[userId := doc]> (subscriptions w)) (users w) (calls w).

(** The document an upsert starts from when the user has none. *)
Definition freshDocument (env : Env) (userId : string) : Obj :=
  <["userId" := JStr userId]> (<["createdAt" := JDate (newDate env)]> (schemaDefaults env)).

Definition withRole (env : Env) (userId role : string) (us : gmap string Obj)
  : gmap string Obj :=
  match us !! userId with
  | Some u => <[userId := <["updatedAt" := JDate (newDate env)]> {["role" := JStr role]} ∪ u]> us
  | None => us
  end.

(** The update as the store receives it: cleaned by the hook and
    stamped. *)
Definition stamped (env : Env) (update : Obj) : Obj :=
  <["updatedAt" := JDate (newDate env)]> (preFindOneAndUpdate env update).

(** The world after the role step of [updateSubscription]. *)
Definition afterRole (env : Env) (userId : string) (data : Obj) (w : World)
  : Result unit * World :=
  match roleChange data with
  | Some role => User_findByIdAndUpdate env userId {["role" := JStr role]} w
  | None => (Return tt, w)
  end.

Definition keeps {W A X : Type} (obs : W -> X) (c : M W A) : Prop :=
  forall w, obs (snd (c w)) = obs w.

Definition isThrow {A} (r : Result A) : bool :=
  match r with Throw _ => true | Return _ => false end.

Definition handledTypes : list string :=
  [ "checkout.session.completed"; "customer.subscription.deleted";
    "customer.subscription.updated"; "invoice.paid"; "invoice.payment_failed" ].

Definition ignoredBody : Body :=
  Json (Some (list_to_map [ ("received", JBool true); ("ignored", JBool true) ])).

Definition errorBody (msg : string) : Body :=
  Json (Some (list_to_map [ ("received", JBool true); ("error", JStr msg) ])).

Definition statusOf {W} (r : Result Response * W) : option Z :=
  match fst r with
  | Return resp => Some (statusCode resp)
  | Throw _ => None
  end.

Definition receivedBody : Body := Json (Some {["received" := JBool true]}).

Definition verified (env : Webhook_controller.Env) (req : Request) (event : Event) : Prop :=
  exists sig raw,
    stripe_signature req = Some sig /\ rawBody req = Some raw
    /\ sig <> "" /\ raw <> ""
    /\ Webhook_controller.constructWebhookEvent env raw sig = Return event.

(** The world after the two best-effort notifications of
    [handleSubscriptionDeleted]. *)
Definition notified (env : Webhook_controller.Env) (doc : Obj)
    (w : Webhook_controller.World) : Webhook_controller.World :=
  snd (bind (Webhook_controller.userService_getUserById env (doc !! "userId"))
         (fun user => Webhook_controller.emailService_sendEmail env (user !! "email")
                        "Fin d'abonnement")
         (snd (Webhook_controller.userService_updateUserSubscription env (doc !! "userId")
                 (setDefined "subscriptionEndDate" (doc !! "currentPeriodEnd")
                    {["subscriptionStatus" := JStr "canceled"]})
                 w))).

(** The record [handleSubscriptionDeleted] makes of the record it has
    read, and the record its [save] writes. *)
Definition canceledNow (env : Webhook_controller.Env) (existing : Obj) : Obj :=
  <["canceledAt" := JDate (Some (Webhook_controller.clock env))]>
    (<["status" := JStr "canceled"]> existing).

Definition written (env : Webhook_controller.Env) (existing : Obj) : Obj :=
  if bool_decide (canceledNow env existing = existing) then canceledNow env existing
  else <["updatedAt" := JDate (Some (Webhook_controller.clock env))]>
         (canceledNow env existing).

(** The time value [d] days after [t] by the clock of the zone: the local
    time of [t], moved [d] days on and read back. *)
Definition daysLater (tz : JsDate.TimeZone) (t d : Z) : Z :=
  JsDate.UTC tz (JsDate.LocalTime tz t + d * JsDate.msPerDay).

(** The offsets of the zone lie within [b] milliseconds of one another:
    0 for a zone that keeps one offset, an hour where daylight saving is
    observed. *)
Definition zoneDrift (tz : JsDate.TimeZone) (b : Z) : Prop :=
  forall t l, Z.abs (JsDate.offsetAt tz t - JsDate.offsetAtLocal tz l) <= b.

(** The length in days of a period: a year or a month of the calendar. *)
Definition periodDays (annual : bool) (d : Z) : Prop :=
  if annual then d = 365 \/ d = 366 else 28 <= d <= 31.

(** [subscription.endDate ? new Date(subscription.endDate)
      .toLocaleDateString("fr-FR") : "fin de période"] *)
Definition endDateFormatted (env : Env) (subscription : Obj) : string :=
  if truthy (subscription !! "endDate") then
    JsDate.toLocaleDateString_frFR (tza env)
      (match subscription !! "endDate" with
       | Some v => toDate env v
       | None => None
       end)
  else "fin de période".

(** Lines 357-369: keep the date found or fall back on the local one. *)
Definition settle (env : Env) (subscription : Obj) (endDate : option JsVal) (w : World)
  : Result (option JsVal) * World :=
  match lacksValidDate endDate with
  | Throw e => (Throw e, w)
  | Return true => (Return (Some (JDate (localEndDate env (subscription !! "plan")))), w)
  | Return false => (Return endDate, w)
  end.

Definition field (docs : gmap string Obj) (userId key : string) : option JsVal :=
  docs !! userId ≫= (.!! key).


(** ** Sample environments and worlds *)

(** 15 January 2024, 10:00 UTC. *)
Definition jan15 : Z := 1705312800000.

Definition isoOnly (s : string) : option Z :=
  if String.eqb s "2024-01-15T10:00:00.000Z" then Some jan15 else None.

Definition hex24 (s : string) : bool := (String.length s =? 24)%nat.

Definition resourceMissing : JsError :=
  mkError "No such subscription" (Some "resource_missing").

Definition rateLimited : JsError := mkError "Too many requests" (Some "rate_limit").

(** A zone without offset, and Central European time with its two
    changes of 2024: summer time from 31 March, 01:00 UTC, to 27 October,
    01:00 UTC. *)
Definition utc : JsDate.TimeZone := JsDate.mkTimeZone (fun _ => 0) (fun _ => 0).

Definition paris : JsDate.TimeZone :=
  JsDate.mkTimeZone
    (fun t => if (1711846800000 <=? t) && (t <? 1729990800000)
              then 7200000 else 3600000)
    (fun l => if (1711854000000 <=? l) && (l <? 1729998000000)
              then 7200000 else 3600000).

Definition sampleEnv (retrieve : string -> Result StripeSubscription)
    (update : string -> StripeUpdate -> Result StripeSubscription)
    (faults : StoreOp -> option JsError) : Env :=
  mkEnv jan15 utc isoOnly hex24 (Some "price_annual") (Some "price_monthly")
        retrieve update faults.

(** 15 March 2024, 10:00 UTC: in Paris 11:00, two weeks before summer
    time. *)
Definition mar15 : Z := 1710496800000.

Definition parisEnv (retrieve : string -> Result StripeSubscription)
    (update : string -> StripeUpdate -> Result StripeSubscription) : Env :=
  mkEnv mar15 paris isoOnly hex24 (Some "price_annual") (Some "price_monthly")
        retrieve update (fun _ => None).

Definition noFault : StoreOp -> option JsError := fun _ => None.

(** The gateway knows no subscription. *)
Definition goneEnv : Env :=
  sampleEnv (fun _ => Throw resourceMissing) (fun _ _ => Throw resourceMissing) noFault.

(** The gateway refuses every call. *)
Definition busyEnv : Env :=
  sampleEnv (fun _ => Throw rateLimited) (fun _ _ => Throw rateLimited) noFault.

(** The gateway holds subscription [id], with the flag and period end given. *)
Definition remoteEnv (flag : bool) (periodEnd : Z) : Env :=
  sampleEnv (fun id => Return (mkStripeSub id flag (Some periodEnd) ["si_1"]))
            (fun id _ => Return (mkStripeSub id true (Some periodEnd) ["si_1"]))
            noFault.

(** The Subscription collection rejects updates. *)
Definition readOnlyEnv : Env :=
  sampleEnv (fun _ => Throw resourceMissing) (fun _ _ => Throw resourceMissing)
            (fun op => match op with
                       | SubscriptionUpdate => Some (Error "connection lost")
                       | _ => None
                       end).

Definition alice : string := "64b7f0c2a1d3e4f5a6b7c8d9".

Definition subscriptionOf (plan status : string) (isActive : bool)
    (endDate : option Z) (cancelationType : JsVal) (remote : JsVal) : Obj :=
  setDefined "endDate" (JDate <$> (Some <$> endDate))
    (list_to_map
       [ ("userId", JStr alice); ("plan", JStr plan); ("status", JStr status);
         ("isActive", JBool isActive); ("cancelationType", cancelationType);
         ("stripeSubscriptionId", remote) ]).

Definition worldOf (doc : Obj) (role : string) : World :=
  mkWorld {[alice := doc]} {[alice := {["role" := JStr role]}]} [].

Definition emptyWorld : World := mkWorld ∅ ∅ [].

(** A monthly subscriber, with and without a remote subscription. *)
Definition monthlyRemote : Obj :=
  subscriptionOf "monthly" "active" true (Some (jan15 + 1000)) JNull (JStr "sub_1").

Definition monthlyLocal : Obj :=
  subscriptionOf "monthly" "active" true (Some (jan15 + 1000)) JNull JNull.

(** An annual subscriber. *)
Definition annualRemote : Obj :=
  subscriptionOf "annual" "active" true (Some (jan15 + 1000)) JNull (JStr "sub_1").

(** Records that none of the three queries of a cancellation finds. *)
Definition suspended : Obj :=
  subscriptionOf "monthly" "suspended" true (Some (jan15 + 1000)) JNull JNull.

(** A cancellation scheduled for the end of the period, before and after
    the period has elapsed. *)
Definition scheduled : Obj :=
  subscriptionOf "monthly" "canceled" true (Some (jan15 + 1000))
                 (JStr "end_of_period") (JStr "sub_1").

Definition overdue : Obj :=
  subscriptionOf "monthly" "canceled" true (Some (jan15 - 1000))
                 (JStr "end_of_period") JNull.

Definition expired : Obj :=
  subscriptionOf "monthly" "canceled" false (Some (jan15 - 1000))
                 (JStr "end_of_period") JNull.

Definition refunded : Obj :=
  subscriptionOf "monthly" "canceled" false (Some (jan15 - 1000))
                 (JStr "immediate") JNull.

(** The legacy controller: a verifier that accepts the signature "valid"
    and reads the event type off the body. *)
Definition requiredMessage (doc : Obj) : JsError :=
  Error ("Subscription validation failed: "
           +:+ String.concat ", "
                 ((fun path => path +:+ ": Path `" +:+ path +:+ "` is required.")
                    <$> List.filter (Webhook_controller.lacks doc)
                          Webhook_controller.requiredPaths)).

Definition legacyEnv (faults : Webhook_controller.Op -> option JsError)
  : Webhook_controller.Env :=
  Webhook_controller.mkEnv jan15 faults requiredMessage
    (fun _ => Return {["email" := JStr "alice@example.org"]})
    (fun raw sig =>
       if String.eqb sig "valid"
       then Return (mkEvent raw (mkStripeObject "sub_1" ∅))
       else Throw (Error "No signatures found matching the expected signature")).

Definition quietHandlers : Webhook_controller.Handlers :=
  Webhook_controller.mkHandlers
    (fun _ => ret tt) (fun _ => ret tt) (fun _ => ret tt)
    (fun _ => ret tt) (fun _ => ret tt) (fun _ => ret tt).

(** A record of the legacy model, and one that lacks [planName]. *)
Definition legacyRecord : Obj :=
  list_to_map
    [ ("userId", JStr alice); ("stripeSubscriptionId", JStr "sub_1");
      ("stripeCustomerId", JStr "cus_1"); ("planId", JStr "price_monthly");
      ("planName", JStr "monthly"); ("status", JStr "active");
      ("currentPeriodStart", JDate (Some (jan15 - 1000)));
      ("currentPeriodEnd", JDate (Some (jan15 + 1000)));
      ("cancelAtPeriodEnd", JBool false);
      ("createdAt", JDate (Some (jan15 - 1000)));
      ("updatedAt", JDate (Some (jan15 - 1000))) ].

Definition legacyWorld : Webhook_controller.World :=
  Webhook_controller.mkWorld {["sub_1" := legacyRecord]} [].

Definition brokenWorld : Webhook_controller.World :=
  Webhook_controller.mkWorld {["sub_1" := delete "planName" legacyRecord]} [].

Definition signed (type : string) : Request := mkRequest (Some "valid") (Some type).

Definition noHandler : StripeObject -> M World (option Obj) := fun _ => ret None.

Definition failingHandler : StripeObject -> M World (option Obj) :=
  fun _ => throw (Error "User ID manquant dans metadata").

Definition touched : Obj :=
  match fst (updateSubscription goneEnv alice {["paymentStatus" := JStr "failed"]}
               (worldOf overdue "premium")) with
  | Return doc => doc
  | Throw _ => ∅
  end.


(** The gateway knows no subscription; the process runs in Paris, on 15
    March 2024. *)
Definition goneParisEnv : Env :=
  parisEnv (fun _ => Throw resourceMissing) (fun _ _ => Throw resourceMissing).

(** 15 April 2024, 11:00 in Paris, which is 09:00 UTC: 31 days less one
    hour after 15 March, 11:00 in Paris. *)
Definition apr15paris : Z := 1713171600000.

(** A record canceled at once that was left active. *)
Definition revoked : Obj :=
  subscriptionOf "monthly" "canceled" true (Some (jan15 + 1000)) (JStr "immediate") JNull.

Definition prorationOf {W} (r : Result PlanChange * W) : option float :=
  match fst r with
  | Return change => Some (prorationAmount change)
  | Throw _ => None
  end.

(** The gateway answers; the process runs in Paris, on 15 March 2024. *)
Definition remoteParisEnv : Env :=
  parisEnv (fun id => Return (mkStripeSub id false (Some 1707991200) ["si_1"]))
           (fun id _ => Return (mkStripeSub id true (Some 1707991200) ["si_1"])).

(** ** Further functions of the code, and the notions used in the statements about them *)

(** [endDate] is no invalid date: neither the [Date] whose time value is
    NaN nor the string "Invalid Date". *)
Definition noInvalidDate (doc : Obj) : Prop :=
  doc !! "endDate" <> Some (JDate None)
  /\ doc !! "endDate" <> Some (JStr "Invalid Date").

(** The second step of the hook: "Désactiver si expiré". *)
Definition deactivateExpired (env : Env) (this : Obj) : Obj :=
  if strictEq (this !! "status") (JStr "canceled")
     && truthy (this !! "endDate")
     && match this !! "endDate" with
        | Some (JDate (Some t)) => t <=? clock env
        | _ => false
        end
  then <["isActive" := JBool false]> this
  else this.

(** A truthy [endDate] is a valid [Date]. *)
Definition endDateUsable (doc : Obj) : Prop :=
  truthy (doc !! "endDate") = true -> exists t, doc !! "endDate" = Some (JDate (Some t)).

(** [SubscriptionSchema.methods.getDaysRemaining] *)
Definition getDaysRemaining (env : Env) (this : Obj) : Result JsVal :=
  if negb (truthy (this !! "endDate")) then Return JNull
  else match this !! "endDate" with
       | Some (JDate (Some t)) => Return (JNum (JsDate.daysRemaining t (clock env)))
       | Some (JDate None) => Return JNaN
       | _ => Throw (Error "this.endDate.getTime is not a function")
       end.

(** The type the schema gives a path. *)
Fixpoint pathType (schema : list (string * SchemaType)) (path : string)
  : option SchemaType :=
  match schema with
  | [] => None
  | (p, ty) :: rest => if String.eqb p path then Some ty else pathType rest path
  end.

(** What [updateSubscription] hands to the store. *)
Definition sentUpdate (env : Env) (data : Obj) : Obj :=
  preFindOneAndUpdate env (<["updatedAt" := JDate (newDate env)]> (checkEndDate env data)).

Definition dated : Obj :=
  match fst (updateSubscription goneEnv alice
               {["endDate" := JStr "2024-01-15T10:00:00.000Z"]}
               (worldOf monthlyLocal "premium")) with
  | Return doc => doc
  | Throw _ => ∅
  end.

Definition created : Obj :=
  match fst (updateSubscription goneEnv alice {["plan" := JStr "annual"]} emptyWorld) with
  | Return doc => doc
  | Throw _ => ∅
  end.

(** The paths the two functions write. *)
Definition paymentPaths : list string :=
  ["lastPaymentDate"; "lastTransactionId"; "paymentStatus"].

Definition failurePaths : list string :=
  ["paymentStatus"; "paymentFailureReason"; "lastFailureDate"].

(** controllers/webhookController.js, [calculateSubscriptionDates(plan,
    startDate = new Date())], called with a [Date] or without a second
    argument. *)
Definition calculateSubscriptionDates (env : Env) (plan : option JsVal)
    (startDate : option JsDate.Date) : JsDate.Date * JsDate.Date :=
  let start := match startDate with Some d => d | None => newDate env end in
  let endDate :=
    if strictEq plan (JStr "monthly") then JsDate.addOneMonth (tza env) start
    else if strictEq plan (JStr "annual") then JsDate.addOneYear (tza env) start
    else if strictEq plan (JStr "premium") then JsDate.addOneMonth (tza env) start
    else JsDate.addOneMonth (tza env) start in
  (start, endDate).

(** 15 October 2024, 10:00 UTC: in Paris 12:00, two weeks before the end
    of summer time; the gateway knows no subscription. *)
Definition oct15 : Z := 1728986400000.

Definition autumnEnv : Env :=
  mkEnv oct15 paris isoOnly hex24 (Some "price_annual") (Some "price_monthly")
        (fun _ => Throw resourceMissing) (fun _ _ => Throw resourceMissing)
        (fun _ => None).

(** The price id configured for a plan (lines 576-579 of [changePlan]). *)
Definition priceIdFor (env : Env) (newPlan : string) : option string :=
  if String.eqb newPlan "annual" then STRIPE_PRICE_ANNUAL_ID env
  else STRIPE_PRICE_MONTHLY_ID env.

Definition brokenStore : StoreOp -> option JsError :=
  fun op => match op with
            | SubscriptionUpdate => Some (Error "connection lost")
            | _ => None
            end.

(** [getCurrentSubscription(userId)]: the record of the user, with the
    days that remain when it has an [endDate]. *)
Definition getCurrentSubscription (env : Env) (userId : string) : M World (option Obj) :=
  (* new mongoose.Types.ObjectId(userId) *)
  (if validObjectId env userId then ret tt
   else throw (Error "input must be a 24 character hex string")) ;;;
  found <- Subscription_findOne env userId [] ;;
  match found with
  | None => ret None
  | Some subscription =>
      if truthy (subscription !! "endDate") then
        match match subscription !! "endDate" with
              | Some v => toDate env v
              | None => None
              end with
        | Some t =>
            ret (Some (<["daysRemaining" :=
                           JNum (JsDate.daysRemaining t (clock env))]> subscription))
        | None => ret (Some (<["daysRemaining" := JNaN]> subscription))
        end
      else ret (Some subscription)
  end.

(** [getPlanFromStripePrice(priceId)]: a [switch] on the two configured
    price ids, the annual one first. *)
Definition getPlanFromStripePrice (env : Env) (priceId : option string) : string :=
  if bool_decide (priceId = STRIPE_PRICE_ANNUAL_ID env) then "annual"
  else if bool_decide (priceId = STRIPE_PRICE_MONTHLY_ID env) then "monthly"
  else "premium".

Definition patchFails : Webhook_controller.Op -> option JsError :=
  fun op => match op with
            | Webhook_controller.OpPatchUser => Some (Error "503")
            | _ => None
            end.

(** ** controllers/subscriptionController.js:
    the handlers answer with [res.status(c).json(o)]; [o] has members that
    are values, numbers that need not be integers, objects, and strings
    built by a template literal, whose substitutions are kept as they
    are. *)
Inductive Member : Type :=
  | Value (v : JsVal)
  | Number (f : float)
  | Object (o : Obj)
  | Template (parts : list (string + option JsVal)).

Record HttpReply : Type := mkReply {
  reply_status : Z;
  reply_body : list (string * Member)
}.

(** A member whose value is [undefined] is left out of the body. *)
Definition member (k : string) (v : option JsVal) : list (string * Member) :=
  match v with
  | Some v => [(k, Value v)]
  | None => []
  end.

(** [req.user], with the two ids a token can carry (strings), and
    [req.body]. *)
Record AuthRequest : Type := mkAuthRequest {
  user_userId : option string;
  user_id : option string;
  req_body : Obj
}.

Definition nonEmpty (s : option string) : option string :=
  match s with
  | Some s => if String.eqb s "" then None else Some s
  | None => None
  end.

(** [req.user?.userId || req.user?.id], when truthy. *)
Definition requester (req : AuthRequest) : option string :=
  match nonEmpty (user_userId req) with
  | Some s => Some s
  | None => nonEmpty (user_id req)
  end.

(** [Math.floor((now - start) / (1000 * 60 * 60 * 24))] *)
Definition daysBetween (start now : Z) : Z := (now - start) / JsDate.msPerDay.

(** [new Date(v)] for a property read. *)
Definition dateOf (env : Env) (v : option JsVal) : JsDate.Date :=
  match v with
  | Some v => toDate env v
  | None => None
  end.

Definition maxRefundDays : Z := 7.

(** The fields [requestRefund] persists at line 428. *)
Definition refundUpdate (env : Env) : Obj :=
  list_to_map
    [ ("status", JStr "canceled"); ("isActive", JBool false);
      ("cancelationType", JStr "immediate"); ("endDate", JDate (newDate env));
      ("updateUserRole", JBool true) ].

Module subscriptionController.

(** Lines 269-301 of [checkRefundEligibility]: [subscriptionStartDate] and
    [daysSinceStart], with the fallback on [createdAt]. *)
Definition eligibilityStart (env : Env) (subscription : Obj) : JsVal * Z :=
  let viaCreatedAt (unset : JsVal) :=
    if truthy (subscription !! "createdAt") then
      match dateOf env (subscription !! "createdAt") with
      | Some t => (JDate (Some t), daysBetween t (clock env))
      | None => (JDate None, 0)
      end
    else (unset, 0) in
  if truthy (subscription !! "startDate") then
    match dateOf env (subscription !! "startDate") with
    | Some t => (JDate (Some t), daysBetween t (clock env))
    | None => viaCreatedAt (JDate None)
    end
  else viaCreatedAt JNull.

Definition checkRefundEligibility (env : Env) (req : AuthRequest) : M World HttpReply :=
  try_catch
    (match requester req with
     | None => ret (mkReply 401 [("error", Value (JStr "Utilisateur non authentifié"))])
     | Some userId =>
         found <- getCurrentSubscription env userId ;;
         match found with
         | None =>
             ret (mkReply 404 [ ("eligible", Value (JBool false));
                                ("reason", Value (JStr "Aucun abonnement trouvé")) ])
         | Some subscription =>
             let subscriptionStartDate := fst (eligibilityStart env subscription) in
             let daysSinceStart := snd (eligibilityStart env subscription) in
             let daysRemainingForRefund := Z.max 0 (maxRefundDays - daysSinceStart) in
             let isEligible :=
               (daysSinceStart <=? maxRefundDays)
               && strictEq (subscription !! "status") (JStr "active")
               && (0 <=? daysSinceStart) in
             let reason :=
               if negb isEligible then
                 if maxRefundDays <? daysSinceStart
                 then "Période de remboursement expirée (7 jours maximum)"
                 else if negb (strictEq (subscription !! "status") (JStr "active"))
                 then "Abonnement non actif"
                 else if daysSinceStart <? 0 then "Erreur de calcul de date"
                 else ""
               else "Éligible au remboursement. Il vous reste "
                      +:+ pretty daysRemainingForRefund +:+ " jour(s)" in
             ret (mkReply 200
                    ([ ("eligible", Value (JBool isEligible));
                       ("daysSinceStart", Value (JNum daysSinceStart));
                       ("daysRemainingForRefund", Value (JNum daysRemainingForRefund));
                       ("maxRefundDays", Value (JNum maxRefundDays)) ]
                     ++ member "subscriptionStatus" (subscription !! "status")
                     ++ [ ("startDate", Value subscriptionStartDate);
                          ("reason", Value (JStr reason)) ]))
         end
     end)
    (fun error =>
       ret (mkReply 500
              [ ("error", Value (JStr "Erreur lors de la vérification d'éligibilité"));
                ("details", Value (JStr (message error))) ])).

(** Lines 385-395 of [requestRefund]: [daysSinceStart], from [startDate]
    alone. *)
Definition refundDays (env : Env) (subscription : Obj) : Z :=
  if truthy (subscription !! "startDate") then
    match dateOf env (subscription !! "startDate") with
    | Some t => daysBetween t (clock env)
    | None => 0
    end
  else 0.

Definition requestRefund (env : Env) (req : AuthRequest) : M World HttpReply :=
  try_catch
    (let reason := default (JStr "") (req_body req !! "reason") in
     match requester req with
     | None => ret (mkReply 401 [("error", Value (JStr "Utilisateur non authentifié"))])
     | Some userId =>
         found <- getCurrentSubscription env userId ;;
         match found with
         | None => ret (mkReply 404 [("error", Value (JStr "Aucun abonnement trouvé"))])
         | Some subscription =>
             if negb (strictEq (subscription !! "status") (JStr "active")) then
               ret (mkReply 400
                      [("error",
                        Value (JStr "Seuls les abonnements actifs peuvent être remboursés"))])
             else
               let daysSinceStart := refundDays env subscription in
               let isEligible :=
                 (daysSinceStart <=? maxRefundDays)
                 && strictEq (subscription !! "status") (JStr "active") in
               if negb isEligible then
                 let reason :=
                   if maxRefundDays <? daysSinceStart
                   then "Période de remboursement expirée (7 jours maximum)"
                   else "Abonnement non éligible" in
                 ret (mkReply 400 [ ("error", Value (JStr "Remboursement non autorisé"));
                                    ("reason", Value (JStr reason)) ])
               else
                 let refundAmount :=
                   if strictEq (subscription !! "plan") (JStr "monthly") then 5
                   else if strictEq (subscription !! "plan") (JStr "annual") then 45
                   else 0 in
                 updatedSubscription <- updateSubscription env userId (refundUpdate env) ;;
                 ret (mkReply 200
                        [ ("success", Value (JBool true));
                          ("message", Value (JStr "Remboursement demandé avec succès"));
                          ("refund",
                           Object (setDefined "plan" (subscription !! "plan")
                                     (list_to_map
                                        [ ("amount", JNum refundAmount);
                                          ("currency", JStr "EUR");
                                          ("processingTime", JStr "3-5 jours ouvrés");
                                          ("reason",
                                           if truthy (Some reason) then reason
                                           else JStr "Demande client") ])));
                          ("subscription", Object updatedSubscription) ])
         end
     end)
    (fun error =>
       ret (mkReply 500
              [ ("error", Value (JStr "Erreur lors de la demande de remboursement"));
                ("details", Value (JStr (message error))) ])).

(** [changePlan(req, res)] *)
Definition changePlan (env : Env) (req : AuthRequest) : M World HttpReply :=
  try_catch
    (match requester req with
     | None => ret (mkReply 401 [("error", Value (JStr "Utilisateur non authentifié"))])
     | Some userId =>
         match req_body req !! "newPlan" with
         | Some (JStr plan) =>
             if String.eqb plan "monthly" || String.eqb plan "annual" then
               result <- changePlan env userId plan ;;
               ret (mkReply 200
                      ([ ("success", Value (JBool true));
                         ("subscription", Object (pc_subscription result));
                         ("message",
                          Template [ inl "Plan changé avec succès de ";
                                     inr (oldPlan result); inl " vers ";
                                     inr (Some (JStr (newPlan result))) ]) ]
                       ++ member "oldPlan" (oldPlan result)
                       ++ [ ("newPlan", Value (JStr (newPlan result)));
                            ("prorationAmount", Number (prorationAmount result)) ]))
             else
               ret (mkReply 400
                      [("error", Value (JStr "Plan invalide. Utilisez 'monthly' ou 'annual'"))])
         | _ =>
             ret (mkReply 400
                    [("error", Value (JStr "Plan invalide. Utilisez 'monthly' ou 'annual'"))])
         end
     end)
    (fun error =>
       ret (mkReply 500
              [ ("error", Value (JStr "Erreur lors du changement de plan"));
                ("details", Value (JStr (message error))) ])).

End subscriptionController.

(** The status a handler answered with. *)
Definition answered (r : Result HttpReply * World) : option Z :=
  match fst r with
  | Return reply => Some (reply_status reply)
  | Throw _ => None
  end.

(** A member of the body a handler answered with. *)
Definition answeredMember (r : Result HttpReply * World) (k : string) : option Member :=
  match fst r with
  | Return reply => snd <$> List.find (fun kv => String.eqb (fst kv) k) (reply_body reply)
  | Throw _ => None
  end.

Definition asAlice (body : Obj) : AuthRequest := mkAuthRequest (Some alice) None body.

(** An active monthly subscriber who started two days ago. *)
Definition twoDaysIn : Obj :=
  <["startDate" := JDate (Some (jan15 - 2 * JsDate.msPerDay))]> monthlyLocal.

Definition startsTomorrow : Obj :=
  <["startDate" := JDate (Some (jan15 + JsDate.msPerDay))]> monthlyLocal.

(** A record whose [startDate] was set to [null], created nine days
    ago. *)
Definition undated : Obj :=
  <["startDate" := JNull]>
    (<["createdAt" := JDate (Some (jan15 - 9 * JsDate.msPerDay))]> monthlyLocal).

(** The gateway answers the calls of a cancellation for [id], and the
    subscription it shows in the end carries no usable
    [current_period_end]. *)
Definition noPeriodEnd (env : Env) (id : string) : Prop :=
  exists current,
    stripe_retrieve env id = Return current
    /\ ((cancel_at_period_end current = true
         /\ (current_period_end current = None \/ current_period_end current = Some 0))
        \/ (cancel_at_period_end current = false
            /\ exists updated,
                 stripe_update env id (scheduleCancellation env) = Return updated
                 /\ (current_period_end updated = None
                     \/ exists cpe, current_period_end updated = Some cpe /\ cpe <= 0))).

(** A subscriber whose record has no end date, in Paris on 15 March
    2024; the gateway shows the subscription scheduled for cancellation,
    without a period end. *)
Definition openEnded : Obj :=
  subscriptionOf "monthly" "active" true None JNull (JStr "sub_1").

Definition scheduledParisEnv : Env :=
  parisEnv (fun id => Return (mkStripeSub id true None ["si_1"]))
           (fun id _ => Throw rateLimited).

(** * Theorems *)

Lemma castUpdate_absent env schema (u s : Obj) k :
  castUpdate env schema u = Return s -> u !! k = None -> s !! k = None.
Proof.
  revert s. induction schema as [|[p ty] rest IH]; intros s; simpl.
  - intros [= <-] _. apply lookup_empty.
  - destruct (u !! p) as [v|] eqn:Hp; [|by auto].
    destruct (castPath env p ty v); [|done].
    destruct (castUpdate env rest u); [|done].
    intros [= <-] Hk.
    destruct (decide (p = k)) as [->|Hne]; [congruence|].
    rewrite lookup_insert_ne by done. by apply IH.
Qed.

Lemma preFindOneAndUpdate_absent env (u : Obj) :
  u !! "endDate" = None -> preFindOneAndUpdate env u = u.
Proof. intros H. unfold preFindOneAndUpdate. by rewrite H. Qed.

Lemma preFindOneAndUpdate_checkEndDate env (data : Obj) v w :
  data !! "endDate" = Some v -> malformed env v ->
  preFindOneAndUpdate env (<["updatedAt" := w]> (checkEndDate env data)) !! "endDate" = None.
Proof.
  intros Hv Hm. unfold checkEndDate. rewrite Hv.
  destruct (bool_decide (v = JNull) || bool_decide (v = JStr "null") || bool_decide (v = JStr "")) eqn:Hb.
  - rewrite preFindOneAndUpdate_absent; rewrite lookup_insert_ne by done; apply lookup_delete_eq.
  - assert (Hnan : toDate env v = None).
    { destruct Hm as [->|[->|[->|H]]]; try done. }
    rewrite Hnan.
    destruct (truthy (Some v)) eqn:Ht; cbn [andb JsDate.isNaN_getTime].
    + rewrite preFindOneAndUpdate_absent; rewrite lookup_insert_ne by done; apply lookup_delete_eq.
    + unfold preFindOneAndUpdate. rewrite lookup_insert_ne by done. rewrite Hv.
      rewrite Hb, Hnan. cbn [JsDate.isNaN_getTime]. apply lookup_delete_eq.
Qed.

Lemma preFindOneAndUpdate_other env (update : Obj) k :
  k <> "endDate" -> preFindOneAndUpdate env update !! k = update !! k.
Proof.
  intros Hk. unfold preFindOneAndUpdate.
  destruct (update !! "endDate") as [v|]; [|reflexivity].
  repeat case_match; try reflexivity; by rewrite lookup_delete_ne.
Qed.

(** [updateSubscription] stamps its update itself. *)
Lemma stamped_sent env (update : Obj) :
  stamped env (<["updatedAt" := JDate (newDate env)]> update)
  = preFindOneAndUpdate env (<["updatedAt" := JDate (newDate env)]> update).
Proof.
  unfold stamped. apply insert_id.
  rewrite preFindOneAndUpdate_other by discriminate. apply lookup_insert_eq.
Qed.

Lemma Subscription_findOneAndUpdate_run env uid upd upsert w :
  Subscription_findOneAndUpdate env uid upd upsert w =
    let w1 := logged w (CallSubscriptionUpdate uid upd) in
    if validObjectId env uid then
      match castUpdate env SubscriptionSchema (stamped env upd) with
      | Throw e => (Throw e, w1)
      | Return set =>
          match storeFault env SubscriptionUpdate with
          | Some e => (Throw e, w1)
          | None =>
              match subscriptions w !! uid with
              | Some doc => (Return (Some (set ∪ doc)), stored w1 uid (set ∪ doc))
              | None =>
                  if upsert
                  then (Return (Some (set ∪ freshDocument env uid)),
                        stored w1 uid (set ∪ freshDocument env uid))
                  else (Return None, w1)
              end
          end
      end
    else (Throw (castError "userId"), w1).
Proof.
  unfold Subscription_findOneAndUpdate, storeOp, logCall, setSubscription,
    liftResult, bind, ret, throw, modify, gets, logged, stored, freshDocument.
  cbv zeta.
  destruct (validObjectId env uid); [|reflexivity].
  fold (stamped env upd).
  destruct (castUpdate env SubscriptionSchema (stamped env upd)); [|reflexivity].
  destruct (storeFault env SubscriptionUpdate); [reflexivity|].
  cbn [subscriptions users calls].
  destruct (subscriptions w !! uid); [reflexivity|].
  destruct upsert; reflexivity.
Qed.

Lemma User_findByIdAndUpdate_run env id role w :
  User_findByIdAndUpdate env id {["role" := JStr role]} w =
    let w1 := logged w (CallUserUpdate id {["role" := JStr role]}) in
    match storeFault env UserUpdate with
    | Some e => (Throw e, w1)
    | None => (Return tt, mkWorld (subscriptions w1) (withRole env id role (users w1)) (calls w1))
    end.
Proof.
  unfold User_findByIdAndUpdate, storeOp, logCall, bind, ret, throw, modify, logged, withRole.
  cbv zeta. destruct (storeFault env UserUpdate); reflexivity.
Qed.

Lemma updateSubscription_run env uid data w :
  updateSubscription env uid data w =
    if validObjectId env uid then
      match afterRole env uid (checkEndDate env data) w with
      | (Throw e, w1) => (Throw e, w1)
      | (Return _, w1) =>
          match Subscription_findOneAndUpdate env uid
                  (<["updatedAt" := JDate (newDate env)]> (checkEndDate env data)) true w1 with
          | (Return (Some doc), w2) => (Return doc, w2)
          | (Return None, w2) =>
              (Throw (Error "Cannot read properties of null (reading 'status')"), w2)
          | (Throw e, w2) => (Throw e, w2)
          end
      end
    else (Throw (Error "input must be a 24 character hex string"), w).
Proof.
  unfold updateSubscription, afterRole, bind, ret, throw.
  destruct (validObjectId env uid); [|reflexivity].
  destruct (roleChange (checkEndDate env data)).
  - destruct (User_findByIdAndUpdate env uid _ w) as [[[]|e] w1]; [|reflexivity].
    destruct (Subscription_findOneAndUpdate env uid _ true w1) as [[[d|]|e] w2]; reflexivity.
  - destruct (Subscription_findOneAndUpdate env uid _ true w) as [[[d|]|e] w2]; reflexivity.
Qed.

Lemma afterRole_subscriptions env uid data w :
  subscriptions (snd (afterRole env uid data w)) = subscriptions w.
Proof.
  unfold afterRole. destruct (roleChange data); [|reflexivity].
  rewrite User_findByIdAndUpdate_run. cbv zeta.
  destruct (storeFault env UserUpdate); reflexivity.
Qed.

Lemma lookup_union_absent (set doc : Obj) k :
  set !! k = None -> (set ∪ doc) !! k = doc !! k.
Proof. intros H. rewrite lookup_union, H. by destruct (doc !! k). Qed.

Lemma freshDocument_endDate env uid : freshDocument env uid !! "endDate" = None.
Proof. reflexivity. Qed.

(** C6 (amended).  An [endDate] that is null, "null", the empty string or
    not parseable as a date is never written by [updateSubscription]:
    whatever else the call does, every record reads back the [endDate] it
    had before (none for a record the call creates). *)
Theorem C6_malformed_endDate_is_dropped env uid (data : Obj) w v :
  data !! "endDate" = Some v -> malformed env v ->
  forall uid',
    endDateOf (subscriptions (snd (updateSubscription env uid data w))) uid'
    = endDateOf (subscriptions w) uid'.
Proof.
  intros Hv Hm uid'.
  pose proof (preFindOneAndUpdate_checkEndDate env data v (JDate (newDate env)) Hv Hm) as Hpre.
  rewrite updateSubscription_run.
  destruct (validObjectId env uid) eqn:Hvalid; [|reflexivity].
  pose proof (afterRole_subscriptions env uid (checkEndDate env data) w) as Hsub.
  destruct (afterRole env uid (checkEndDate env data) w) as [[[]|e] w1];
    cbn [snd] in Hsub; cbv beta iota; [|cbn [snd]; by rewrite Hsub].
  rewrite Subscription_findOneAndUpdate_run, Hvalid, stamped_sent. cbv zeta.
  destruct (castUpdate env SubscriptionSchema _) as [set|e] eqn:Hcast;
    [|cbn [snd logged subscriptions]; by rewrite Hsub].
  pose proof (castUpdate_absent _ _ _ _ _ Hcast Hpre) as Hset.
  destruct (storeFault env SubscriptionUpdate); [cbn [snd logged subscriptions]; by rewrite Hsub|].
  unfold endDateOf.
  destruct (subscriptions w1 !! uid) as [doc|] eqn:Hdoc; cbn [snd stored subscriptions logged].
  - rewrite Hsub in *. destruct (decide (uid = uid')) as [<-|Hne].
    + rewrite lookup_insert_eq, Hdoc. cbn [mbind option_bind]. by apply lookup_union_absent.
    + by rewrite lookup_insert_ne.
  - rewrite Hsub in *. destruct (decide (uid = uid')) as [<-|Hne].
    + rewrite lookup_insert_eq, Hdoc. cbn [mbind option_bind]. rewrite lookup_union_absent by done.
      apply freshDocument_endDate.
    + by rewrite lookup_insert_ne.
Qed.

(** *** Frame conditions: what a computation leaves as it was *)

Section KeepsAny.
Context {W X : Type} (obs : W -> X).

Lemma keeps_ret {A} (a : A) : keeps obs (ret a).
Proof. by intros w. Qed.

Lemma keeps_throw {A} e : keeps obs (@throw W A e).
Proof. by intros w. Qed.

Lemma keeps_bind {A B} (c : M W A) (k : A -> M W B) :
  keeps obs c -> (forall a, keeps obs (k a)) -> keeps obs (bind c k).
Proof.
  intros Hc Hk w. unfold bind. specialize (Hc w).
  destruct (c w) as [[a|e] w1]; cbn [snd] in *; [|done].
  by rewrite Hk.
Qed.

Lemma keeps_try_catch {A} (c : M W A) (h : JsError -> M W A) :
  keeps obs c -> (forall e, keeps obs (h e)) -> keeps obs (try_catch c h).
Proof.
  intros Hc Hh w. unfold try_catch. specialize (Hc w).
  destruct (c w) as [[a|e] w1]; cbn [snd] in *; [done|].
  by rewrite Hh.
Qed.
End KeepsAny.

Section Keeps.
Context {X : Type} (obs : World -> X).

Lemma keeps_liftResult {A} (r : Result A) : keeps obs (liftResult r).
Proof. destruct r; by intros w. Qed.

Lemma keeps_storeOp env op : keeps obs (storeOp env op).
Proof. intros w. unfold storeOp. by destruct (storeFault env op). Qed.

Lemma keeps_Subscription_findOne env uid conds :
  keeps obs (Subscription_findOne env uid conds).
Proof.
  unfold Subscription_findOne. destruct (validObjectId env uid); [|apply keeps_throw].
  apply keeps_bind; [apply keeps_storeOp|]. intros _.
  apply keeps_bind; [by intros w|]. intros docs. apply keeps_ret.
Qed.
End Keeps.

Lemma Subscription_findOne_run env uid conds w :
  Subscription_findOne env uid conds w =
    if validObjectId env uid then
      match storeFault env SubscriptionFind with
      | Some e => (Throw e, w)
      | None =>
          (Return (match subscriptions w !! uid with
                   | Some doc => if forallb (satisfies doc) conds then Some doc else None
                   | None => None
                   end), w)
      end
    else (Throw (castError "userId"), w).
Proof.
  unfold Subscription_findOne, storeOp, bind, ret, throw, gets.
  destruct (validObjectId env uid); [|reflexivity].
  destruct (storeFault env SubscriptionFind); reflexivity.
Qed.

Lemma keeps_logCall {X} (obs : World -> X) c :
  (forall w, obs (logged w c) = obs w) -> keeps obs (logCall c).
Proof. intros H w. apply H. Qed.

Lemma keeps_stripe_retrieve {X} (obs : World -> X) env id :
  (forall w c, obs (logged w c) = obs w) ->
  keeps obs (stripe_subscriptions_retrieve env id).
Proof.
  intros H. apply keeps_bind; [by apply keeps_logCall|]. intros _. apply keeps_liftResult.
Qed.

Lemma keeps_stripe_update {X} (obs : World -> X) env id params :
  (forall w c, obs (logged w c) = obs w) ->
  keeps obs (stripe_subscriptions_update env id params).
Proof.
  intros H. apply keeps_bind; [by apply keeps_logCall|]. intros _. apply keeps_liftResult.
Qed.

Lemma checkEndDate_other env (data : Obj) k :
  k <> "endDate" -> checkEndDate env data !! k = data !! k.
Proof.
  intros Hk. unfold checkEndDate. destruct (data !! "endDate") as [v|] eqn:Hv; [|done].
  repeat case_match; try done.
  - by rewrite lookup_delete_ne.
  - by rewrite lookup_delete_ne.
  - by rewrite lookup_insert_ne.
Qed.

Lemma roleChange_checkEndDate env data :
  roleChange (checkEndDate env data) = roleChange data.
Proof. unfold roleChange. by rewrite !checkEndDate_other. Qed.

Lemma Subscription_findOneAndUpdate_users env uid upd upsert :
  keeps users (Subscription_findOneAndUpdate env uid upd upsert).
Proof.
  intros w. rewrite Subscription_findOneAndUpdate_run. cbv zeta.
  repeat case_match; reflexivity.
Qed.

Lemma updateSubscription_users env uid data w :
  users (snd (updateSubscription env uid data w)) =
    if validObjectId env uid
    then users (snd (afterRole env uid (checkEndDate env data) w))
    else users w.
Proof.
  rewrite updateSubscription_run.
  destruct (validObjectId env uid); [|reflexivity].
  destruct (afterRole env uid (checkEndDate env data) w) as [[[]|e] w1]; [|reflexivity].
  pose proof (Subscription_findOneAndUpdate_users env uid
    (<["updatedAt" := JDate (newDate env)]> (checkEndDate env data)) true w1) as H.
  destruct (Subscription_findOneAndUpdate env uid _ true w1) as [[[d|]|e] w2]; exact H.
Qed.

Lemma updateSubscription_keeps_users env uid data :
  roleChange data = None -> keeps users (updateSubscription env uid data).
Proof.
  intros H w. rewrite updateSubscription_users. unfold afterRole.
  rewrite roleChange_checkEndDate, H. by destruct (validObjectId env uid).
Qed.

Lemma keeps_findCancellable {X} (obs : World -> X) env uid :
  keeps obs (findCancellable env uid).
Proof.
  unfold findCancellable.
  apply keeps_bind; [apply keeps_Subscription_findOne|]. intros [d|]; [apply keeps_ret|].
  apply keeps_bind; [apply keeps_Subscription_findOne|]. intros [d|]; [apply keeps_throw|].
  apply keeps_bind; [apply keeps_Subscription_findOne|]. intros [d|]; apply keeps_throw.
Qed.

Lemma keeps_cancelRemotely {X} (obs : World -> X) env id subscription :
  (forall w c, obs (logged w c) = obs w) ->
  keeps obs (cancelRemotely env id subscription).
Proof.
  intros H. unfold cancelRemotely.
  apply keeps_bind; [by apply keeps_stripe_retrieve|]. intros current.
  apply keeps_bind.
  - destruct (cancel_at_period_end current); [apply keeps_ret|].
    apply keeps_bind; [by apply keeps_stripe_update|]. intros updated. apply keeps_ret.
  - intros endDate. apply keeps_bind; [apply keeps_liftResult|].
    intros []; apply keeps_ret.
Qed.

Lemma roleChange_cancellation endDate : roleChange (cancellation endDate) = None.
Proof. destruct endDate; vm_compute; reflexivity. Qed.

Lemma keeps_determineEndDate {X} (obs : World -> X) env subscription :
  (forall w c, obs (logged w c) = obs w) ->
  keeps obs (determineEndDate env subscription).
Proof.
  intros H. unfold determineEndDate.
  destruct (remoteId subscription); [|apply keeps_ret].
  apply keeps_try_catch; [by apply keeps_cancelRemotely|].
  intros e. destruct (bool_decide _); [apply keeps_ret|apply keeps_throw].
Qed.

Lemma cancelSubscriptionAtPeriodEnd_keeps_users env uid :
  keeps users (cancelSubscriptionAtPeriodEnd env uid).
Proof.
  unfold cancelSubscriptionAtPeriodEnd.
  apply keeps_bind; [apply keeps_findCancellable|]. intros subscription.
  apply keeps_bind.
  - apply keeps_determineEndDate. by intros w c.
  - intros endDate. apply keeps_bind; [apply keeps_liftResult|].
    intros []; [apply keeps_throw|].
    apply keeps_try_catch; [|intros e; apply keeps_throw].
    apply keeps_bind.
    + apply updateSubscription_keeps_users, roleChange_cancellation.
    + intros doc. repeat case_match; apply keeps_ret.
Qed.

(** C7.  In [updateSubscription] with [updateUserRole === true] the role is
    set to "premium" exactly when [status === "active" && isActive], to "user"
    exactly when [status === "canceled" && !isActive], and is otherwise left
    as it was; [cancelSubscriptionAtPeriodEnd] never changes a role. *)
Theorem C7_role_follows_status_and_isActive env uid (data : Obj) w :
  validObjectId env uid = true ->
  storeFault env UserUpdate = None ->
  let after := users (snd (updateSubscription env uid data w)) in
  let asked := strictEq (data !! "updateUserRole") (JBool true) in
  let grant := strictEq (data !! "status") (JStr "active") && truthy (data !! "isActive") in
  let revoke := strictEq (data !! "status") (JStr "canceled")
                && negb (truthy (data !! "isActive")) in
  (asked = true -> grant = true -> after = withRole env uid "premium" (users w))
  /\ (asked = true -> revoke = true -> after = withRole env uid "user" (users w))
  /\ (asked = false \/ (grant = false /\ revoke = false) -> after = users w)
  /\ (forall uid' w', users (snd (cancelSubscriptionAtPeriodEnd env uid' w')) = users w').
Proof.
  intros Hvalid Hfault. cbv zeta.
  rewrite updateSubscription_users, Hvalid. unfold afterRole.
  rewrite roleChange_checkEndDate. unfold roleChange.
  repeat split.
  - intros -> ->. rewrite User_findByIdAndUpdate_run, Hfault. reflexivity.
  - intros -> Hr.
    destruct (strictEq (data !! "status") (JStr "active") && truthy (data !! "isActive")) eqn:Hg.
    + apply andb_prop in Hr as [_ Hr], Hg as [_ Hg]. rewrite Hg in Hr. discriminate.
    + rewrite Hr, User_findByIdAndUpdate_run, Hfault. reflexivity.
  - intros [-> | [-> ->]]; [reflexivity|]. by destruct (strictEq _ _).
  - intros uid' w'. apply cancelSubscriptionAtPeriodEnd_keeps_users.
Qed.

(** C10.  With a role change due, [updateSubscription] issues the write to
    the User collection before the write to the Subscription collection;
    when the latter is rejected the call throws, the subscription is as it
    was and the role stays changed. *)
Theorem C10_role_written_first_and_not_rolled_back env uid (data : Obj) w role :
  validObjectId env uid = true ->
  roleChange data = Some role ->
  storeFault env UserUpdate = None ->
  let r := updateSubscription env uid data w in
  calls (snd r) =
    (calls w ++ [ CallUserUpdate uid {["role" := JStr role]};
                  CallSubscriptionUpdate uid
                    (<["updatedAt" := JDate (newDate env)]> (checkEndDate env data)) ])%list
  /\ (forall e, storeFault env SubscriptionUpdate = Some e ->
        isThrow (fst r) = true
        /\ subscriptions (snd r) = subscriptions w
        /\ users (snd r) = withRole env uid role (users w)).
Proof.
  intros Hvalid Hrole Huser. cbv zeta.
  rewrite updateSubscription_run, Hvalid. unfold afterRole.
  rewrite roleChange_checkEndDate, Hrole, User_findByIdAndUpdate_run, Huser.
  cbv beta iota zeta.
  rewrite Subscription_findOneAndUpdate_run, Hvalid, stamped_sent. cbv zeta.
  split.
  - repeat case_match; simplify_eq; cbn [snd calls logged stored];
      by rewrite <- app_assoc.
  - intros e He. rewrite He.
    destruct (castUpdate env SubscriptionSchema _); repeat split.
Qed.

Lemma checkEndDate_absent env (data : Obj) :
  data !! "endDate" = None -> checkEndDate env data = data.
Proof. intros H. unfold checkEndDate. by rewrite H. Qed.

(** What a successful [updateSubscription] returns and stores. *)
Lemma updateSubscription_Return env uid data w doc' :
  fst (updateSubscription env uid data w) = Return doc' ->
  exists set,
    castUpdate env SubscriptionSchema
      (preFindOneAndUpdate env
         (<["updatedAt" := JDate (newDate env)]> (checkEndDate env data))) = Return set
    /\ doc' = set ∪ match subscriptions w !! uid with
                   | Some doc => doc
                   | None => freshDocument env uid
                   end
    /\ subscriptions (snd (updateSubscription env uid data w))
       = <[uid := doc']> (subscriptions w).
Proof.
  rewrite updateSubscription_run.
  destruct (validObjectId env uid) eqn:Hvalid; [|done].
  pose proof (afterRole_subscriptions env uid (checkEndDate env data) w) as Hsub.
  destruct (afterRole env uid (checkEndDate env data) w) as [[[]|e] w1];
    cbn [snd] in Hsub; cbv beta iota; [|done].
  rewrite Subscription_findOneAndUpdate_run, Hvalid, stamped_sent. cbv zeta.
  destruct (castUpdate env SubscriptionSchema _) as [set|e]; [|done].
  destruct (storeFault env SubscriptionUpdate); [done|].
  rewrite Hsub.
  destruct (subscriptions w !! uid) as [doc|]; cbn [fst snd stored logged subscriptions];
    intros [= <-]; rewrite Hsub; eauto.
Qed.

(** The sibling path: [pre("save")] does deactivate the same record. *)
Lemma preSave_deactivates_expired env (doc : Obj) t :
  doc !! "status" = Some (JStr "canceled") ->
  doc !! "endDate" = Some (JDate (Some t)) ->
  t <= clock env ->
  preSave env doc = Return (<["isActive" := JBool false]> doc).
Proof.
  intros Hs He Ht. unfold preSave. rewrite He. cbn [truthy JsDate.isNaN_getTime].
  rewrite Hs, He. cbn [strictEq truthy andb].
  rewrite bool_decide_eq_true_2 by done. cbn [andb].
  by rewrite (proj2 (Z.leb_le _ _) Ht).
Qed.

(** C1 (the code departs from the claim).  A write through
    [findOneAndUpdate] that does not mention [status], [isActive] or
    [endDate] returns and stores a canceled record whose [endDate] has
    passed with [isActive] still true; [pre("save")] would have cleared
    it. *)
Theorem C1_update_leaves_expired_cancellation_active
    env uid (data : Obj) w (doc doc' : Obj) t :
  subscriptions w !! uid = Some doc ->
  doc !! "status" = Some (JStr "canceled") ->
  doc !! "isActive" = Some (JBool true) ->
  doc !! "endDate" = Some (JDate (Some t)) ->
  t <= clock env ->
  data !! "status" = None -> data !! "isActive" = None -> data !! "endDate" = None ->
  fst (updateSubscription env uid data w) = Return doc' ->
  subscriptions (snd (updateSubscription env uid data w)) !! uid = Some doc'
  /\ doc' !! "status" = Some (JStr "canceled")
  /\ doc' !! "endDate" = Some (JDate (Some t))
  /\ doc' !! "isActive" = Some (JBool true)
  /\ preSave env doc' = Return (<["isActive" := JBool false]> doc').
Proof.
  intros Hdoc Hs Ha He Ht Ds Da De Hret.
  destruct (updateSubscription_Return _ _ _ _ _ Hret) as (set & Hcast & -> & Hstore).
  rewrite Hdoc in *.
  rewrite checkEndDate_absent in Hcast by done.
  rewrite preFindOneAndUpdate_absent in Hcast by (by rewrite lookup_insert_ne).
  assert (Hk : forall k, k <> "updatedAt" -> data !! k = None -> (set ∪ doc) !! k = doc !! k).
  { intros k Hne Hd. apply lookup_union_absent.
    eapply castUpdate_absent; [exact Hcast|]. by rewrite lookup_insert_ne. }
  rewrite Hstore, lookup_insert_eq.
  assert (H1 := Hk "status"). assert (H2 := Hk "endDate"). assert (H3 := Hk "isActive").
  rewrite H1, H2, H3 by done.
  repeat split; try done.
  apply (preSave_deactivates_expired env _ t); [by rewrite H1|by rewrite H2|done].
Qed.

(** *** The two webhook dispatchers *)

Lemma eqb_not_in (s : string) (l : list string) x :
  s ∉ l -> x ∈ l -> String.eqb s x = false.
Proof. intros Hs Hx. apply String.eqb_neq. intros ->. done. Qed.

Section NewDispatcher.
Context {W : Type}.
Variables h1 h2 h3 h4 : StripeObject -> M W (option Obj).

Lemma processWebhookEvent_status event w :
  statusOf (WebhookController.processWebhookEvent W h1 h2 h3 h4 event w) = Some 200.
Proof.
  unfold WebhookController.processWebhookEvent, try_catch, bind, ret, statusOf.
  destruct (WebhookController.route W h1 h2 h3 h4 event) as [h|]; [|reflexivity].
  destruct (h (event_object event) w) as [[a|e] w1]; reflexivity.
Qed.

Lemma processWebhookEvent_unhandled event w :
  event_type event ∉ handledTypes ->
  WebhookController.processWebhookEvent W h1 h2 h3 h4 event w
  = (Return (mkResponse 200 ignoredBody), w).
Proof.
  intros H. unfold WebhookController.processWebhookEvent, WebhookController.route.
  rewrite !(eqb_not_in _ _ _ H) by (unfold handledTypes; set_solver).
  reflexivity.
Qed.

Lemma processWebhookEvent_deleted object w :
  WebhookController.processWebhookEvent W h1 h2 h3 h4
    (mkEvent "customer.subscription.deleted" object) w
  = (Return (mkResponse 200
       (errorBody "WebhookController.handleSubscriptionDeleted is not a function")), w).
Proof. reflexivity. Qed.
End NewDispatcher.

Lemma handleStripeWebhook_verified env this req event w :
  verified env req event ->
  Webhook_controller.handleStripeWebhook env this req w =
    match Webhook_controller.kindOf (event_type event) with
    | Some k =>
        match Webhook_controller.method env this k (event_object event) w with
        | (Return _, w') => (Return (mkResponse 200 receivedBody), w')
        | (Throw error, w') =>
            (Return (mkResponse 500
                       (Webhook_controller.failure
                          ("Erreur lors du traitement de l'événement "
                             +:+ event_type event)
                          (Some (message error)))), w')
        end
    | None => (Return (mkResponse 200 receivedBody), w)
    end.
Proof.
  intros (sig & raw & Hs & Hr & Hsig & Hraw & Hev).
  unfold Webhook_controller.handleStripeWebhook. rewrite Hs, Hr.
  rewrite (proj2 (String.eqb_neq sig "") Hsig), (proj2 (String.eqb_neq raw "") Hraw), Hev.
  cbn [orb]. unfold try_catch, bind, ret.
  destruct (Webhook_controller.kindOf (event_type event)) as [k|]; [|reflexivity].
  destruct (Webhook_controller.method env this k (event_object event) w) as [[[]|e] w'];
    reflexivity.
Qed.

Lemma swallow_run (c : M Webhook_controller.World unit) w :
  Webhook_controller.swallow c w = (Return tt, snd (c w)).
Proof.
  unfold Webhook_controller.swallow, try_catch, ret.
  by destruct (c w) as [[[]|e] w1].
Qed.

Lemma handleSubscriptionDeleted_run env subscription w :
  Webhook_controller.handleSubscriptionDeleted env subscription w =
    match Webhook_controller.fault env Webhook_controller.OpFindOne with
    | Some e => (Throw e, w)
    | None =>
        match Webhook_controller.subscriptions w !! object_id subscription with
        | None => (Return tt, w)
        | Some existing =>
            let doc := canceledNow env existing in
            if existsb (Webhook_controller.lacks doc) Webhook_controller.requiredPaths
            then (Throw (Webhook_controller.validationError env doc), w)
            else
              match Webhook_controller.fault env Webhook_controller.OpSave with
              | Some e => (Throw e, w)
              | None =>
                  (Return tt,
                   notified env doc
                     (Webhook_controller.mkWorld
                        (<[object_id subscription := written env existing]>
                           (Webhook_controller.subscriptions w))
                        (Webhook_controller.outgoing w)))
              end
        end
    end.
Proof.
  unfold Webhook_controller.handleSubscriptionDeleted, Webhook_controller.Subscription_findOne,
    Webhook_controller.save, Webhook_controller.attempt, notified, written, canceledNow.
  unfold try_catch at 1. unfold bind at 1 2 3 4 5 6 7. unfold ret, throw, gets, modify.
  destruct (Webhook_controller.fault env Webhook_controller.OpFindOne); [reflexivity|].
  destruct (Webhook_controller.subscriptions w !! object_id subscription) as [existing|];
    [|reflexivity].
  cbv zeta.
  destruct (existsb _ Webhook_controller.requiredPaths); [reflexivity|].
  destruct (Webhook_controller.fault env Webhook_controller.OpSave); [reflexivity|].
  rewrite !swallow_run. reflexivity.
Qed.

Lemma keeps_attempt {X} (obs : Webhook_controller.World -> X) env op :
  keeps obs (Webhook_controller.attempt env op).
Proof.
  intros w. unfold Webhook_controller.attempt.
  by destruct (Webhook_controller.fault env op).
Qed.

Lemma notified_subscriptions env doc w :
  Webhook_controller.subscriptions (notified env doc w) = Webhook_controller.subscriptions w.
Proof.
  unfold notified.
  assert (Hsend : forall c, keeps Webhook_controller.subscriptions (Webhook_controller.send c))
    by (by intros c w0).
  etrans; [|etrans]; [| |reflexivity].
  - apply (keeps_bind Webhook_controller.subscriptions).
    + apply keeps_bind; [apply Hsend|]. intros _.
      destruct (Webhook_controller.getUser env (doc !! "userId"));
        [apply keeps_ret|apply keeps_throw].
    + intros user. apply keeps_bind; [apply Hsend|]. intros _. apply keeps_attempt.
  - apply (keeps_bind Webhook_controller.subscriptions); [apply Hsend|].
    intros _. apply keeps_attempt.
Qed.

(** The handler of [webhook.controller.js], called on the instance, does
    what the handler missing from [webhookController.js] was to do. *)
Lemma handleSubscriptionDeleted_cancels env subscription w existing :
  Webhook_controller.fault env Webhook_controller.OpFindOne = None ->
  Webhook_controller.fault env Webhook_controller.OpSave = None ->
  Webhook_controller.subscriptions w !! object_id subscription = Some existing ->
  existsb (Webhook_controller.lacks (canceledNow env existing))
    Webhook_controller.requiredPaths = false ->
  let r := Webhook_controller.handleSubscriptionDeleted env subscription w in
  fst r = Return tt
  /\ Webhook_controller.subscriptions (snd r) =
       <[object_id subscription := written env existing]>
         (Webhook_controller.subscriptions w).
Proof.
  intros H1 H2 H3 H4. cbv zeta.
  rewrite handleSubscriptionDeleted_run, H1, H3. cbv zeta. rewrite H4, H2.
  split; [reflexivity|]. cbn [snd]. by rewrite notified_subscriptions.
Qed.

(** C3 (the code departs from the claim).  [processWebhookEvent] routes
    "customer.subscription.deleted" to a method the class does not define:
    the call throws, the dispatcher answers 200 with the error and the
    world, every subscription in it, is as before. *)
Theorem C3_deleted_event_is_acknowledged_but_not_applied
    (W : Type) (h1 h2 h3 h4 : StripeObject -> M W (option Obj)) object (w : W) :
  WebhookController.processWebhookEvent W h1 h2 h3 h4
    (mkEvent "customer.subscription.deleted" object) w
  = (Return (mkResponse 200
       (errorBody "WebhookController.handleSubscriptionDeleted is not a function")), w).
Proof. apply processWebhookEvent_deleted. Qed.

(** C2 (amended).  [processWebhookEvent] answers 200 whatever the handler
    does, and answers an event type it does not handle with 200 and no
    effect; [handleStripeWebhook] of [webhook.controller.js] also answers an
    event type it does not handle with 200 and no effect, but answers 500
    when the handler throws. *)
Theorem C2_dispatchers_on_handler_failure_and_unknown_types
    (W : Type) (h1 h2 h3 h4 : StripeObject -> M W (option Obj))
    (env : Webhook_controller.Env) this req (event : Event) (w : W)
    (lw : Webhook_controller.World) :
  statusOf (WebhookController.processWebhookEvent W h1 h2 h3 h4 event w) = Some 200
  /\ (event_type event ∉ handledTypes ->
      WebhookController.processWebhookEvent W h1 h2 h3 h4 event w
      = (Return (mkResponse 200 ignoredBody), w))
  /\ (verified env req event ->
      Webhook_controller.kindOf (event_type event) = None ->
      Webhook_controller.handleStripeWebhook env this req lw
      = (Return (mkResponse 200 receivedBody), lw))
  /\ (verified env req event ->
      forall k, Webhook_controller.kindOf (event_type event) = Some k ->
      isThrow (fst (Webhook_controller.method env this k (event_object event) lw)) = true ->
      statusOf (Webhook_controller.handleStripeWebhook env this req lw) = Some 500).
Proof.
  split; [apply processWebhookEvent_status|].
  split; [apply processWebhookEvent_unhandled|].
  split.
  - intros Hv Hk. by rewrite (handleStripeWebhook_verified _ _ _ _ _ Hv), Hk.
  - intros Hv k Hk Ht. rewrite (handleStripeWebhook_verified _ _ _ _ _ Hv), Hk.
    destruct (Webhook_controller.method env this k (event_object event) lw) as [[[]|e] w'];
      [discriminate|reflexivity].
Qed.

(** *** Calendar arithmetic *)

Lemma leap_cases y : JsDate.leap y = 0 \/ JsDate.leap y = 1.
Proof. unfold JsDate.leap. destruct (_ && _); auto. Qed.

Lemma DayFromYear_succ y :
  JsDate.DayFromYear (y + 1) = JsDate.DayFromYear y + 365 + JsDate.leap y.
Proof.
  unfold JsDate.DayFromYear, JsDate.leap.
  destruct (Z.eqb_spec (y mod 4) 0), (Z.eqb_spec (y mod 100) 0),
    (Z.eqb_spec (y mod 400) 0); simpl; Z.div_mod_to_equations; lia.
Qed.

Lemma YearFromDay_spec d :
  JsDate.DayFromYear (JsDate.YearFromDay d) <= d
  < JsDate.DayFromYear (JsDate.YearFromDay d + 1).
Proof.
  unfold JsDate.YearFromDay.
  set (y := 1970 + 400 * d / 146097).
  assert (H1 : JsDate.DayFromYear (y - 1) <= d)
    by (subst y; unfold JsDate.DayFromYear; Z.div_mod_to_equations; lia).
  assert (H2 : d < JsDate.DayFromYear (y + 2))
    by (subst y; unfold JsDate.DayFromYear; Z.div_mod_to_equations; lia).
  destruct (Z.ltb_spec d (JsDate.DayFromYear y)).
  - replace (y - 1 + 1) with y by lia. lia.
  - destruct (Z.leb_spec (JsDate.DayFromYear (y + 1)) d).
    + replace (y + 1 + 1) with (y + 2) by lia. lia.
    + lia.
Qed.

Lemma monthOfDay_range lp d : 0 <= JsDate.monthOfDay lp d <= 11.
Proof. unfold JsDate.monthOfDay. repeat case_match; lia. Qed.

Lemma monthStart_shift lp lp' m :
  0 <= m <= 11 ->
  JsDate.monthStart lp' m - JsDate.monthStart lp m = if m <? 2 then 0 else lp' - lp.
Proof.
  intros H.
  assert (m = 0 \/ m = 1 \/ m = 2 \/ m = 3 \/ m = 4 \/ m = 5 \/ m = 6 \/ m = 7
          \/ m = 8 \/ m = 9 \/ m = 10 \/ m = 11) as Hm by lia.
  repeat (destruct Hm as [->|Hm]); try subst m; cbn; lia.
Qed.

(** [setFullYear(getFullYear() + 1)] moves a local time 365 or 366 days on. *)
Lemma one_year_later L :
  exists d, (d = 365 \/ d = 366)
    /\ JsDate.MakeDate
         (JsDate.MakeDay (JsDate.YearFromTime L + 1) (JsDate.MonthFromTime L)
                         (JsDate.DateFromTime L))
         (JsDate.TimeWithinDay L)
       = L + d * JsDate.msPerDay.
Proof.
  unfold JsDate.MakeDate, JsDate.MakeDay, JsDate.DateFromTime, JsDate.MonthFromTime,
    JsDate.DayWithinYear, JsDate.InLeapYear.
  set (Y := JsDate.YearFromTime L).
  set (M := JsDate.monthOfDay (JsDate.leap Y) (JsDate.Day L - JsDate.DayFromYear Y)).
  pose proof (monthOfDay_range (JsDate.leap Y) (JsDate.Day L - JsDate.DayFromYear Y)) as HM.
  fold M in HM.
  rewrite (Z.div_small M 12), (Z.mod_small M 12), Z.add_0_r by lia.
  pose proof (monthStart_shift (JsDate.leap Y) (JsDate.leap (Y + 1)) M HM) as Hshift.
  pose proof (DayFromYear_succ Y) as Hsucc.
  pose proof (leap_cases Y) as HlY. pose proof (leap_cases (Y + 1)) as HlY1.
  assert (Hsplit : L = JsDate.Day L * JsDate.msPerDay + JsDate.TimeWithinDay L).
  { unfold JsDate.Day, JsDate.TimeWithinDay, JsDate.msPerDay.
    rewrite Z.mul_comm. apply Z.div_mod. lia. }
  exists (365 + JsDate.leap Y + (if M <? 2 then 0 else JsDate.leap (Y + 1) - JsDate.leap Y)).
  split.
  - destruct (M <? 2); lia.
  - unfold JsDate.msPerDay in *. destruct (M <? 2); lia.
Qed.

Lemma monthStart_next lp m :
  0 <= m <= 10 -> lp = 0 \/ lp = 1 ->
  28 <= JsDate.monthStart lp (m + 1) - JsDate.monthStart lp m <= 31.
Proof.
  intros H Hlp.
  assert (m = 0 \/ m = 1 \/ m = 2 \/ m = 3 \/ m = 4 \/ m = 5 \/ m = 6 \/ m = 7
          \/ m = 8 \/ m = 9 \/ m = 10) as Hm by lia.
  destruct Hlp as [-> | ->];
    repeat (destruct Hm as [->|Hm]); try subst m; vm_compute; split; discriminate.
Qed.

(** [setMonth(getMonth() + 1)] moves a local time on by the length of its
    month. *)
Lemma one_month_later L :
  exists d, 28 <= d <= 31
    /\ JsDate.MakeDate
         (JsDate.MakeDay (JsDate.YearFromTime L) (JsDate.MonthFromTime L + 1)
                         (JsDate.DateFromTime L))
         (JsDate.TimeWithinDay L)
       = L + d * JsDate.msPerDay.
Proof.
  unfold JsDate.MakeDate, JsDate.MakeDay, JsDate.DateFromTime, JsDate.MonthFromTime,
    JsDate.DayWithinYear, JsDate.InLeapYear.
  set (Y := JsDate.YearFromTime L).
  set (M := JsDate.monthOfDay (JsDate.leap Y) (JsDate.Day L - JsDate.DayFromYear Y)).
  pose proof (monthOfDay_range (JsDate.leap Y) (JsDate.Day L - JsDate.DayFromYear Y)) as HM.
  fold M in HM.
  pose proof (DayFromYear_succ Y) as Hsucc.
  pose proof (leap_cases Y) as HlY.
  assert (Hsplit : L = JsDate.Day L * JsDate.msPerDay + JsDate.TimeWithinDay L).
  { unfold JsDate.Day, JsDate.TimeWithinDay, JsDate.msPerDay.
    rewrite Z.mul_comm. apply Z.div_mod. lia. }
  destruct (decide (M = 11)) as [HM11|HM11].
  - rewrite HM11. change ((11 + 1) / 12) with 1. change ((11 + 1) mod 12) with 0.
    exists 31. split; [lia|].
    change (JsDate.monthStart (JsDate.leap (Y + 1)) 0) with 0.
    change (JsDate.monthStart (JsDate.leap Y) 11) with (334 + JsDate.leap Y).
    unfold JsDate.msPerDay in *. lia.
  - rewrite (Z.div_small (M + 1) 12), (Z.mod_small (M + 1) 12), Z.add_0_r by lia.
    pose proof (monthStart_next (JsDate.leap Y) M ltac:(lia) HlY) as Hnext.
    exists (JsDate.monthStart (JsDate.leap Y) (M + 1) - JsDate.monthStart (JsDate.leap Y) M).
    split; [lia|]. unfold JsDate.msPerDay in *. lia.
Qed.

Lemma addOneYear_spec tz t :
  exists d, (d = 365 \/ d = 366)
    /\ JsDate.addOneYear tz (Some t) = JsDate.TimeClip (daysLater tz t d).
Proof.
  destruct (one_year_later (JsDate.LocalTime tz t)) as (d & Hd & E).
  exists d. split; [done|].
  unfold JsDate.addOneYear, JsDate.getFullYear, JsDate.setFullYear, daysLater.
  by rewrite E.
Qed.

Lemma addOneMonth_spec tz t :
  exists d, 28 <= d <= 31
    /\ JsDate.addOneMonth tz (Some t) = JsDate.TimeClip (daysLater tz t d).
Proof.
  destruct (one_month_later (JsDate.LocalTime tz t)) as (d & Hd & E).
  exists d. split; [done|].
  unfold JsDate.addOneMonth, JsDate.getMonth, JsDate.setMonth, daysLater.
  by rewrite E.
Qed.

(** A date [d] days later by the clock of the zone is [d] times 24 hours
    later, but for the change of offset in between. *)
Lemma daysLater_near tz b t d :
  zoneDrift tz b -> Z.abs (daysLater tz t d - (t + d * JsDate.msPerDay)) <= b.
Proof.
  intros Hb. unfold daysLater, JsDate.UTC, JsDate.LocalTime.
  specialize (Hb t (t + JsDate.offsetAt tz t + d * JsDate.msPerDay)).
  replace (t + JsDate.offsetAt tz t + d * JsDate.msPerDay
           - JsDate.offsetAtLocal tz (t + JsDate.offsetAt tz t + d * JsDate.msPerDay)
           - (t + d * JsDate.msPerDay))
    with (JsDate.offsetAt tz t
          - JsDate.offsetAtLocal tz (t + JsDate.offsetAt tz t + d * JsDate.msPerDay))
    by lia.
  exact Hb.
Qed.

Lemma TimeClip_in_range t d b x :
  Z.abs t + 366 * JsDate.msPerDay + b <= JsDate.maxTime -> 0 <= d <= 366 ->
  Z.abs (x - (t + d * JsDate.msPerDay)) <= b ->
  JsDate.TimeClip x = Some x.
Proof.
  intros Ht Hd Hx. unfold JsDate.TimeClip, JsDate.msPerDay, JsDate.maxTime in *.
  destruct (Z.leb_spec (Z.abs x) 8640000000000000); [done|lia].
Qed.

(** One period from [t], in a zone whose offsets drift by [b] at most. *)
Lemma period_from tz (annual : bool) t b :
  zoneDrift tz b ->
  Z.abs t + 366 * JsDate.msPerDay + b <= JsDate.maxTime ->
  exists d, periodDays annual d
    /\ Z.abs (daysLater tz t d - (t + d * JsDate.msPerDay)) <= b
    /\ (if annual then JsDate.addOneYear tz (Some t) else JsDate.addOneMonth tz (Some t))
       = Some (daysLater tz t d).
Proof.
  intros Hb Ht. destruct annual.
  - destruct (addOneYear_spec tz t) as (d & Hd & ->). exists d.
    pose proof (daysLater_near tz b t d Hb) as Hnear.
    split; [done|]. split; [done|].
    apply (TimeClip_in_range t d b); [done|lia|done].
  - destruct (addOneMonth_spec tz t) as (d & Hd & ->). exists d.
    pose proof (daysLater_near tz b t d Hb) as Hnear.
    split; [done|]. split; [done|].
    apply (TimeClip_in_range t d b); [done|lia|done].
Qed.

Lemma localEndDate_period env plan b :
  zoneDrift (tza env) b ->
  Z.abs (clock env) + 366 * JsDate.msPerDay + b <= JsDate.maxTime ->
  exists d, periodDays (strictEq plan (JStr "annual")) d
    /\ Z.abs (daysLater (tza env) (clock env) d - (clock env + d * JsDate.msPerDay)) <= b
    /\ localEndDate env plan = Some (daysLater (tza env) (clock env) d).
Proof.
  intros Hb Hclock.
  destruct (period_from (tza env) (strictEq plan (JStr "annual")) (clock env) b Hb Hclock)
    as (d & Hd & Hnear & E).
  exists d. split; [done|]. split; [done|]. unfold localEndDate, newDate.
  by destruct (strictEq plan (JStr "annual")).
Qed.

(** *** cancelSubscriptionAtPeriodEnd *)

Lemma findCancellable_run env uid w :
  validObjectId env uid = true ->
  storeFault env SubscriptionFind = None ->
  findCancellable env uid w =
    (match subscriptions w !! uid with
     | Some doc =>
         if forallb (satisfies doc) activeRecord then Return doc
         else if forallb (satisfies doc) scheduledRecord
         then Throw (Error (msgAlreadyScheduled (endDateFormatted env doc)))
         else if forallb (satisfies doc) expiredRecord
         then Throw (Error msgExpired)
         else Throw (Error msgNothingToCancel)
     | None => Throw (Error msgNothingToCancel)
     end, w).
Proof.
  intros Hvalid Hfault. unfold findCancellable, bind.
  rewrite !Subscription_findOne_run, Hvalid, Hfault.
  destruct (subscriptions w !! uid) as [doc|] eqn:Hdoc.
  - destruct (forallb (satisfies doc) activeRecord); [reflexivity|].
    rewrite !Subscription_findOne_run, Hvalid, Hfault, Hdoc.
    destruct (forallb (satisfies doc) scheduledRecord); [reflexivity|].
    rewrite !Subscription_findOne_run, Hvalid, Hfault, Hdoc.
    destruct (forallb (satisfies doc) expiredRecord); reflexivity.
  - rewrite !Subscription_findOne_run, Hvalid, Hfault, Hdoc.
    rewrite !Subscription_findOne_run, Hvalid, Hfault, Hdoc. reflexivity.
Qed.

Lemma cancel_stops_when_nothing_found env uid w e :
  findCancellable env uid w = (Throw e, w) ->
  cancelSubscriptionAtPeriodEnd env uid w = (Throw e, w).
Proof. intros H. unfold cancelSubscriptionAtPeriodEnd, bind. by rewrite H. Qed.

Lemma strictEq_true (v : option JsVal) u : v = Some u -> strictEq v u = true.
Proof. intros ->. apply bool_decide_eq_true_2. reflexivity. Qed.

Lemma strictEq_false (v : option JsVal) u : v <> Some u -> strictEq v u = false.
Proof.
  intros H. destruct v as [x|]; [|reflexivity]. apply bool_decide_eq_false_2. congruence.
Qed.

Lemma matches_nothing (doc : Obj) :
  (doc !! "status" <> Some (JStr "active") /\ doc !! "status" <> Some (JStr "canceled"))
  \/ (doc !! "status" = Some (JStr "active") /\ doc !! "isActive" <> Some (JBool true))
  \/ (doc !! "status" = Some (JStr "canceled") /\ doc !! "isActive" = Some (JBool true)
      /\ doc !! "cancelationType" = Some (JStr "immediate"))
  \/ (doc !! "status" = Some (JStr "canceled") /\ doc !! "isActive" <> Some (JBool true)
      /\ doc !! "isActive" <> Some (JBool false)) ->
  forallb (satisfies doc) activeRecord = false
  /\ forallb (satisfies doc) scheduledRecord = false
  /\ forallb (satisfies doc) expiredRecord = false.
Proof.
  unfold activeRecord, scheduledRecord, expiredRecord. cbn [forallb satisfies].
  intros [[H1 H2]|[[H1 H2]|[(H1 & H2 & H3)|(H1 & H2 & H3)]]].
  - by rewrite (strictEq_false _ _ H1), (strictEq_false _ _ H2).
  - rewrite (strictEq_true _ _ H1), (strictEq_false _ _ H2).
    by rewrite (strictEq_false _ (JStr "canceled")) by (rewrite H1; congruence).
  - rewrite (strictEq_false _ (JStr "active")) by (rewrite H1; congruence).
    rewrite (strictEq_true _ _ H1), (strictEq_true _ _ H2), (strictEq_true _ _ H3).
    by rewrite (strictEq_false _ (JBool false)) by (rewrite H2; congruence).
  - rewrite (strictEq_false _ (JStr "active")) by (rewrite H1; congruence).
    by rewrite (strictEq_true _ _ H1), (strictEq_false _ _ H2), (strictEq_false _ _ H3).
Qed.

(** C5.  Without an active record, [cancelSubscriptionAtPeriodEnd] fails
    in one of three ways and changes nothing (no call is issued): a record
    canceled, still active and not canceled immediately gives the message
    that names its end date; a record canceled and inactive gives the
    "already expired" message; and when no record matches, "nothing to
    cancel": that is when the user has no record, and when the record
    matches none of the three queries (a status other than "active" and
    "canceled", "active" without [isActive] true, canceled and active but
    canceled immediately, canceled with [isActive] neither true nor
    false).  The three messages differ. *)
Theorem C5_three_ways_to_refuse_a_cancellation env uid w :
  validObjectId env uid = true ->
  storeFault env SubscriptionFind = None ->
  let r := cancelSubscriptionAtPeriodEnd env uid w in
  (forall doc,
      subscriptions w !! uid = Some doc ->
      doc !! "status" = Some (JStr "canceled") ->
      doc !! "isActive" = Some (JBool true) ->
      doc !! "cancelationType" <> Some (JStr "immediate") ->
      r = (Throw (Error (msgAlreadyScheduled (endDateFormatted env doc))), w)
      /\ (forall t, doc !! "endDate" = Some (JDate (Some t)) ->
            endDateFormatted env doc
            = JsDate.toLocaleDateString_frFR (tza env) (Some t)))
  /\ (forall doc,
      subscriptions w !! uid = Some doc ->
      doc !! "status" = Some (JStr "canceled") ->
      doc !! "isActive" = Some (JBool false) ->
      r = (Throw (Error msgExpired), w))
  /\ (subscriptions w !! uid = None -> r = (Throw (Error msgNothingToCancel), w))
  /\ (forall doc,
      subscriptions w !! uid = Some doc ->
      forallb (satisfies doc) activeRecord = false ->
      forallb (satisfies doc) scheduledRecord = false ->
      forallb (satisfies doc) expiredRecord = false ->
      r = (Throw (Error msgNothingToCancel), w))
  /\ (forall doc,
      subscriptions w !! uid = Some doc ->
      (doc !! "status" <> Some (JStr "active")
       /\ doc !! "status" <> Some (JStr "canceled"))
      \/ (doc !! "status" = Some (JStr "active")
          /\ doc !! "isActive" <> Some (JBool true))
      \/ (doc !! "status" = Some (JStr "canceled")
          /\ doc !! "isActive" = Some (JBool true)
          /\ doc !! "cancelationType" = Some (JStr "immediate"))
      \/ (doc !! "status" = Some (JStr "canceled")
          /\ doc !! "isActive" <> Some (JBool true)
          /\ doc !! "isActive" <> Some (JBool false)) ->
      r = (Throw (Error msgNothingToCancel), w))
  /\ msgExpired <> msgNothingToCancel
  /\ (forall s, msgAlreadyScheduled s <> msgExpired
                /\ msgAlreadyScheduled s <> msgNothingToCancel).
Proof.
  intros Hvalid Hfault. cbv zeta.
  pose proof (findCancellable_run env uid w Hvalid Hfault) as Hrun.
  assert (Hnone : forall doc,
    subscriptions w !! uid = Some doc ->
    forallb (satisfies doc) activeRecord = false ->
    forallb (satisfies doc) scheduledRecord = false ->
    forallb (satisfies doc) expiredRecord = false ->
    cancelSubscriptionAtPeriodEnd env uid w = (Throw (Error msgNothingToCancel), w)).
  { intros doc Hdoc H1 H2 H3. apply cancel_stops_when_nothing_found.
    by rewrite Hrun, Hdoc, H1, H2, H3. }
  split; [|split; [|split; [|split; [|split; [|split]]]]].
  - intros doc Hdoc Hs Ha Hc. split.
    + apply cancel_stops_when_nothing_found. rewrite Hrun, Hdoc.
      unfold activeRecord, scheduledRecord. cbn [forallb satisfies].
      rewrite (strictEq_false _ (JStr "active")) by (rewrite Hs; congruence).
      rewrite (strictEq_true _ _ Hs), (strictEq_true _ _ Ha), (strictEq_false _ _ Hc).
      reflexivity.
    + intros t Ht. unfold endDateFormatted. by rewrite Ht.
  - intros doc Hdoc Hs Ha.
    apply cancel_stops_when_nothing_found. rewrite Hrun, Hdoc.
    unfold activeRecord, scheduledRecord, expiredRecord. cbn [forallb satisfies].
    rewrite (strictEq_false _ (JStr "active")) by (rewrite Hs; congruence).
    rewrite (strictEq_true _ _ Hs), (strictEq_true _ _ Ha).
    rewrite (strictEq_false _ (JBool true)) by (rewrite Ha; congruence).
    reflexivity.
  - intros H. apply cancel_stops_when_nothing_found. by rewrite Hrun, H.
  - exact Hnone.
  - intros doc Hdoc Hcases.
    destruct (matches_nothing doc Hcases) as (H1 & H2 & H3). by apply (Hnone doc).
  - discriminate.
  - intros s. split; discriminate.
Qed.

Lemma liftResult_run {A} (r : Result A) (w : World) : liftResult r w = (r, w).
Proof. by destruct r. Qed.

Lemma stripe_subscriptions_retrieve_run env id w :
  stripe_subscriptions_retrieve env id w
  = (stripe_retrieve env id, logged w (CallStripeRetrieve id)).
Proof.
  unfold stripe_subscriptions_retrieve, bind, logCall, modify.
  by rewrite liftResult_run.
Qed.

Lemma stripe_subscriptions_update_run env id params w :
  stripe_subscriptions_update env id params w
  = (stripe_update env id params, logged w (CallStripeUpdate id params)).
Proof.
  unfold stripe_subscriptions_update, bind, logCall, modify.
  by rewrite liftResult_run.
Qed.

Lemma cancelRemotely_run env id subscription w :
  cancelRemotely env id subscription w =
    let w1 := logged w (CallStripeRetrieve id) in
    match stripe_retrieve env id with
    | Throw e => (Throw e, w1)
    | Return current =>
        if cancel_at_period_end current then
          settle env subscription
            (match current_period_end current with
             | Some cpe => if cpe =? 0 then subscription !! "endDate"
                           else Some (dateOfSeconds cpe)
             | None => subscription !! "endDate"
             end) w1
        else
          let w2 := logged w1 (CallStripeUpdate id (scheduleCancellation env)) in
          match stripe_update env id (scheduleCancellation env) with
          | Throw e => (Throw e, w2)
          | Return updated =>
              settle env subscription
                (match current_period_end updated with
                 | Some cpe => if 0 <? cpe then Some (dateOfSeconds cpe)
                               else subscription !! "endDate"
                 | None => subscription !! "endDate"
                 end) w2
          end
    end.
Proof.
  unfold cancelRemotely, settle. unfold bind at 1.
  rewrite stripe_subscriptions_retrieve_run. cbv zeta.
  destruct (stripe_retrieve env id) as [current|e]; [|reflexivity].
  destruct (cancel_at_period_end current).
  - unfold bind, ret. rewrite liftResult_run.
    destruct (lacksValidDate _) as [[]|e]; reflexivity.
  - unfold bind at 1 2. rewrite stripe_subscriptions_update_run.
    destruct (stripe_update env id (scheduleCancellation env)) as [updated|e]; [|reflexivity].
    unfold bind, ret. rewrite liftResult_run.
    destruct (lacksValidDate _) as [[]|e]; reflexivity.
Qed.

Lemma field_stored (docs : gmap string Obj) uid (doc : Obj) k :
  field (<[uid := doc]> docs) uid k = doc !! k.
Proof. unfold field. by rewrite lookup_insert_eq. Qed.

Lemma cast_cancellation env t :
  exists set,
    castUpdate env SubscriptionSchema
      (preFindOneAndUpdate env (<["updatedAt" := JDate (newDate env)]>
         (checkEndDate env (cancellation (Some (JDate (Some t))))))) = Return set
    /\ set !! "status" = Some (JStr "canceled")
    /\ set !! "isActive" = Some (JBool true)
    /\ set !! "endDate" = Some (JDate (Some t))
    /\ set !! "cancelationType" = Some (JStr "end_of_period").
Proof.
  assert (H :
    match castUpdate env SubscriptionSchema
      (preFindOneAndUpdate env (<["updatedAt" := JDate (newDate env)]>
         (checkEndDate env (cancellation (Some (JDate (Some t))))))) with
    | Return s => (s !! "status", s !! "isActive", s !! "endDate", s !! "cancelationType")
    | Throw _ => (None, None, None, None)
    end
    = (Some (JStr "canceled"), Some (JBool true), Some (JDate (Some t)),
       Some (JStr "end_of_period"))) by (vm_compute; reflexivity).
  destruct (castUpdate env SubscriptionSchema _) as [set|e]; [|discriminate].
  exists set. by simplify_eq.
Qed.

(** A write that changes no role, on a record that exists. *)
Lemma updateSubscription_existing env uid data w doc set :
  validObjectId env uid = true ->
  roleChange data = None ->
  storeFault env SubscriptionUpdate = None ->
  subscriptions w !! uid = Some doc ->
  castUpdate env SubscriptionSchema
    (preFindOneAndUpdate env
       (<["updatedAt" := JDate (newDate env)]> (checkEndDate env data))) = Return set ->
  updateSubscription env uid data w =
    (Return (set ∪ doc),
     stored (logged w (CallSubscriptionUpdate uid
                         (<["updatedAt" := JDate (newDate env)]> (checkEndDate env data))))
            uid (set ∪ doc)).
Proof.
  intros Hvalid Hrole Hfault Hdoc Hcast.
  rewrite updateSubscription_run, Hvalid. unfold afterRole.
  rewrite roleChange_checkEndDate, Hrole. cbv beta iota.
  rewrite Subscription_findOneAndUpdate_run, Hvalid, stamped_sent. cbv zeta.
  by rewrite Hcast, Hfault, Hdoc.
Qed.


Lemma findCancellable_active env uid w doc :
  validObjectId env uid = true ->
  storeFault env SubscriptionFind = None ->
  subscriptions w !! uid = Some doc ->
  doc !! "status" = Some (JStr "active") ->
  doc !! "isActive" = Some (JBool true) ->
  findCancellable env uid w = (Return doc, w).
Proof.
  intros Hvalid Hfault Hdoc Hs Ha.
  rewrite (findCancellable_run env uid w Hvalid Hfault), Hdoc.
  unfold activeRecord. cbn [forallb satisfies].
  by rewrite (strictEq_true _ _ Hs), (strictEq_true _ _ Ha).
Qed.

Lemma cancel_persists env uid w doc w1 t :
  validObjectId env uid = true ->
  storeFault env SubscriptionUpdate = None ->
  findCancellable env uid w = (Return doc, w) ->
  determineEndDate env doc w = (Return (Some (JDate (Some t))), w1) ->
  subscriptions w1 !! uid = Some doc ->
  let r := cancelSubscriptionAtPeriodEnd env uid w in
  exists doc',
    fst r = Return (<["daysRemaining" := JNum (JsDate.daysRemaining t (clock env))]> doc')
    /\ subscriptions (snd r) = <[uid := doc']> (subscriptions w1)
    /\ users (snd r) = users w1
    /\ calls (snd r) =
         (calls w1 ++ [CallSubscriptionUpdate uid
                         (<["updatedAt" := JDate (newDate env)]>
                            (checkEndDate env (cancellation (Some (JDate (Some t))))))])%list
    /\ doc' !! "status" = Some (JStr "canceled")
    /\ doc' !! "isActive" = Some (JBool true)
    /\ doc' !! "endDate" = Some (JDate (Some t))
    /\ doc' !! "cancelationType" = Some (JStr "end_of_period").
Proof.
  intros Hvalid Hfault Hfind Hdate Hdoc. cbv zeta.
  destruct (cast_cancellation env t) as (set & Hcast & Hs & Ha & He & Hc).
  exists (set ∪ doc).
  assert (Hrun : cancelSubscriptionAtPeriodEnd env uid w =
    (Return (<["daysRemaining" := JNum (JsDate.daysRemaining t (clock env))]> (set ∪ doc)),
     stored (logged w1 (CallSubscriptionUpdate uid
               (<["updatedAt" := JDate (newDate env)]>
                  (checkEndDate env (cancellation (Some (JDate (Some t))))))))
            uid (set ∪ doc))).
  { unfold cancelSubscriptionAtPeriodEnd. unfold bind at 1. rewrite Hfind.
    unfold bind at 1. rewrite Hdate.
    unfold bind at 1. rewrite liftResult_run.
    cbn [lacksValidDate truthy negb JsDate.isNaN_getTime].
    unfold try_catch, bind.
    rewrite (updateSubscription_existing env uid _ w1 doc set Hvalid
               (roleChange_cancellation _) Hfault Hdoc Hcast).
    reflexivity. }
  rewrite Hrun. cbn [fst snd stored logged subscriptions users calls].
  do 4 (split; [reflexivity|]).
  split_and!; by apply lookup_union_Some_l.
Qed.




Lemma logged_stores w c :
  subscriptions (logged w c) = subscriptions w /\ users (logged w c) = users w.
Proof. done. Qed.


(** *** reactivateSubscription *)

Lemma cast_reactivation env :
  exists set,
    castUpdate env SubscriptionSchema
      (preFindOneAndUpdate env (<["updatedAt" := JDate (newDate env)]>
         (checkEndDate env reactivation))) = Return set
    /\ set !! "status" = Some (JStr "active")
    /\ set !! "isActive" = Some (JBool true)
    /\ set !! "cancelationType" = Some JNull.
Proof.
  assert (H :
    match castUpdate env SubscriptionSchema
      (preFindOneAndUpdate env (<["updatedAt" := JDate (newDate env)]>
         (checkEndDate env reactivation))) with
    | Return s => (s !! "status", s !! "isActive", s !! "cancelationType")
    | Throw _ => (None, None, None)
    end
    = (Some (JStr "active"), Some (JBool true), Some JNull)) by (vm_compute; reflexivity).
  destruct (castUpdate env SubscriptionSchema _) as [set|e]; [|discriminate].
  exists set. by simplify_eq.
Qed.

(** A write that changes a role, on a record that exists. *)
Lemma updateSubscription_existing_role env uid data w doc set role :
  validObjectId env uid = true ->
  roleChange data = Some role ->
  storeFault env UserUpdate = None ->
  storeFault env SubscriptionUpdate = None ->
  subscriptions w !! uid = Some doc ->
  castUpdate env SubscriptionSchema
    (preFindOneAndUpdate env
       (<["updatedAt" := JDate (newDate env)]> (checkEndDate env data))) = Return set ->
  let r := updateSubscription env uid data w in
  fst r = Return (set ∪ doc)
  /\ subscriptions (snd r) = <[uid := set ∪ doc]> (subscriptions w)
  /\ users (snd r) = withRole env uid role (users w).
Proof.
  intros Hvalid Hrole Hu Hfault Hdoc Hcast. cbv zeta.
  rewrite updateSubscription_run, Hvalid. unfold afterRole.
  rewrite roleChange_checkEndDate, Hrole, User_findByIdAndUpdate_run, Hu.
  cbv beta iota zeta.
  rewrite Subscription_findOneAndUpdate_run, Hvalid, stamped_sent. cbv zeta.
  rewrite Hcast, Hfault. cbn [logged subscriptions]. by rewrite Hdoc.
Qed.

Lemma reactivateSubscription_found env uid w doc :
  validObjectId env uid = true ->
  storeFault env SubscriptionFind = None ->
  subscriptions w !! uid = Some doc ->
  forallb (satisfies doc) reactivableRecord = true ->
  reactivateSubscription env uid w =
    match remoteId doc with
    | Some id =>
        match stripe_update env id (clearCancellation env) with
        | Return _ =>
            updateSubscription env uid reactivation
              (logged w (CallStripeUpdate id (clearCancellation env)))
        | Throw e =>
            (Throw (Error ("Échec réactivation Stripe: " +:+ message e)),
             logged w (CallStripeUpdate id (clearCancellation env)))
        end
    | None => updateSubscription env uid reactivation w
    end.
Proof.
  intros Hvalid Hfault Hdoc Hmatch.
  unfold reactivateSubscription. unfold bind at 1.
  rewrite Subscription_findOne_run, Hvalid, Hfault, Hdoc, Hmatch.
  destruct (remoteId doc) as [id|]; [|reflexivity].
  unfold bind at 1. unfold try_catch, bind at 1.
  rewrite stripe_subscriptions_update_run.
  destruct (stripe_update env id (clearCancellation env)); reflexivity.
Qed.

Lemma reactivateSubscription_not_found env uid w :
  validObjectId env uid = true ->
  storeFault env SubscriptionFind = None ->
  match subscriptions w !! uid with
  | Some doc => forallb (satisfies doc) reactivableRecord = false
  | None => True
  end ->
  reactivateSubscription env uid w = (Throw (Error msgNothingReactivable), w).
Proof.
  intros Hvalid Hfault H. unfold reactivateSubscription, bind.
  rewrite Subscription_findOne_run, Hvalid, Hfault.
  destruct (subscriptions w !! uid) as [doc|]; [by rewrite H|reflexivity].
Qed.

Lemma reactivable_fields (doc : Obj) :
  forallb (satisfies doc) reactivableRecord = true <->
  doc !! "status" = Some (JStr "canceled")
  /\ doc !! "isActive" = Some (JBool true)
  /\ doc !! "cancelationType" = Some (JStr "end_of_period").
Proof.
  unfold reactivableRecord. cbn [forallb satisfies]. rewrite !andb_true_iff.
  assert (E : forall v u, strictEq v u = true <-> v = Some u).
  { intros [x|] u; cbn; [|by split].
    rewrite bool_decide_eq_true. split; congruence. }
  rewrite !E. tauto.
Qed.

Lemma roleChange_reactivation : roleChange reactivation = Some "premium".
Proof. vm_compute. reflexivity. Qed.

(** C8.  [reactivateSubscription] succeeds only on a record canceled,
    still active and canceled at the end of the period; on a record
    canceled immediately or no longer active it throws "Aucun abonnement
    annulé réactivable trouvé." and changes nothing; when it succeeds the
    record is active with [cancelationType] null and the role is "premium";
    when the record has a remote id and the gateway update fails it throws
    and both collections are as before. *)
Theorem C8_reactivation env uid w :
  validObjectId env uid = true ->
  (forall op, storeFault env op = None) ->
  let r := reactivateSubscription env uid w in
  (isThrow (fst r) = false ->
   exists doc, subscriptions w !! uid = Some doc
     /\ doc !! "status" = Some (JStr "canceled")
     /\ doc !! "isActive" = Some (JBool true)
     /\ doc !! "cancelationType" = Some (JStr "end_of_period"))
  /\ (forall doc,
      subscriptions w !! uid = Some doc ->
      doc !! "cancelationType" = Some (JStr "immediate")
      \/ doc !! "isActive" = Some (JBool false) ->
      r = (Throw (Error msgNothingReactivable), w))
  /\ (forall doc,
      subscriptions w !! uid = Some doc ->
      forallb (satisfies doc) reactivableRecord = true ->
      remoteId doc = None
      \/ (exists id, remoteId doc = Some id
            /\ isThrow (stripe_update env id (clearCancellation env)) = false) ->
      isThrow (fst r) = false
      /\ field (subscriptions (snd r)) uid "status" = Some (JStr "active")
      /\ field (subscriptions (snd r)) uid "isActive" = Some (JBool true)
      /\ field (subscriptions (snd r)) uid "cancelationType" = Some JNull
      /\ users (snd r) = withRole env uid "premium" (users w))
  /\ (forall doc id e,
      subscriptions w !! uid = Some doc ->
      forallb (satisfies doc) reactivableRecord = true ->
      remoteId doc = Some id ->
      stripe_update env id (clearCancellation env) = Throw e ->
      fst r = Throw (Error ("Échec réactivation Stripe: " +:+ message e))
      /\ subscriptions (snd r) = subscriptions w
      /\ users (snd r) = users w).
Proof.
  intros Hvalid Hfault. cbv zeta. split; [|split; [|split]].
  - intros Hok. destruct (subscriptions w !! uid) as [doc|] eqn:Hdoc.
    + destruct (forallb (satisfies doc) reactivableRecord) eqn:Hm.
      * exists doc. split; [done|]. by apply reactivable_fields.
      * rewrite reactivateSubscription_not_found in Hok; [done..|by rewrite Hdoc].
    + rewrite reactivateSubscription_not_found in Hok; [done..|by rewrite Hdoc].
  - intros doc Hdoc Hbad. apply reactivateSubscription_not_found; [done..|].
    rewrite Hdoc. apply not_true_is_false. rewrite reactivable_fields.
    intros (_ & Ha & Hc). destruct Hbad as [Hb|Hb]; congruence.
  - intros doc Hdoc Hm Hremote.
    rewrite (reactivateSubscription_found env uid w doc Hvalid (Hfault _) Hdoc Hm).
    destruct (cast_reactivation env) as (set & Hcast & F1 & F2 & F3).
    assert (Hgo : forall w1, subscriptions w1 = subscriptions w -> users w1 = users w ->
      let r := updateSubscription env uid reactivation w1 in
      isThrow (fst r) = false
      /\ field (subscriptions (snd r)) uid "status" = Some (JStr "active")
      /\ field (subscriptions (snd r)) uid "isActive" = Some (JBool true)
      /\ field (subscriptions (snd r)) uid "cancelationType" = Some JNull
      /\ users (snd r) = withRole env uid "premium" (users w)).
    { intros w1 E1 E2. cbv zeta.
      destruct (updateSubscription_existing_role env uid reactivation w1 doc set "premium"
                  Hvalid roleChange_reactivation (Hfault _) (Hfault _)
                  ltac:(by rewrite E1) Hcast) as (Hr & Hsub & Hus).
      rewrite Hr, Hsub, Hus, E2, !field_stored. cbn [isThrow].
      split_and!; try reflexivity; by apply lookup_union_Some_l. }
    destruct Hremote as [-> | (id & -> & Hup)]; [by apply Hgo|].
    destruct (stripe_update env id (clearCancellation env)); [|discriminate].
    by apply Hgo.
  - intros doc id e Hdoc Hm Hid Hup.
    rewrite (reactivateSubscription_found env uid w doc Hvalid (Hfault _) Hdoc Hm), Hid, Hup.
    done.
Qed.

(** *** changePlan *)

Lemma cast_planUpdate env newPlan t :
  exists set,
    castUpdate env SubscriptionSchema
      (preFindOneAndUpdate env (<["updatedAt" := JDate (newDate env)]>
         (checkEndDate env (planUpdate newPlan (Some t))))) = Return set
    /\ set !! "plan" = Some (JStr newPlan)
    /\ set !! "endDate" = Some (JDate (Some t))
    /\ set !! "status" = None
    /\ set !! "isActive" = None.
Proof.
  assert (H :
    match castUpdate env SubscriptionSchema
      (preFindOneAndUpdate env (<["updatedAt" := JDate (newDate env)]>
         (checkEndDate env (planUpdate newPlan (Some t))))) with
    | Return s => Some (s !! "plan", s !! "endDate", s !! "status", s !! "isActive")
    | Throw _ => None
    end
    = Some (Some (JStr newPlan), Some (JDate (Some t)), None, None))
    by (vm_compute; reflexivity).
  destruct (castUpdate env SubscriptionSchema _) as [set|e]; [|discriminate].
  exists set. by simplify_eq.
Qed.

Lemma roleChange_planUpdate newPlan d : roleChange (planUpdate newPlan d) = None.
Proof. vm_compute. reflexivity. Qed.

Lemma changePlan_found env uid newPlan w doc :
  validObjectId env uid = true ->
  storeFault env SubscriptionFind = None ->
  subscriptions w !! uid = Some doc ->
  doc !! "status" = Some (JStr "active") ->
  doc !! "isActive" = Some (JBool true) ->
  changePlan env uid newPlan w =
    if strictEq (doc !! "plan") (JStr newPlan)
    then (Throw (Error ("Vous êtes déjà sur le plan " +:+ newPlan +:+ ".")), w)
    else
      match determineChange env doc newPlan w with
      | (Throw e, w1) => (Throw e, w1)
      | (Return change, w1) =>
          match updateSubscription env uid (planUpdate newPlan (fst change)) w1 with
          | (Return updated, w2) =>
              (Return (mkPlanChange updated (doc !! "plan") newPlan
                                    (fst change) (snd change)), w2)
          | (Throw dbError, w2) =>
              (Throw (Error ("Erreur sauvegarde changement plan: "
                               +:+ message dbError)), w2)
          end
      end.
Proof.
  intros Hvalid Hfault Hdoc Hs Ha.
  unfold changePlan. unfold bind at 1.
  rewrite Subscription_findOne_run, Hvalid, Hfault, Hdoc.
  unfold activeRecord. cbn [forallb satisfies].
  rewrite (strictEq_true _ _ Hs), (strictEq_true _ _ Ha). cbn [andb].
  destruct (strictEq (doc !! "plan") (JStr newPlan)); [reflexivity|].
  unfold bind at 1.
  destruct (determineChange env doc newPlan w) as [[change|e] w1]; [|reflexivity].
  unfold try_catch, bind, ret, throw.
  destruct (updateSubscription env uid _ w1) as [[updated|e] w2]; reflexivity.
Qed.

Lemma changeRemotely_success env id oldPlan newPlan w price current item rest updated :
  (if String.eqb newPlan "annual" then STRIPE_PRICE_ANNUAL_ID env
   else STRIPE_PRICE_MONTHLY_ID env) = Some price ->
  price <> "" ->
  stripe_retrieve env id = Return current ->
  items_data current = item :: rest ->
  stripe_update env id (swapPrice env item price oldPlan newPlan) = Return updated ->
  changeRemotely env id oldPlan newPlan w =
    (Return (periodAhead env newPlan, proration oldPlan newPlan),
     logged (logged w (CallStripeRetrieve id))
            (CallStripeUpdate id (swapPrice env item price oldPlan newPlan))).
Proof.
  intros Hprice Hne Hret Hitems Hup.
  unfold changeRemotely. rewrite Hprice, (proj2 (String.eqb_neq price "") Hne).
  unfold bind at 1. rewrite stripe_subscriptions_retrieve_run, Hret, Hitems.
  unfold bind, ret. by rewrite stripe_subscriptions_update_run, Hup.
Qed.

Lemma periodAhead_annual env b :
  zoneDrift (tza env) b ->
  Z.abs (clock env) + 366 * JsDate.msPerDay + b <= JsDate.maxTime ->
  exists d, (d = 365 \/ d = 366)
    /\ Z.abs (daysLater (tza env) (clock env) d - (clock env + d * JsDate.msPerDay)) <= b
    /\ periodAhead env "annual" = Some (daysLater (tza env) (clock env) d).
Proof.
  intros Hb Hclock.
  destruct (period_from (tza env) true (clock env) b Hb Hclock) as (d & Hd & Hnear & E).
  exists d. split; [exact Hd|]. split; [exact Hnear|]. exact E.
Qed.

(** What [changePlan] returns and stores once the new date and the
    proration are known. *)
Lemma changePlan_persists env uid target w doc w1 t p :
  validObjectId env uid = true ->
  (forall op, storeFault env op = None) ->
  subscriptions w !! uid = Some doc ->
  doc !! "status" = Some (JStr "active") ->
  doc !! "isActive" = Some (JBool true) ->
  doc !! "plan" <> Some (JStr target) ->
  determineChange env doc target w = (Return (Some t, p), w1) ->
  subscriptions w1 = subscriptions w ->
  let r := changePlan env uid target w in
  exists pc,
    fst r = Return pc
    /\ oldPlan pc = doc !! "plan" /\ target = newPlan pc
    /\ effectiveDate pc = Some t /\ prorationAmount pc = p
    /\ field (subscriptions (snd r)) uid "plan" = Some (JStr target)
    /\ field (subscriptions (snd r)) uid "endDate" = Some (JDate (Some t))
    /\ field (subscriptions (snd r)) uid "status" = Some (JStr "active")
    /\ field (subscriptions (snd r)) uid "isActive" = Some (JBool true).
Proof.
  intros Hvalid Hfault Hdoc Hs Ha Hplan Hchange Hsub. cbv zeta.
  rewrite (changePlan_found env uid target w doc Hvalid (Hfault _) Hdoc Hs Ha).
  rewrite (strictEq_false _ _ Hplan), Hchange. cbn [fst snd].
  destruct (cast_planUpdate env target t) as (set & Hcast & F1 & F2 & F3 & F4).
  rewrite (updateSubscription_existing env uid _ w1 doc set Hvalid
             (roleChange_planUpdate _ _) (Hfault _) ltac:(by rewrite Hsub) Hcast).
  eexists. split; [reflexivity|].
  cbn [fst snd oldPlan newPlan effectiveDate prorationAmount stored logged
       subscriptions].
  rewrite !field_stored.
  do 4 (split; [reflexivity|]).
  split_and!.
  - by apply lookup_union_Some_l.
  - by apply lookup_union_Some_l.
  - by rewrite lookup_union_absent.
  - by rewrite lookup_union_absent.
Qed.

Lemma proration_monthly_to_annual :
  proration (Some (JStr "monthly")) "annual" = (- (9.99 * 12 - 99.99))%float
  /\ proration (Some (JStr "monthly")) "annual" = (-19.89)%float.
Proof. split; vm_compute; reflexivity. Qed.

Lemma changePlan_to_annual env uid w doc w1 t p :
  validObjectId env uid = true ->
  (forall op, storeFault env op = None) ->
  subscriptions w !! uid = Some doc ->
  doc !! "status" = Some (JStr "active") ->
  doc !! "isActive" = Some (JBool true) ->
  doc !! "plan" = Some (JStr "monthly") ->
  determineChange env doc "annual" w = (Return (Some t, p), w1) ->
  subscriptions w1 = subscriptions w ->
  let r := changePlan env uid "annual" w in
  exists pc,
    fst r = Return pc
    /\ oldPlan pc = Some (JStr "monthly") /\ newPlan pc = "annual"
    /\ effectiveDate pc = Some t
    /\ prorationAmount pc = p
    /\ field (subscriptions (snd r)) uid "plan" = Some (JStr "annual")
    /\ field (subscriptions (snd r)) uid "endDate" = Some (JDate (Some t)).
Proof.
  intros Hvalid Hfault Hdoc Hs Ha Hplan Hchange Hsub.
  assert (Hne : doc !! "plan" <> Some (JStr "annual")) by (rewrite Hplan; congruence).
  destruct (changePlan_persists env uid "annual" w doc w1 _ p
              Hvalid Hfault Hdoc Hs Ha Hne Hchange Hsub)
    as (pc & Hr & F1 & F2 & F3 & F4 & F5 & F6 & _).
  exists pc. rewrite F1, Hplan, <- F2. done.
Qed.

(** C9 (amended).  For an active monthly record, [changePlan(userId,
    "annual")] returns old plan "monthly", new plan "annual" and an
    effective date, which it stores as [endDate], about one year from now:
    now moved on by a year of the local calendar, that is 365 or 366 times
    24 hours but for the change of the zone's offset in between.  The
    proration is -(9.99*12 - 99.99), the double -19.89, when the record
    has a remote id (the annual price being configured and the gateway
    answering both calls); for a record without a remote id it is 0.
    [changePlan] throws when the new plan is the current plan. *)
Theorem C9_change_monthly_to_annual env uid w doc :
  validObjectId env uid = true ->
  (forall op, storeFault env op = None) ->
  subscriptions w !! uid = Some doc ->
  doc !! "status" = Some (JStr "active") ->
  doc !! "isActive" = Some (JBool true) ->
  let r := changePlan env uid "annual" w in
  (forall id price current item rest updated b,
      doc !! "plan" = Some (JStr "monthly") ->
      zoneDrift (tza env) b ->
      Z.abs (clock env) + 366 * JsDate.msPerDay + b <= JsDate.maxTime ->
      remoteId doc = Some id ->
      STRIPE_PRICE_ANNUAL_ID env = Some price -> price <> "" ->
      stripe_retrieve env id = Return current ->
      items_data current = item :: rest ->
      stripe_update env id (swapPrice env item price (Some (JStr "monthly")) "annual")
      = Return updated ->
      exists pc d t,
        fst r = Return pc
        /\ oldPlan pc = Some (JStr "monthly") /\ newPlan pc = "annual"
        /\ (d = 365 \/ d = 366)
        /\ t = daysLater (tza env) (clock env) d
        /\ Z.abs (t - (clock env + d * JsDate.msPerDay)) <= b
        /\ effectiveDate pc = Some t
        /\ prorationAmount pc = (- (9.99 * 12 - 99.99))%float
        /\ prorationAmount pc = (-19.89)%float
        /\ field (subscriptions (snd r)) uid "plan" = Some (JStr "annual")
        /\ field (subscriptions (snd r)) uid "endDate" = Some (JDate (Some t)))
  /\ (forall b,
      doc !! "plan" = Some (JStr "monthly") ->
      zoneDrift (tza env) b ->
      Z.abs (clock env) + 366 * JsDate.msPerDay + b <= JsDate.maxTime ->
      remoteId doc = None ->
      exists pc d t,
        fst r = Return pc
        /\ oldPlan pc = Some (JStr "monthly") /\ newPlan pc = "annual"
        /\ (d = 365 \/ d = 366)
        /\ t = daysLater (tza env) (clock env) d
        /\ Z.abs (t - (clock env + d * JsDate.msPerDay)) <= b
        /\ effectiveDate pc = Some t
        /\ prorationAmount pc = 0%float
        /\ field (subscriptions (snd r)) uid "plan" = Some (JStr "annual")
        /\ field (subscriptions (snd r)) uid "endDate" = Some (JDate (Some t)))
  /\ (forall current, doc !! "plan" = Some (JStr current) ->
      changePlan env uid current w
      = (Throw (Error ("Vous êtes déjà sur le plan " +:+ current +:+ ".")), w)).
Proof.
  intros Hvalid Hfault Hdoc Hs Ha r. subst r. split; [|split].
  - intros id price cur item rest upd b Hplan Hb Hclock Hid Hp Hpne Hret Hitems Hup.
    destruct (periodAhead_annual env b Hb Hclock) as (d & Hd & Hnear & Hdate).
    assert (Hchange : determineChange env doc "annual" w
      = (Return (Some (daysLater (tza env) (clock env) d), (-19.89)%float),
         logged (logged w (CallStripeRetrieve id))
           (CallStripeUpdate id (swapPrice env item price (Some (JStr "monthly")) "annual")))).
    { unfold determineChange, try_catch. rewrite Hid, Hplan.
      rewrite (changeRemotely_success env id _ "annual" w price cur item rest upd);
        [|done..].
      by rewrite Hdate, (proj2 proration_monthly_to_annual). }
    destruct (changePlan_to_annual env uid w doc _ _ _ Hvalid Hfault Hdoc Hs Ha Hplan
                Hchange eq_refl) as (pc & Hr & F1 & F2 & F3 & F4 & F5 & F6).
    exists pc, d, (daysLater (tza env) (clock env) d). rewrite F4 at 1.
    split_and!; done.
  - intros b Hplan Hb Hclock Hid.
    destruct (periodAhead_annual env b Hb Hclock) as (d & Hd & Hnear & Hdate).
    assert (Hchange : determineChange env doc "annual" w
      = (Return (Some (daysLater (tza env) (clock env) d), 0%float), w)).
    { unfold determineChange. by rewrite Hid, <- Hdate. }
    destruct (changePlan_to_annual env uid w doc _ _ _ Hvalid Hfault Hdoc Hs Ha Hplan
                Hchange eq_refl) as (pc & Hr & F1 & F2 & F3 & F4 & F5 & F6).
    exists pc, d, (daysLater (tza env) (clock env) d). done.
  - intros current Hplan.
    rewrite (changePlan_found env uid current w doc Hvalid (Hfault _) Hdoc Hs Ha).
    by rewrite (strictEq_true _ _ Hplan).
Qed.

Lemma C6_counterexample :
  malformed goneEnv (JStr "")
  /\ endDateOf (subscriptions (snd (updateSubscription goneEnv alice
                  {["endDate" := JStr ""]} (worldOf monthlyLocal "premium")))) alice
     = Some (JDate (Some (jan15 + 1000))).
Proof. split; [right; right; left; reflexivity|]. (vm_compute; reflexivity). Qed.

Lemma C6_witness :
  endDateOf (subscriptions (snd (updateSubscription goneEnv alice
               {["endDate" := JStr "Invalid Date"]} emptyWorld))) alice
  = endDateOf (subscriptions emptyWorld) alice.
Proof.
  apply (C6_malformed_endDate_is_dropped goneEnv alice
           {["endDate" := JStr "Invalid Date"]} emptyWorld (JStr "Invalid Date")).
  - reflexivity.
  - right; right; right. reflexivity.
Defined.

Lemma C1_witness :
  subscriptions (snd (updateSubscription goneEnv alice {["paymentStatus" := JStr "failed"]}
                        (worldOf overdue "premium"))) !! alice = Some touched
  /\ touched !! "status" = Some (JStr "canceled")
  /\ touched !! "endDate" = Some (JDate (Some (jan15 - 1000)))
  /\ touched !! "isActive" = Some (JBool true)
  /\ preSave goneEnv touched = Return (<["isActive" := JBool false]> touched).
Proof.
  apply (C1_update_leaves_expired_cancellation_active goneEnv alice
           {["paymentStatus" := JStr "failed"]} (worldOf overdue "premium")
           overdue touched (jan15 - 1000)).
  - apply lookup_singleton_eq.
  - (vm_compute; reflexivity).
  - (vm_compute; reflexivity).
  - (vm_compute; reflexivity).
  - (vm_compute; discriminate).
  - reflexivity.
  - reflexivity.
  - reflexivity.
  - unfold touched.
    assert (H : isThrow (fst (updateSubscription goneEnv alice
                  {["paymentStatus" := JStr "failed"]} (worldOf overdue "premium"))) = false)
      by (vm_compute; reflexivity).
    (destruct (fst _); [reflexivity|discriminate]).
Defined.

Lemma C7_witness :
  users (snd (updateSubscription goneEnv alice reactivation (worldOf scheduled "user")))
  = withRole goneEnv alice "premium" (users (worldOf scheduled "user")).
Proof.
  destruct (C7_role_follows_status_and_isActive goneEnv alice reactivation
              (worldOf scheduled "user") eq_refl eq_refl) as (H & _).
  apply H; vm_compute; reflexivity.
Defined.

Lemma C10_witness :
  let r := updateSubscription readOnlyEnv alice reactivation (worldOf scheduled "user") in
  isThrow (fst r) = true
  /\ subscriptions (snd r) = subscriptions (worldOf scheduled "user")
  /\ users (snd r) = withRole readOnlyEnv alice "premium" (users (worldOf scheduled "user")).
Proof.
  destruct (C10_role_written_first_and_not_rolled_back readOnlyEnv alice reactivation
              (worldOf scheduled "user") "premium" eq_refl roleChange_reactivation eq_refl)
    as (_ & H).
  exact (H (Error "connection lost") eq_refl).
Defined.

Lemma C2_counterexample :
  verified (legacyEnv (fun _ => Some (Error "connection lost")))
           (signed "customer.subscription.deleted")
           (mkEvent "customer.subscription.deleted" (mkStripeObject "sub_1" ∅))
  /\ statusOf (Webhook_controller.handleStripeWebhook
                 (legacyEnv (fun _ => Some (Error "connection lost")))
                 (Some quietHandlers) (signed "customer.subscription.deleted") legacyWorld)
     = Some 500.
Proof.
  split; [|vm_compute; reflexivity].
  exists "valid", "customer.subscription.deleted".
  split_and!; [reflexivity|reflexivity|discriminate|discriminate|reflexivity].
Qed.

Lemma C2_witness :
  WebhookController.processWebhookEvent World noHandler noHandler noHandler failingHandler
    (mkEvent "customer.created" (mkStripeObject "cus_1" ∅)) emptyWorld
  = (Return (mkResponse 200 ignoredBody), emptyWorld).
Proof.
  destruct (C2_dispatchers_on_handler_failure_and_unknown_types World
              noHandler noHandler noHandler failingHandler
              (legacyEnv (fun _ => None)) None (signed "customer.created")
              (mkEvent "customer.created" (mkStripeObject "cus_1" ∅)) emptyWorld legacyWorld)
    as (_ & H & _).
  apply H. unfold handledTypes. cbn [event_type]. intros Hin.
  repeat (apply elem_of_cons in Hin as [Hin|Hin]; [discriminate|]).
  by apply elem_of_nil in Hin.
Defined.

Ltac by_compute := vm_compute; reflexivity.

Lemma utc_steady : zoneDrift utc 0.
Proof. intros t l. cbn. lia. Qed.

Lemma daysLater_utc t d : daysLater utc t d = t + d * JsDate.msPerDay.
Proof. unfold daysLater, JsDate.UTC, JsDate.LocalTime. cbn. lia. Qed.

Lemma paris_drift : zoneDrift paris 3600000.
Proof. intros t l. cbn. repeat case_match; lia. Qed.

Lemma sample_clock_in_range b :
  0 <= b <= 3600000 ->
  Z.abs jan15 + 366 * JsDate.msPerDay + b <= JsDate.maxTime
  /\ Z.abs mar15 + 366 * JsDate.msPerDay + b <= JsDate.maxTime.
Proof. unfold jan15, mar15, JsDate.msPerDay, JsDate.maxTime. lia. Qed.


Lemma C5_witness :
  cancelSubscriptionAtPeriodEnd goneEnv alice (worldOf scheduled "premium")
  = (Throw (Error (msgAlreadyScheduled "15/01/2024")), worldOf scheduled "premium")
  /\ cancelSubscriptionAtPeriodEnd goneEnv alice (worldOf expired "user")
     = (Throw (Error msgExpired), worldOf expired "user")
  /\ cancelSubscriptionAtPeriodEnd goneEnv alice emptyWorld
     = (Throw (Error msgNothingToCancel), emptyWorld)
  /\ cancelSubscriptionAtPeriodEnd goneEnv alice (worldOf suspended "premium")
     = (Throw (Error msgNothingToCancel), worldOf suspended "premium")
  /\ cancelSubscriptionAtPeriodEnd goneEnv alice (worldOf revoked "premium")
     = (Throw (Error msgNothingToCancel), worldOf revoked "premium").
Proof.
  split; [|split; [|split; [|split]]].
  - destruct (C5_three_ways_to_refuse_a_cancellation goneEnv alice
                (worldOf scheduled "premium") ltac:(by_compute) eq_refl) as (H & _).
    destruct (H scheduled (lookup_singleton_eq _ _) ltac:(by_compute) ltac:(by_compute)
                ltac:(vm_compute; discriminate)) as (H1 & H2).
    rewrite H1. reflexivity.
  - destruct (C5_three_ways_to_refuse_a_cancellation goneEnv alice
                (worldOf expired "user") ltac:(by_compute) eq_refl) as (_ & H & _).
    exact (H expired (lookup_singleton_eq _ _) ltac:(by_compute) ltac:(by_compute)).
  - destruct (C5_three_ways_to_refuse_a_cancellation goneEnv alice
                emptyWorld ltac:(by_compute) eq_refl) as (_ & _ & H & _).
    exact (H (lookup_empty _)).
  - destruct (C5_three_ways_to_refuse_a_cancellation goneEnv alice
                (worldOf suspended "premium") ltac:(by_compute) eq_refl)
      as (_ & _ & _ & _ & H & _).
    apply (H suspended (lookup_singleton_eq _ _)).
    left. split; vm_compute; discriminate.
  - destruct (C5_three_ways_to_refuse_a_cancellation goneEnv alice
                (worldOf revoked "premium") ltac:(by_compute) eq_refl)
      as (_ & _ & _ & H & _).
    apply (H revoked (lookup_singleton_eq _ _)); by_compute.
Defined.

Lemma C8_witness :
  (let r := reactivateSubscription (remoteEnv true 1707991200) alice
              (worldOf scheduled "user") in
   isThrow (fst r) = false
   /\ field (subscriptions (snd r)) alice "status" = Some (JStr "active")
   /\ field (subscriptions (snd r)) alice "isActive" = Some (JBool true)
   /\ field (subscriptions (snd r)) alice "cancelationType" = Some JNull
   /\ users (snd r)
      = withRole (remoteEnv true 1707991200) alice "premium"
          (users (worldOf scheduled "user")))
  /\ reactivateSubscription goneEnv alice (worldOf refunded "user")
     = (Throw (Error msgNothingReactivable), worldOf refunded "user")
  /\ (let r := reactivateSubscription busyEnv alice (worldOf scheduled "user") in
      fst r = Throw (Error "Échec réactivation Stripe: Too many requests")
      /\ subscriptions (snd r) = subscriptions (worldOf scheduled "user")
      /\ users (snd r) = users (worldOf scheduled "user")).
Proof.
  split; [|split]; cbv zeta.
  - destruct (C8_reactivation (remoteEnv true 1707991200) alice (worldOf scheduled "user")
                ltac:(by_compute) (fun _ => eq_refl)) as (_ & _ & H & _).
    apply (H scheduled (lookup_singleton_eq _ _) ltac:(by_compute)).
    right. exists "sub_1". split; by_compute.
  - destruct (C8_reactivation goneEnv alice (worldOf refunded "user")
                ltac:(by_compute) (fun _ => eq_refl)) as (_ & H & _).
    apply (H refunded (lookup_singleton_eq _ _)). left. by_compute.
  - destruct (C8_reactivation busyEnv alice (worldOf scheduled "user")
                ltac:(by_compute) (fun _ => eq_refl)) as (_ & _ & _ & H).
    exact (H scheduled "sub_1" rateLimited (lookup_singleton_eq _ _) ltac:(by_compute)
             ltac:(by_compute) eq_refl).
Defined.

Lemma C9_counterexample :
  monthlyLocal !! "plan" = Some (JStr "monthly")
  /\ prorationOf (changePlan goneEnv alice "annual" (worldOf monthlyLocal "premium"))
     = Some 0%float
  /\ PrimFloat.eqb 0 (-19.89) = false.
Proof. split_and!; by_compute. Qed.

Lemma C9_witness :
  (exists change d t,
      fst (changePlan (remoteEnv false 1707991200) alice "annual"
             (worldOf monthlyRemote "premium")) = Return change
      /\ oldPlan change = Some (JStr "monthly") /\ newPlan change = "annual"
      /\ (d = 365 \/ d = 366)
      /\ t = jan15 + d * JsDate.msPerDay
      /\ effectiveDate change = Some t
      /\ t = jan15 + 366 * JsDate.msPerDay
      /\ prorationAmount change = (-19.89)%float)
  /\ (exists change d t,
      fst (changePlan remoteParisEnv alice "annual" (worldOf monthlyRemote "premium"))
      = Return change
      /\ (d = 365 \/ d = 366)
      /\ Z.abs (t - (mar15 + d * JsDate.msPerDay)) <= 3600000
      /\ effectiveDate change = Some t
      /\ t = mar15 + 365 * JsDate.msPerDay
      /\ prorationAmount change = (-19.89)%float)
  /\ (exists change,
      fst (changePlan goneEnv alice "annual" (worldOf monthlyLocal "premium"))
      = Return change
      /\ effectiveDate change = Some (jan15 + 366 * JsDate.msPerDay)
      /\ prorationAmount change = 0%float)
  /\ changePlan goneEnv alice "monthly" (worldOf monthlyLocal "premium")
     = (Throw (Error "Vous êtes déjà sur le plan monthly."), worldOf monthlyLocal "premium").
Proof.
  split; [|split; [|split]].
  - destruct (C9_change_monthly_to_annual (remoteEnv false 1707991200) alice
                (worldOf monthlyRemote "premium") monthlyRemote
                ltac:(by_compute) (fun _ => eq_refl) (lookup_singleton_eq _ _)
                ltac:(by_compute) ltac:(by_compute)) as (H & _).
    destruct (H "sub_1" "price_annual"
                (mkStripeSub "sub_1" false (Some 1707991200) ["si_1"]) "si_1" []
                (mkStripeSub "sub_1" true (Some 1707991200) ["si_1"]) 0
                ltac:(by_compute) utc_steady
                (proj1 (sample_clock_in_range 0 ltac:(lia))) ltac:(by_compute)
                eq_refl ltac:(discriminate) eq_refl eq_refl eq_refl)
      as (change & d & t & H1 & H2 & H3 & H4 & H5 & _ & H6 & _ & H7 & _ & H8).
    exists change, d, t.
    split; [exact H1|]. split; [exact H2|]. split; [exact H3|]. split; [exact H4|].
    split; [exact (eq_trans H5 (daysLater_utc _ _))|]. split; [exact H6|]. split; [|exact H7].
    assert (Hc : field (subscriptions (snd (changePlan (remoteEnv false 1707991200) alice
                   "annual" (worldOf monthlyRemote "premium")))) alice "endDate"
                 = Some (JDate (Some (jan15 + 366 * JsDate.msPerDay)))) by by_compute.
    rewrite H8 in Hc. congruence.
  - destruct (C9_change_monthly_to_annual remoteParisEnv alice
                (worldOf monthlyRemote "premium") monthlyRemote
                ltac:(by_compute) (fun _ => eq_refl) (lookup_singleton_eq _ _)
                ltac:(by_compute) ltac:(by_compute)) as (H & _).
    destruct (H "sub_1" "price_annual"
                (mkStripeSub "sub_1" false (Some 1707991200) ["si_1"]) "si_1" []
                (mkStripeSub "sub_1" true (Some 1707991200) ["si_1"]) 3600000
                ltac:(by_compute) paris_drift
                (proj2 (sample_clock_in_range 3600000 ltac:(lia))) ltac:(by_compute)
                eq_refl ltac:(discriminate) eq_refl eq_refl eq_refl)
      as (change & d & t & H1 & _ & _ & H4 & _ & H5 & H6 & _ & H7 & _ & H8).
    exists change, d, t.
    split; [exact H1|]. split; [exact H4|]. split; [exact H5|]. split; [exact H6|].
    split; [|exact H7].
    assert (Hc : field (subscriptions (snd (changePlan remoteParisEnv alice
                   "annual" (worldOf monthlyRemote "premium")))) alice "endDate"
                 = Some (JDate (Some (mar15 + 365 * JsDate.msPerDay)))) by by_compute.
    rewrite H8 in Hc. congruence.
  - destruct (C9_change_monthly_to_annual goneEnv alice
                (worldOf monthlyLocal "premium") monthlyLocal
                ltac:(by_compute) (fun _ => eq_refl) (lookup_singleton_eq _ _)
                ltac:(by_compute) ltac:(by_compute)) as (_ & H & _).
    destruct (H 0 ltac:(by_compute) utc_steady
                (proj1 (sample_clock_in_range 0 ltac:(lia))) ltac:(by_compute))
      as (change & d & t & H1 & _ & _ & _ & _ & _ & H6 & H7 & _ & H8).
    exists change. split; [exact H1|]. split; [|exact H7].
    assert (Hc : field (subscriptions (snd (changePlan goneEnv alice
                   "annual" (worldOf monthlyLocal "premium")))) alice "endDate"
                 = Some (JDate (Some (jan15 + 366 * JsDate.msPerDay)))) by by_compute.
    rewrite H8 in Hc. rewrite H6. congruence.
  - destruct (C9_change_monthly_to_annual goneEnv alice
                (worldOf monthlyLocal "premium") monthlyLocal
                ltac:(by_compute) (fun _ => eq_refl) (lookup_singleton_eq _ _)
                ltac:(by_compute) ltac:(by_compute)) as (_ & _ & H).
    exact (H "monthly" ltac:(by_compute)).
Defined.

(** ** Further properties of the code *)

(** *** models/Subscription.js: the save hook *)

Lemma invalid_date_match {A} (s : string) (a b : A) :
  match s with "Invalid Date" => a | _ => b end
  = if String.eqb s "Invalid Date" then a else b.
Proof. repeat (destruct s as [|[[] [] [] [] [] [] [] []] s]; try reflexivity). Qed.

Lemma preSave_steps env (doc doc' : Obj) :
  preSave env doc = Return doc' ->
  exists d, (d = doc \/ d = delete "endDate" doc)
    /\ endDateUsable d /\ doc' = deactivateExpired env d.
Proof.
  assert (Hfin : forall d : Obj,
    (if strictEq (d !! "status") (JStr "canceled") && truthy (d !! "endDate")
        && match d !! "endDate" with
           | Some (JDate (Some t)) => t <=? clock env
           | _ => false
           end
     then Return (<["isActive" := JBool false]> d) else Return d) = Return doc' ->
    doc' = deactivateExpired env d).
  { intros d. unfold deactivateExpired. case_match; congruence. }
  unfold preSave, endDateUsable.
  destruct (truthy (doc !! "endDate")) eqn:Htruthy.
  - destruct (doc !! "endDate") as [v|] eqn:He; [|discriminate].
    destruct v as [| | | |s|[t|]]; try discriminate.
    + rewrite invalid_date_match. destruct (String.eqb s "Invalid Date"); [|discriminate].
      intros H%Hfin. exists (delete "endDate" doc). split_and!; [by right| |done].
      by rewrite lookup_delete_eq.
    + intros H%Hfin. exists doc. split_and!; [by left| |done]. rewrite He. intros _. by exists t.
    + intros H%Hfin. exists (delete "endDate" doc). split_and!; [by right| |done].
      by rewrite lookup_delete_eq.
  - intros H%Hfin. exists doc. split_and!; [by left| |done]. by rewrite Htruthy.
Qed.

Lemma preSave_usable env (d : Obj) :
  endDateUsable d -> preSave env d = Return (deactivateExpired env d).
Proof.
  intros Hu. unfold preSave, deactivateExpired.
  destruct (truthy (d !! "endDate")) eqn:Ht.
  - destruct (Hu Ht) as [t Ht']. rewrite Ht'. cbn [JsDate.isNaN_getTime].
    rewrite Ht'. cbn [truthy]. by destruct (_ && _ && _).
  - cbv beta iota zeta. rewrite Ht. by destruct (_ && _ && _).
Qed.

Lemma deactivateExpired_lookup env (d : Obj) k :
  k <> "isActive" -> deactivateExpired env d !! k = d !! k.
Proof.
  intros Hk. unfold deactivateExpired. case_match; [|done]. by rewrite lookup_insert_ne.
Qed.

Lemma deactivateExpired_idem env (d : Obj) :
  deactivateExpired env (deactivateExpired env d) = deactivateExpired env d.
Proof.
  unfold deactivateExpired at 2. case_match eqn:Hc; [|done].
  unfold deactivateExpired. rewrite !lookup_insert_ne by done. rewrite Hc.
  apply insert_insert_eq.
Qed.

(** X1.  A document that passes [pre("save")] holds no invalid [endDate],
    is inactive when it is canceled with an [endDate] that has passed, keeps
    every field other than [endDate] and [isActive], and passes the hook
    again unchanged. *)
Theorem preSave_establishes_the_invariant env (doc doc' : Obj) :
  preSave env doc = Return doc' ->
  noInvalidDate doc'
  /\ (forall t, doc' !! "status" = Some (JStr "canceled") ->
                doc' !! "endDate" = Some (JDate (Some t)) ->
                t <= clock env ->
                doc' !! "isActive" = Some (JBool false))
  /\ (forall k, k <> "endDate" -> k <> "isActive" -> doc' !! k = doc !! k)
  /\ preSave env doc' = Return doc'.
Proof.
  intros H. destruct (preSave_steps env doc doc' H) as (d & Hd & Hu & ->).
  assert (Hu' : endDateUsable (deactivateExpired env d)).
  { unfold endDateUsable. by rewrite deactivateExpired_lookup. }
  split_and!.
  - unfold noInvalidDate. rewrite deactivateExpired_lookup by done.
    split; intros He; (assert (Ht : truthy (d !! "endDate") = true) by (by rewrite He));
      destruct (Hu Ht) as [t Ht']; congruence.
  - intros t. rewrite !deactivateExpired_lookup by done. intros Hs He Ht.
    unfold deactivateExpired. rewrite He, (strictEq_true _ _ Hs). cbn [truthy andb].
    rewrite (proj2 (Z.leb_le _ _) Ht). apply lookup_insert_eq.
  - intros k Hk1 Hk2. rewrite deactivateExpired_lookup by done.
    destruct Hd as [-> | ->]; [done|]. by rewrite lookup_delete_ne.
  - rewrite (preSave_usable env _ Hu'). by rewrite deactivateExpired_idem.
Qed.

Lemma preSave_establishes_the_invariant_witness :
  deactivateExpired goneEnv overdue !! "isActive" = Some (JBool false)
  /\ preSave goneEnv (deactivateExpired goneEnv overdue)
     = Return (deactivateExpired goneEnv overdue).
Proof.
  destruct (preSave_establishes_the_invariant goneEnv overdue
              (deactivateExpired goneEnv overdue)) as (_ & H & _ & Hi).
  - reflexivity.
  - split; [|exact Hi].
    apply (H (jan15 - 1000)); [reflexivity..|vm_compute; discriminate].
Defined.

(** *** models/Subscription.js: the update hook *)

Lemma malformed_tests env v :
  bool_decide (v = JNull) || bool_decide (v = JStr "null") || bool_decide (v = JStr "") = false ->
  JsDate.isNaN_getTime (toDate env v) = false ->
  ~ malformed env v.
Proof.
  intros Hb Hn [->|[->|[->|Ht]]]; try discriminate Hb.
  rewrite Ht in Hn. discriminate Hn.
Qed.

Lemma preFindOneAndUpdate_wellformed env (u : Obj) :
  (forall v, u !! "endDate" = Some v -> ~ malformed env v) ->
  preFindOneAndUpdate env u = u.
Proof.
  intros H. unfold preFindOneAndUpdate.
  destruct (u !! "endDate") as [v|] eqn:He; [|done].
  specialize (H v eq_refl). unfold malformed in H.
  destruct (decide (v = JNull)) as [->|H1]; [tauto|].
  destruct (decide (v = JStr "null")) as [->|H2]; [tauto|].
  destruct (decide (v = JStr "")) as [->|H3]; [tauto|].
  rewrite !bool_decide_eq_false_2 by done. cbn [orb].
  destruct (toDate env v) eqn:Ht; [done|tauto].
Qed.

Lemma preFindOneAndUpdate_kept env (update : Obj) v :
  preFindOneAndUpdate env update !! "endDate" = Some v ->
  update !! "endDate" = Some v /\ ~ malformed env v.
Proof.
  unfold preFindOneAndUpdate.
  destruct (update !! "endDate") as [v0|] eqn:He; [|congruence].
  destruct (bool_decide (v0 = JNull) || bool_decide (v0 = JStr "null")
            || bool_decide (v0 = JStr "")) eqn:Hb.
  { by rewrite lookup_delete_eq. }
  destruct (JsDate.isNaN_getTime (toDate env v0)) eqn:Hn.
  { by rewrite lookup_delete_eq. }
  rewrite He. intros [= <-]. split; [done|]. by apply malformed_tests.
Qed.

(** X2.  After [pre("findOneAndUpdate")] the update holds an [endDate]
    only if it held the same one before and that value is well formed;
    a malformed one is deleted, the other paths are untouched, and the
    hook changes nothing when it is run again. *)
Theorem preFindOneAndUpdate_cleans_endDate env (update : Obj) :
  (forall v, preFindOneAndUpdate env update !! "endDate" = Some v ->
             update !! "endDate" = Some v /\ ~ malformed env v)
  /\ (forall v, update !! "endDate" = Some v -> malformed env v ->
                preFindOneAndUpdate env update = delete "endDate" update)
  /\ (forall k, k <> "endDate" ->
                preFindOneAndUpdate env update !! k = update !! k)
  /\ preFindOneAndUpdate env (preFindOneAndUpdate env update)
     = preFindOneAndUpdate env update.
Proof.
  split_and!.
  - apply preFindOneAndUpdate_kept.
  - intros v He Hm. unfold preFindOneAndUpdate. rewrite He.
    destruct Hm as [->|[->|[->|Ht]]]; try reflexivity.
    rewrite Ht. cbn [JsDate.isNaN_getTime]. by case_match.
  - apply preFindOneAndUpdate_other.
  - apply preFindOneAndUpdate_wellformed. intros v Hv.
    by apply (preFindOneAndUpdate_kept env update).
Qed.

(** *** services/subscriptionIntegrationService.js: the check of [data.endDate] *)

Lemma checkEndDate_wellformed env (data : Obj) v :
  data !! "endDate" <> Some JNaN ->
  checkEndDate env data !! "endDate" = Some v -> ~ malformed env v.
Proof.
  intros Hnan. unfold checkEndDate.
  destruct (data !! "endDate") as [v0|] eqn:He; [|congruence].
  destruct (bool_decide (v0 = JNull) || bool_decide (v0 = JStr "null")
            || bool_decide (v0 = JStr "")) eqn:Hb.
  { by rewrite lookup_delete_eq. }
  destruct (truthy (Some v0)) eqn:Htr; cbn [andb].
  - destruct (JsDate.isNaN_getTime (toDate env v0)) eqn:Hn.
    { by rewrite lookup_delete_eq. }
    rewrite lookup_insert_eq. intros [= <-].
    destruct (toDate env v0) as [t|]; [|discriminate Hn].
    intros [H|[H|[H|H]]]; discriminate H.
  - rewrite He. intros [= <-].
    destruct v0 as [|[]|n| |s|d]; try discriminate Htr; try discriminate Hb;
      try congruence.
    + intros [H|[H|[H|H]]]; discriminate H.
    + cbn in Htr. apply negb_false_iff, Z.eqb_eq in Htr. subst n.
      intros [H|[H|[H|H]]]; discriminate H.
    + cbn in Htr. apply negb_false_iff, String.eqb_eq in Htr. subst s. discriminate Hb.
Qed.

(** X3.  Unless [data.endDate] is NaN, what [updateSubscription] hands to
    [findOneAndUpdate] passes the [pre("findOneAndUpdate")] hook
    unchanged: the check at the head of the service has already done the
    hook's work. *)
Theorem checkEndDate_anticipates_the_hook env (data : Obj) :
  data !! "endDate" <> Some JNaN ->
  preFindOneAndUpdate env (<["updatedAt" := JDate (newDate env)]> (checkEndDate env data))
  = <["updatedAt" := JDate (newDate env)]> (checkEndDate env data).
Proof.
  intros Hnan. apply preFindOneAndUpdate_wellformed. intros v.
  rewrite lookup_insert_ne by done. by apply checkEndDate_wellformed.
Qed.

Lemma checkEndDate_anticipates_the_hook_witness :
  preFindOneAndUpdate goneEnv
    (<["updatedAt" := JDate (newDate goneEnv)]>
       (checkEndDate goneEnv {["endDate" := JStr "2024-01-15T10:00:00.000Z"]}))
  = <["updatedAt" := JDate (newDate goneEnv)]>
      (checkEndDate goneEnv {["endDate" := JStr "2024-01-15T10:00:00.000Z"]}).
Proof.
  apply (checkEndDate_anticipates_the_hook goneEnv
           {["endDate" := JStr "2024-01-15T10:00:00.000Z"]}).
  rewrite lookup_singleton_eq. discriminate.
Defined.

(** *** The days that remain *)

Lemma daysRemaining_ceil endTime now :
  0 <= JsDate.daysRemaining endTime now
  /\ (endTime <= now -> JsDate.daysRemaining endTime now = 0)
  /\ (now < endTime ->
      (JsDate.daysRemaining endTime now - 1) * JsDate.msPerDay < endTime - now
      /\ endTime - now <= JsDate.daysRemaining endTime now * JsDate.msPerDay).
Proof.
  unfold JsDate.daysRemaining, JsDate.msPerDay.
  pose proof (Z.div_mod (- (endTime - now)) 86400000 ltac:(lia)) as Hd.
  pose proof (Z.mod_pos_bound (- (endTime - now)) 86400000 ltac:(lia)) as Hm.
  lia.
Qed.

(** X4.  On a document that has passed [pre("save")], [getDaysRemaining]
    does not throw and does not answer NaN: it answers [null] when there
    is no [endDate], and otherwise the number of days, rounded up, from
    now to [endDate], which is 0 exactly when [endDate] is not in the
    future. *)
Theorem getDaysRemaining_after_save env (doc doc' : Obj) :
  preSave env doc = Return doc' ->
  (truthy (doc' !! "endDate") = false /\ getDaysRemaining env doc' = Return JNull)
  \/ exists t n,
       doc' !! "endDate" = Some (JDate (Some t))
       /\ getDaysRemaining env doc' = Return (JNum n)
       /\ 0 <= n
       /\ (n = 0 <-> t <= clock env)
       /\ (n - 1) * JsDate.msPerDay < Z.max (t - clock env) 0 <= n * JsDate.msPerDay.
Proof.
  intros H. destruct (preSave_steps env doc doc' H) as (d & _ & Hu & ->).
  unfold getDaysRemaining. rewrite !deactivateExpired_lookup by done.
  destruct (truthy (d !! "endDate")) eqn:Ht.
  - right. destruct (Hu Ht) as [t Ht']. rewrite Ht'.
    exists t, (JsDate.daysRemaining t (clock env)). cbn [negb].
    destruct (daysRemaining_ceil t (clock env)) as (H0 & Hz & Hp).
    unfold JsDate.msPerDay in *. split_and!; try done; lia.
  - by left.
Qed.

Lemma getDaysRemaining_after_save_witness :
  exists t n,
    deactivateExpired goneEnv overdue !! "endDate" = Some (JDate (Some t))
    /\ getDaysRemaining goneEnv (deactivateExpired goneEnv overdue) = Return (JNum n)
    /\ n = 0.
Proof.
  destruct (getDaysRemaining_after_save goneEnv overdue
              (deactivateExpired goneEnv overdue) eq_refl)
    as [[Ht _]|(t & n & He & Hr & _ & Hz & _)].
  - discriminate Ht.
  - exists t, n. split_and!; [exact He|exact Hr|].
    apply Hz. injection He as <-. vm_compute. discriminate.
Defined.

(** *** services/subscriptionIntegrationService.js: [updateSubscription] *)

Lemma castUpdate_lookup env schema (u s : Obj) k :
  castUpdate env schema u = Return s ->
  match pathType schema k, u !! k with
  | Some ty, Some v => exists v', castPath env k ty v = Return v' /\ s !! k = Some v'
  | _, _ => s !! k = None
  end.
Proof.
  revert s. induction schema as [|[p ty] rest IH]; intros s; cbn [castUpdate pathType].
  - intros [= <-]. apply lookup_empty.
  - destruct (String.eqb_spec p k) as [->|Hne].
    + destruct (u !! k) as [v|] eqn:Hk.
      * destruct (castPath env k ty v) as [v'|]; [|done].
        destruct (castUpdate env rest u); [|done].
        intros [= <-]. exists v'. by rewrite lookup_insert_eq.
      * intros H. by apply (castUpdate_absent env rest u).
    + destruct (u !! p) as [v|] eqn:Hp; [|by apply IH].
      destruct (castPath env p ty v) as [v'|]; [|done].
      destruct (castUpdate env rest u) as [s'|]; [|done].
      intros [= <-]. specialize (IH s' eq_refl).
      repeat case_match; rewrite lookup_insert_ne by done; exact IH.
Qed.

Lemma sentUpdate_absent env (data : Obj) k :
  data !! k = None -> k <> "updatedAt" -> sentUpdate env data !! k = None.
Proof.
  intros Hk Hne. unfold sentUpdate.
  destruct (decide (k = "endDate")) as [->|Hne'].
  - rewrite checkEndDate_absent by done. rewrite preFindOneAndUpdate_absent.
    + by rewrite lookup_insert_ne.
    + by rewrite lookup_insert_ne.
  - rewrite preFindOneAndUpdate_other by done. rewrite lookup_insert_ne by done.
    by rewrite checkEndDate_other.
Qed.

Lemma updateSubscription_subscriptions env uid data w :
  subscriptions (snd (updateSubscription env uid data w)) = subscriptions w
  \/ exists set,
       castUpdate env SubscriptionSchema (sentUpdate env data) = Return set
       /\ subscriptions (snd (updateSubscription env uid data w))
          = <[uid := set ∪ match subscriptions w !! uid with
                           | Some doc => doc
                           | None => freshDocument env uid
                           end]> (subscriptions w).
Proof.
  rewrite updateSubscription_run.
  destruct (validObjectId env uid) eqn:Hvalid; [|by left].
  pose proof (afterRole_subscriptions env uid (checkEndDate env data) w) as Hsub.
  destruct (afterRole env uid (checkEndDate env data) w) as [[[]|e] w1];
    cbn [snd] in Hsub; cbv beta iota; [|by left].
  rewrite Subscription_findOneAndUpdate_run, Hvalid, stamped_sent. cbv zeta.
  fold (sentUpdate env data).
  destruct (castUpdate env SubscriptionSchema (sentUpdate env data)) as [set|e];
    [|by left].
  destruct (storeFault env SubscriptionUpdate); [by left|].
  rewrite Hsub. right. exists set. split; [reflexivity|].
  destruct (subscriptions w !! uid) as [doc|];
    cbn [fst snd stored logged subscriptions]; by rewrite Hsub.
Qed.

Lemma afterRole_users env uid data w :
  users (snd (afterRole env uid data w)) = users w
  \/ exists role, users (snd (afterRole env uid data w)) = withRole env uid role (users w).
Proof.
  unfold afterRole. destruct (roleChange data) as [role|]; [|by left].
  rewrite User_findByIdAndUpdate_run. cbv zeta.
  destruct (storeFault env UserUpdate); [by left|]. right. by exists role.
Qed.

Lemma withRole_other env uid role (us : gmap string Obj) uid' :
  uid' <> uid -> withRole env uid role us !! uid' = us !! uid'.
Proof.
  intros Hne. unfold withRole. destruct (us !! uid); [|done].
  by rewrite lookup_insert_ne.
Qed.

Lemma withRole_field env uid role (us : gmap string Obj) k :
  k <> "role" -> k <> "updatedAt" ->
  field (withRole env uid role us) uid k = field us uid k.
Proof.
  intros H1 H2. unfold withRole, field.
  destruct (us !! uid) as [u|] eqn:Hu; [|by rewrite Hu].
  rewrite lookup_insert_eq. cbn.
  rewrite lookup_union_r; [done|].
  rewrite lookup_insert_ne by done. by rewrite lookup_singleton_ne.
Qed.

Lemma withRole_missing env uid role (us : gmap string Obj) :
  us !! uid = None -> withRole env uid role us = us.
Proof. intros H. unfold withRole. by rewrite H. Qed.

Lemma afterRole_calls env uid data w :
  List.filter isStripeCall (calls (snd (afterRole env uid data w)))
  = List.filter isStripeCall (calls w).
Proof.
  unfold afterRole. destruct (roleChange data) as [role|]; [|done].
  rewrite User_findByIdAndUpdate_run. cbv zeta.
  destruct (storeFault env UserUpdate); cbn [snd calls logged];
    rewrite List.filter_app; cbn; by rewrite app_nil_r.
Qed.

Lemma Subscription_findOneAndUpdate_calls env uid upd upsert w :
  calls (snd (Subscription_findOneAndUpdate env uid upd upsert w))
  = (calls w ++ [CallSubscriptionUpdate uid upd])%list.
Proof.
  rewrite Subscription_findOneAndUpdate_run. cbv zeta.
  repeat case_match; reflexivity.
Qed.

Lemma updateSubscription_calls env uid data w :
  List.filter isStripeCall (calls (snd (updateSubscription env uid data w)))
  = List.filter isStripeCall (calls w).
Proof.
  rewrite updateSubscription_run.
  destruct (validObjectId env uid); [|done].
  pose proof (afterRole_calls env uid (checkEndDate env data) w) as Hc.
  destruct (afterRole env uid (checkEndDate env data) w) as [[[]|e] w1];
    cbn [snd] in Hc; cbv beta iota; [|done].
  pose proof (Subscription_findOneAndUpdate_calls env uid
    (<["updatedAt" := JDate (newDate env)]> (checkEndDate env data)) true w1) as H.
  destruct (Subscription_findOneAndUpdate env uid _ true w1) as [[[d|]|e] w2];
    cbn [snd] in *; rewrite H, List.filter_app; cbn; by rewrite app_nil_r.
Qed.

Lemma updateSubscription_field_kept env uid (data : Obj) w doc k :
  subscriptions w !! uid = Some doc -> data !! k = None -> k <> "updatedAt" ->
  field (subscriptions (snd (updateSubscription env uid data w))) uid k = doc !! k.
Proof.
  intros Hdoc Hk Hne.
  destruct (updateSubscription_subscriptions env uid data w) as [->|(set & Hc & ->)].
  - unfold field. by rewrite Hdoc.
  - rewrite field_stored, Hdoc. apply lookup_union_absent.
    apply (castUpdate_absent env SubscriptionSchema (sentUpdate env data)); [done|].
    by apply sentUpdate_absent.
Qed.

Lemma updateSubscription_other_records env uid (data : Obj) w uid' :
  uid' <> uid ->
  subscriptions (snd (updateSubscription env uid data w)) !! uid'
  = subscriptions w !! uid'.
Proof.
  intros Hne.
  destruct (updateSubscription_subscriptions env uid data w) as [->|(set & _ & ->)];
    [done|]. by rewrite lookup_insert_ne.
Qed.

Lemma updateSubscription_users_cases env uid (data : Obj) w :
  users (snd (updateSubscription env uid data w)) = users w
  \/ exists role, users (snd (updateSubscription env uid data w))
                  = withRole env uid role (users w).
Proof.
  rewrite updateSubscription_users. destruct (validObjectId env uid); [|by left].
  apply afterRole_users.
Qed.

(** X5.  Whatever its outcome, [updateSubscription] leaves the records and
    the users of every other id as they were, changes in the record of
    [userId] no path that is absent from [data] (other than [updatedAt]),
    changes in the user of [userId] nothing but [role] and [updatedAt],
    creates no user, and calls the payment gateway not at all. *)
Theorem updateSubscription_touches_one_user env uid (data : Obj) w :
  let w' := snd (updateSubscription env uid data w) in
  (forall uid', uid' <> uid ->
      subscriptions w' !! uid' = subscriptions w !! uid'
      /\ users w' !! uid' = users w !! uid')
  /\ (forall doc k,
      subscriptions w !! uid = Some doc -> data !! k = None -> k <> "updatedAt" ->
      field (subscriptions w') uid k = doc !! k)
  /\ (forall k, k <> "role" -> k <> "updatedAt" ->
      field (users w') uid k = field (users w) uid k)
  /\ (users w !! uid = None -> users w' !! uid = None)
  /\ List.filter isStripeCall (calls w') = List.filter isStripeCall (calls w).
Proof.
  cbv zeta.
  pose proof (updateSubscription_users_cases env uid data w) as Hu.
  split_and!.
  - intros uid' Hne. split.
    + by apply updateSubscription_other_records.
    + destruct Hu as [->|[role ->]]; [done|]. by apply withRole_other.
  - intros doc k. apply updateSubscription_field_kept.
  - intros k H1 H2. destruct Hu as [->|[role ->]]; [done|]. by apply withRole_field.
  - intros Hnone. destruct Hu as [->|[role ->]]; [done|].
    by rewrite withRole_missing.
  - apply updateSubscription_calls.
Qed.

Lemma castDate_valid env path v t :
  truthy (Some v) = false -> toDate env v = Some t -> ~ malformed env v ->
  castDate env path v = Return (JDate (Some t)) \/ v = JBool false.
Proof.
  intros Hf Ht Hm. destruct v as [|[]|n| |s|d]; cbn [toDate castDate truthy] in *;
    try discriminate.
  - exfalso. apply Hm. by left.
  - by right.
  - left. by rewrite Ht.
  - exfalso. apply Hm. right; right; left.
    destruct (String.eqb_spec s "") as [->|Hne]; [done|discriminate Hf].
Qed.

(** X6.  A well-formed [data.endDate] is what a successful
    [updateSubscription] stores: the record of [userId] then holds the
    Date that [new Date(data.endDate)] denotes. *)
Theorem updateSubscription_stores_the_endDate env uid (data : Obj) w v t doc' :
  data !! "endDate" = Some v ->
  ~ malformed env v ->
  toDate env v = Some t ->
  fst (updateSubscription env uid data w) = Return doc' ->
  doc' !! "endDate" = Some (JDate (Some t))
  /\ field (subscriptions (snd (updateSubscription env uid data w))) uid "endDate"
     = Some (JDate (Some t)).
Proof.
  intros He Hm Ht Hret.
  destruct (updateSubscription_Return env uid data w doc' Hret) as (set & Hc & Hdoc & Hsub).
  assert (Hnan : data !! "endDate" <> Some JNaN).
  { rewrite He. intros [= ->]. discriminate Ht. }
  assert (Hset : set !! "endDate" = Some (JDate (Some t))).
  { pose proof (castUpdate_lookup env SubscriptionSchema _ set "endDate" Hc) as Hl.
    change (pathType SubscriptionSchema "endDate") with (Some TDate) in Hl.
    rewrite preFindOneAndUpdate_wellformed in Hl.
    2:{ intros v'. rewrite lookup_insert_ne by done. by apply checkEndDate_wellformed. }
    rewrite lookup_insert_ne in Hl by done.
    unfold checkEndDate in Hl. rewrite He in Hl.
    assert (Hb : bool_decide (v = JNull) || bool_decide (v = JStr "null")
                 || bool_decide (v = JStr "") = false).
    { unfold malformed in Hm.
      destruct (decide (v = JNull)) as [->|H1]; [tauto|].
      destruct (decide (v = JStr "null")) as [->|H2]; [tauto|].
      destruct (decide (v = JStr "")) as [->|H3]; [tauto|].
      by rewrite !bool_decide_eq_false_2. }
    rewrite Hb, Ht in Hl. cbn [JsDate.isNaN_getTime andb] in Hl. rewrite andb_false_r in Hl.
    destruct (truthy (Some v)) eqn:Htr.
    - rewrite lookup_insert_eq in Hl. destruct Hl as (v' & Hcast & ->).
      cbn in Hcast. by simplify_eq.
    - rewrite He in Hl. destruct Hl as (v' & Hcast & ->). cbn [castPath] in Hcast.
      destruct (castDate_valid env "endDate" v t Htr Ht Hm) as [H| ->];
        [congruence|discriminate Hcast]. }
  split.
  - rewrite Hdoc. by apply lookup_union_Some_l.
  - rewrite Hsub, field_stored, Hdoc. by apply lookup_union_Some_l.
Qed.

Lemma updateSubscription_stores_the_endDate_witness :
  dated !! "endDate" = Some (JDate (Some jan15))
  /\ field (subscriptions (snd (updateSubscription goneEnv alice
                                  {["endDate" := JStr "2024-01-15T10:00:00.000Z"]}
                                  (worldOf monthlyLocal "premium")))) alice "endDate"
     = Some (JDate (Some jan15)).
Proof.
  apply (updateSubscription_stores_the_endDate goneEnv alice
           {["endDate" := JStr "2024-01-15T10:00:00.000Z"]}
           (worldOf monthlyLocal "premium") (JStr "2024-01-15T10:00:00.000Z")).
  - apply lookup_singleton_eq.
  - intros [H|[H|[H|H]]]; vm_compute in H; discriminate H.
  - reflexivity.
  - unfold dated.
    assert (H : isThrow (fst (updateSubscription goneEnv alice
                  {["endDate" := JStr "2024-01-15T10:00:00.000Z"]}
                  (worldOf monthlyLocal "premium"))) = false)
      by (vm_compute; reflexivity).
    (destruct (fst _); [reflexivity|discriminate]).
Defined.

(** X7.  For a user without a record a successful [updateSubscription]
    creates one: it carries the user's id, the paths of [data] apart, the
    defaults of the schema ([plan] "free", [status] "active", [isActive]
    true, [startDate] now, ...), and both timestamps set to now. *)
Theorem updateSubscription_creates_with_defaults env uid (data : Obj) w doc' :
  subscriptions w !! uid = None ->
  fst (updateSubscription env uid data w) = Return doc' ->
  subscriptions (snd (updateSubscription env uid data w)) !! uid = Some doc'
  /\ (forall k, data !! k = None -> k <> "updatedAt" ->
        doc' !! k = freshDocument env uid !! k)
  /\ (data !! "userId" = None -> doc' !! "userId" = Some (JStr uid))
  /\ (data !! "plan" = None -> doc' !! "plan" = Some (JStr "free"))
  /\ (data !! "status" = None -> doc' !! "status" = Some (JStr "active"))
  /\ (data !! "isActive" = None -> doc' !! "isActive" = Some (JBool true))
  /\ (data !! "startDate" = None -> doc' !! "startDate" = Some (JDate (Some (clock env))))
  /\ (data !! "createdAt" = None -> doc' !! "createdAt" = Some (JDate (Some (clock env))))
  /\ (data !! "endDate" = None -> doc' !! "endDate" = None)
  /\ doc' !! "updatedAt" = Some (JDate (Some (clock env))).
Proof.
  intros Hnone Hret.
  destruct (updateSubscription_Return env uid data w doc' Hret) as (set & Hc & Hdoc & Hsub).
  rewrite Hnone in Hdoc. fold (sentUpdate env data) in Hc.
  assert (Hk : forall k, data !! k = None -> k <> "updatedAt" ->
                 doc' !! k = freshDocument env uid !! k).
  { intros k Hk Hne. rewrite Hdoc. apply lookup_union_absent.
    apply (castUpdate_absent env SubscriptionSchema (sentUpdate env data)); [done|].
    by apply sentUpdate_absent. }
  split_and!.
  - rewrite Hsub. apply lookup_insert_eq.
  - exact Hk.
  - intros H. by rewrite Hk.
  - intros H. by rewrite Hk.
  - intros H. by rewrite Hk.
  - intros H. by rewrite Hk.
  - intros H. by rewrite Hk.
  - intros H. by rewrite Hk.
  - intros H. by rewrite Hk.
  - pose proof (castUpdate_lookup env SubscriptionSchema _ set "updatedAt" Hc) as Hl.
    change (pathType SubscriptionSchema "updatedAt") with (Some TDate) in Hl.
    unfold sentUpdate in Hl. rewrite preFindOneAndUpdate_other in Hl by done.
    rewrite lookup_insert_eq in Hl. destruct Hl as (v' & Hcast & Hl).
    cbn in Hcast. simplify_eq. by apply lookup_union_Some_l.
Qed.

Lemma updateSubscription_creates_with_defaults_witness :
  subscriptions (snd (updateSubscription goneEnv alice {["plan" := JStr "annual"]}
                        emptyWorld)) !! alice = Some created
  /\ created !! "status" = Some (JStr "active")
  /\ created !! "isActive" = Some (JBool true).
Proof.
  destruct (updateSubscription_creates_with_defaults goneEnv alice
              {["plan" := JStr "annual"]} emptyWorld created)
    as (H1 & _ & _ & _ & H2 & H3 & _).
  - reflexivity.
  - unfold created.
    assert (H : isThrow (fst (updateSubscription goneEnv alice {["plan" := JStr "annual"]}
                                emptyWorld)) = false)
      by (vm_compute; reflexivity).
    (destruct (fst _); [reflexivity|discriminate]).
  - split_and!; [exact H1|apply H2; reflexivity|apply H3; reflexivity].
Defined.

(** *** services/subscriptionIntegrationService.js: the payment records *)

Lemma preFindOneAndUpdate_lookup_absent env (upd : Obj) k :
  upd !! k = None -> preFindOneAndUpdate env upd !! k = None.
Proof.
  intros Hk. destruct (decide (k = "endDate")) as [->|Hne].
  - by rewrite preFindOneAndUpdate_absent.
  - by rewrite preFindOneAndUpdate_other.
Qed.

Lemma findOneAndUpdate_in_place env uid (upd : Obj) w :
  let r := Subscription_findOneAndUpdate env uid upd false w in
  users (snd r) = users w
  /\ (forall uid', uid' <> uid -> subscriptions (snd r) !! uid' = subscriptions w !! uid')
  /\ (subscriptions w !! uid = None ->
      subscriptions (snd r) = subscriptions w
      /\ (fst r = Return None \/ isThrow (fst r) = true))
  /\ (forall doc k, subscriptions w !! uid = Some doc -> upd !! k = None ->
      k <> "updatedAt" ->
      field (subscriptions (snd r)) uid k = doc !! k)
  /\ List.filter isStripeCall (calls (snd r)) = List.filter isStripeCall (calls w).
Proof.
  cbv zeta. split_and!.
  - apply Subscription_findOneAndUpdate_users.
  - intros uid' Hne. rewrite Subscription_findOneAndUpdate_run. cbv zeta.
    repeat case_match; cbn [snd subscriptions logged stored]; try done;
      by rewrite lookup_insert_ne.
  - intros Hnone. rewrite Subscription_findOneAndUpdate_run, Hnone. cbv zeta.
    repeat case_match; cbn [fst snd subscriptions logged isThrow]; auto.
  - intros doc k Hdoc Hk Hne. rewrite Subscription_findOneAndUpdate_run, Hdoc. cbv zeta.
    assert (Hsame : forall c, field (subscriptions (logged w c)) uid k = doc !! k)
      by (intros c; unfold field; cbn [subscriptions logged]; by rewrite Hdoc).
    destruct (validObjectId env uid); [|apply Hsame].
    destruct (castUpdate env SubscriptionSchema (stamped env upd))
      as [set|e] eqn:Hc; [|apply Hsame].
    destruct (storeFault env SubscriptionUpdate); [apply Hsame|].
    cbn [snd subscriptions stored logged]. rewrite field_stored.
    apply lookup_union_absent.
    apply (castUpdate_absent env SubscriptionSchema _ set k Hc).
    unfold stamped. rewrite lookup_insert_ne by done.
    by apply preFindOneAndUpdate_lookup_absent.
  - rewrite Subscription_findOneAndUpdate_calls, List.filter_app. cbn.
    by rewrite app_nil_r.
Qed.

Lemma setDefined_absent k (v : option JsVal) (o : Obj) k' :
  k' <> k -> o !! k' = None -> setDefined k v o !! k' = None.
Proof.
  intros Hne Ho. unfold setDefined. destruct v; [|done]. by rewrite lookup_insert_ne.
Qed.

Lemma cast_payment env (paymentData : Obj) :
  exists set,
    castUpdate env SubscriptionSchema
      (stamped env
         (setDefined "lastTransactionId" (paymentData !! "transactionId")
            (list_to_map [ ("lastPaymentDate", JDate (newDate env));
                           ("paymentStatus", JStr "success") ]))) = Return set
    /\ set !! "paymentStatus" = Some (JStr "success")
    /\ set !! "lastPaymentDate" = Some (JDate (Some (clock env)))
    /\ set !! "lastTransactionId" = paymentData !! "transactionId".
Proof.
  destruct (paymentData !! "transactionId") as [v|].
  - assert (H :
      match castUpdate env SubscriptionSchema
        (stamped env
           (setDefined "lastTransactionId" (Some v)
              (list_to_map [ ("lastPaymentDate", JDate (newDate env));
                             ("paymentStatus", JStr "success") ]))) with
      | Return s => (s !! "paymentStatus", s !! "lastPaymentDate", s !! "lastTransactionId")
      | Throw _ => (None, None, None)
      end
      = (Some (JStr "success"), Some (JDate (Some (clock env))), Some v))
      by (vm_compute; reflexivity).
    destruct (castUpdate env SubscriptionSchema _) as [set|e]; [|discriminate].
    exists set. by simplify_eq.
  - assert (H :
      match castUpdate env SubscriptionSchema
        (stamped env
           (setDefined "lastTransactionId" None
              (list_to_map [ ("lastPaymentDate", JDate (newDate env));
                             ("paymentStatus", JStr "success") ]))) with
      | Return s => (s !! "paymentStatus", s !! "lastPaymentDate", s !! "lastTransactionId")
      | Throw _ => (None, None, None)
      end
      = (Some (JStr "success"), Some (JDate (Some (clock env))), None))
      by (vm_compute; reflexivity).
    destruct (castUpdate env SubscriptionSchema _) as [set|e]; [|discriminate].
    exists set. by simplify_eq.
Qed.

Lemma cast_failure env (failureData : Obj) :
  exists set,
    castUpdate env SubscriptionSchema
      (stamped env
         (setDefined "paymentFailureReason" (failureData !! "failureReason")
            (list_to_map [ ("paymentStatus", JStr "failed");
                           ("lastFailureDate", JDate (newDate env)) ]))) = Return set
    /\ set !! "paymentStatus" = Some (JStr "failed")
    /\ set !! "lastFailureDate" = Some (JDate (Some (clock env)))
    /\ set !! "paymentFailureReason" = failureData !! "failureReason".
Proof.
  destruct (failureData !! "failureReason") as [v|].
  - assert (H :
      match castUpdate env SubscriptionSchema
        (stamped env
           (setDefined "paymentFailureReason" (Some v)
              (list_to_map [ ("paymentStatus", JStr "failed");
                             ("lastFailureDate", JDate (newDate env)) ]))) with
      | Return s => (s !! "paymentStatus", s !! "lastFailureDate", s !! "paymentFailureReason")
      | Throw _ => (None, None, None)
      end
      = (Some (JStr "failed"), Some (JDate (Some (clock env))), Some v))
      by (vm_compute; reflexivity).
    destruct (castUpdate env SubscriptionSchema _) as [set|e]; [|discriminate].
    exists set. by simplify_eq.
  - assert (H :
      match castUpdate env SubscriptionSchema
        (stamped env
           (setDefined "paymentFailureReason" None
              (list_to_map [ ("paymentStatus", JStr "failed");
                             ("lastFailureDate", JDate (newDate env)) ]))) with
      | Return s => (s !! "paymentStatus", s !! "lastFailureDate", s !! "paymentFailureReason")
      | Throw _ => (None, None, None)
      end
      = (Some (JStr "failed"), Some (JDate (Some (clock env))), None))
      by (vm_compute; reflexivity).
    destruct (castUpdate env SubscriptionSchema _) as [set|e]; [|discriminate].
    exists set. by simplify_eq.
Qed.

Lemma findOneAndUpdate_existing env uid (upd : Obj) upsert w doc set :
  validObjectId env uid = true ->
  storeFault env SubscriptionUpdate = None ->
  subscriptions w !! uid = Some doc ->
  castUpdate env SubscriptionSchema (stamped env upd) = Return set ->
  Subscription_findOneAndUpdate env uid upd upsert w
  = (Return (Some (set ∪ doc)),
     stored (logged w (CallSubscriptionUpdate uid upd)) uid (set ∪ doc)).
Proof.
  intros Hv Hf Hd Hc. rewrite Subscription_findOneAndUpdate_run. cbv zeta.
  by rewrite Hv, Hc, Hf, Hd.
Qed.

(** X8.  [recordSubscriptionPayment] and [recordPaymentFailure] write
    into the record that exists and create none: without a record they
    answer [null] (or throw) and store nothing; with one, a path outside
    the three they set (and [updatedAt]) keeps its value, so that
    [status], [isActive], [endDate] and [plan] are as before; they touch
    no user and no other record and do not call the gateway.  When the id
    is well formed and the store accepts the write, the record then shows
    the payment, respectively the failure, dated now. *)
Theorem payment_records_update_in_place env uid (paymentData failureData : Obj) w :
  let paid := recordSubscriptionPayment env uid paymentData w in
  let failed := recordPaymentFailure env uid failureData w in
  (users (snd paid) = users w /\ users (snd failed) = users w)
  /\ (forall uid', uid' <> uid ->
      subscriptions (snd paid) !! uid' = subscriptions w !! uid'
      /\ subscriptions (snd failed) !! uid' = subscriptions w !! uid')
  /\ (subscriptions w !! uid = None ->
      subscriptions (snd paid) = subscriptions w
      /\ subscriptions (snd failed) = subscriptions w
      /\ (fst paid = Return None \/ isThrow (fst paid) = true)
      /\ (fst failed = Return None \/ isThrow (fst failed) = true))
  /\ (forall doc k, subscriptions w !! uid = Some doc -> k <> "updatedAt" ->
      (k ∉ paymentPaths -> field (subscriptions (snd paid)) uid k = doc !! k)
      /\ (k ∉ failurePaths -> field (subscriptions (snd failed)) uid k = doc !! k))
  /\ (List.filter isStripeCall (calls (snd paid)) = List.filter isStripeCall (calls w)
      /\ List.filter isStripeCall (calls (snd failed)) = List.filter isStripeCall (calls w))
  /\ (forall doc, subscriptions w !! uid = Some doc ->
      validObjectId env uid = true -> storeFault env SubscriptionUpdate = None ->
      fst paid = Return (subscriptions (snd paid) !! uid)
      /\ field (subscriptions (snd paid)) uid "paymentStatus" = Some (JStr "success")
      /\ field (subscriptions (snd paid)) uid "lastPaymentDate"
         = Some (JDate (Some (clock env)))
      /\ fst failed = Return (subscriptions (snd failed) !! uid)
      /\ field (subscriptions (snd failed)) uid "paymentStatus" = Some (JStr "failed")
      /\ field (subscriptions (snd failed)) uid "lastFailureDate"
         = Some (JDate (Some (clock env)))).
Proof.
  cbv zeta. unfold recordSubscriptionPayment, recordPaymentFailure.
  pose proof (findOneAndUpdate_in_place env uid
    (setDefined "lastTransactionId" (paymentData !! "transactionId")
       (list_to_map [ ("lastPaymentDate", JDate (newDate env));
                      ("paymentStatus", JStr "success") ])) w) as (P1 & P2 & P3 & P4 & P5).
  pose proof (findOneAndUpdate_in_place env uid
    (setDefined "paymentFailureReason" (failureData !! "failureReason")
       (list_to_map [ ("paymentStatus", JStr "failed");
                      ("lastFailureDate", JDate (newDate env)) ])) w) as (F1 & F2 & F3 & F4 & F5).
  split_and!; try done.
  - intros uid' Hne. split; [by apply P2|by apply F2].
  - intros Hnone. pose proof (P3 Hnone) as [Pa Pb]. pose proof (F3 Hnone) as [Fa Fb].
    by split_and!.
  - intros doc k Hdoc Hne. split; intros Hk.
    + apply P4; [done| |exact Hne]. apply setDefined_absent.
      * intros ->. apply Hk. unfold paymentPaths. rewrite !elem_of_cons. auto.
      * apply not_elem_of_list_to_map_1. cbn [fmap list_fmap fst].
        unfold paymentPaths in Hk. rewrite !not_elem_of_cons in Hk.
        rewrite !not_elem_of_cons. tauto.
    + apply F4; [done| |exact Hne]. apply setDefined_absent.
      * intros ->. apply Hk. unfold failurePaths. rewrite !elem_of_cons. auto.
      * apply not_elem_of_list_to_map_1. cbn [fmap list_fmap fst].
        unfold failurePaths in Hk. rewrite !not_elem_of_cons in Hk.
        rewrite !not_elem_of_cons. tauto.
  - intros doc Hdoc Hv Hf.
    destruct (cast_payment env paymentData) as (s1 & Hc1 & Hs1 & Hd1 & _).
    destruct (cast_failure env failureData) as (s2 & Hc2 & Hs2 & Hd2 & _).
    rewrite (findOneAndUpdate_existing env uid _ false w doc s1 Hv Hf Hdoc Hc1).
    rewrite (findOneAndUpdate_existing env uid _ false w doc s2 Hv Hf Hdoc Hc2).
    cbn [fst snd subscriptions stored logged]. rewrite !field_stored, !lookup_insert_eq.
    split_and!; try done; by apply lookup_union_Some_l.
Qed.

(** *** The length of a subscription period *)

Lemma calculateSubscriptionDates_endDate env plan start :
  snd (calculateSubscriptionDates env plan (Some start))
  = if strictEq plan (JStr "annual") then JsDate.addOneYear (tza env) start
    else JsDate.addOneMonth (tza env) start.
Proof.
  unfold calculateSubscriptionDates. cbn [snd].
  generalize (JsDate.addOneYear (tza env) start).
  generalize (JsDate.addOneMonth (tza env) start). intros M Y.
  destruct plan as [v|]; [|reflexivity]. cbn [strictEq].
  destruct (decide (v = JStr "monthly")) as [->|H1]; [reflexivity|].
  rewrite (bool_decide_eq_false_2 _ H1). by repeat case_match.
Qed.

(** X9.  A period computed by [calculateSubscriptionDates] starts at the
    date given and ends at the same local time a year of the local
    calendar later (365 or 366 days) for the plan "annual", and a month
    later (28 to 31 days) for every other plan, "premium" and unknown
    plans included; that is so many times 24 hours later, but for the
    change of the zone's offset between the two dates. *)
Theorem calculateSubscriptionDates_period env plan t b :
  zoneDrift (tza env) b ->
  Z.abs t + 366 * JsDate.msPerDay + b <= JsDate.maxTime ->
  exists d,
    periodDays (strictEq plan (JStr "annual")) d
    /\ Z.abs (daysLater (tza env) t d - (t + d * JsDate.msPerDay)) <= b
    /\ calculateSubscriptionDates env plan (Some (Some t))
       = (Some t, Some (daysLater (tza env) t d)).
Proof.
  intros Hb Ht.
  destruct (period_from (tza env) (strictEq plan (JStr "annual")) t b Hb Ht)
    as (d & Hd & Hnear & E).
  exists d. split; [done|]. split; [done|].
  rewrite (surjective_pairing (calculateSubscriptionDates env plan (Some (Some t)))).
  rewrite calculateSubscriptionDates_endDate. f_equal.
  by destruct (strictEq plan (JStr "annual")).
Qed.

Lemma calculateSubscriptionDates_period_witness :
  (exists d,
     28 <= d <= 31
     /\ calculateSubscriptionDates goneEnv (Some (JStr "premium")) (Some (Some jan15))
        = (Some jan15, Some (jan15 + d * JsDate.msPerDay)))
  /\ (exists d,
       28 <= d <= 31
       /\ Z.abs (daysLater paris mar15 d - (mar15 + d * JsDate.msPerDay)) <= 3600000
       /\ calculateSubscriptionDates goneParisEnv (Some (JStr "premium"))
            (Some (Some mar15))
          = (Some mar15, Some (daysLater paris mar15 d))
       /\ daysLater paris mar15 d = apr15paris).
Proof.
  split.
  - destruct (calculateSubscriptionDates_period goneEnv (Some (JStr "premium")) jan15 0
                utc_steady (proj1 (sample_clock_in_range 0 ltac:(lia))))
      as (d & Hd & _ & E).
    exists d. split; [exact Hd|]. rewrite E. f_equal. f_equal. apply daysLater_utc.
  - destruct (calculateSubscriptionDates_period goneParisEnv (Some (JStr "premium")) mar15
                3600000 paris_drift (proj2 (sample_clock_in_range 3600000 ltac:(lia))))
      as (d & Hd & Hnear & E).
    exists d. split; [exact Hd|]. split; [exact Hnear|]. split; [exact E|].
    assert (Hc : calculateSubscriptionDates goneParisEnv (Some (JStr "premium"))
                   (Some (Some mar15)) = (Some mar15, Some apr15paris))
      by (vm_compute; reflexivity).
    rewrite E in Hc. injection Hc as Hc. exact Hc.
Defined.

(** X10.  The three places that compute the end of a period agree: the
    date the controller computes from now for a plan is the one the
    service falls back to when it cancels, and, for the plans "monthly"
    and "annual", the one [changePlan] makes effective. *)
Theorem period_ends_agree env :
  (forall plan,
      snd (calculateSubscriptionDates env plan None) = localEndDate env plan)
  /\ (forall plan, plan = "monthly" \/ plan = "annual" ->
      periodAhead env plan = localEndDate env (Some (JStr plan)))
  /\ (forall plan, plan <> "monthly" -> plan <> "annual" ->
      periodAhead env plan = newDate env).
Proof.
  split_and!.
  - intros plan. unfold calculateSubscriptionDates, localEndDate. cbn [snd].
    generalize (JsDate.addOneYear (tza env) (newDate env)).
    generalize (JsDate.addOneMonth (tza env) (newDate env)). intros M Y.
    destruct plan as [v|]; [|reflexivity]. cbn [strictEq].
    destruct (decide (v = JStr "monthly")) as [->|H1]; [reflexivity|].
    rewrite (bool_decide_eq_false_2 _ H1). by repeat case_match.
  - intros plan Hplan. unfold periodAhead, localEndDate.
    generalize (JsDate.addOneYear (tza env) (newDate env)).
    generalize (JsDate.addOneMonth (tza env) (newDate env)). intros M Y.
    destruct Hplan as [-> | ->]; reflexivity.
  - intros plan H1 H2. unfold periodAhead.
    destruct (String.eqb_spec plan "annual"); [done|].
    destruct (String.eqb_spec plan "monthly"); done.
Qed.

(** *** services/subscriptionIntegrationService.js: cancelling and reactivating *)

Lemma strictEq_inv (v : option JsVal) u : strictEq v u = true -> v = Some u.
Proof.
  destruct v as [x|]; [|discriminate]. cbn [strictEq].
  intros H%bool_decide_eq_true. by subst.
Qed.

Lemma active_fields (doc : Obj) :
  forallb (satisfies doc) activeRecord = true <->
  doc !! "status" = Some (JStr "active") /\ doc !! "isActive" = Some (JBool true).
Proof.
  unfold activeRecord. cbn [forallb satisfies]. rewrite andb_true_r, andb_true_iff.
  split.
  - intros [H1 H2]. split; by apply strictEq_inv.
  - intros [H1 H2]. split; by apply strictEq_true.
Qed.

Lemma cancelSubscriptionAtPeriodEnd_run env uid w :
  cancelSubscriptionAtPeriodEnd env uid w =
    match findCancellable env uid w with
    | (Throw e, w0) => (Throw e, w0)
    | (Return doc, w0) =>
        match determineEndDate env doc w0 with
        | (Throw e, w1) => (Throw e, w1)
        | (Return endDate, w1) =>
            match lacksValidDate endDate with
            | Throw e => (Throw e, w1)
            | Return true =>
                (Throw (Error "Impossible de déterminer la date de fin d'abonnement"), w1)
            | Return false =>
                match updateSubscription env uid (cancellation endDate) w1 with
                | (Return updated, w2) =>
                    (Return match endDate with
                            | Some (JDate (Some t)) =>
                                <["daysRemaining" :=
                                    JNum (JsDate.daysRemaining t (clock env))]> updated
                            | _ => updated
                            end, w2)
                | (Throw dbError, w2) =>
                    (Throw (Error ("Erreur sauvegarde annulation: "
                                     +:+ message dbError)), w2)
                end
            end
        end
    end.
Proof.
  unfold cancelSubscriptionAtPeriodEnd. unfold bind at 1.
  destruct (findCancellable env uid w) as [[doc|e] w0]; [|reflexivity].
  unfold bind at 1.
  destruct (determineEndDate env doc w0) as [[endDate|e] w1]; [|reflexivity].
  unfold bind at 1. rewrite liftResult_run.
  destruct (lacksValidDate endDate) as [[]|e]; [reflexivity| |reflexivity].
  unfold try_catch, bind.
  destruct (updateSubscription env uid (cancellation endDate) w1) as [[updated|e] w2];
    [|reflexivity].
  by repeat case_match.
Qed.

Lemma lacksValidDate_false endDate :
  lacksValidDate endDate = Return false -> exists t, endDate = Some (JDate (Some t)).
Proof.
  unfold lacksValidDate. destruct (truthy endDate) eqn:Ht; cbn [negb]; [|discriminate].
  destruct endDate as [[| | | | |[t|]]|]; try discriminate. by exists t.
Qed.

Lemma determineEndDate_stores env doc w :
  subscriptions (snd (determineEndDate env doc w)) = subscriptions w
  /\ users (snd (determineEndDate env doc w)) = users w.
Proof.
  split.
  - by apply (keeps_determineEndDate subscriptions).
  - by apply (keeps_determineEndDate users).
Qed.

(** What a cancellation that succeeded went through. *)
Lemma cancel_success env uid w :
  validObjectId env uid = true ->
  storeFault env SubscriptionFind = None ->
  isThrow (fst (cancelSubscriptionAtPeriodEnd env uid w)) = false ->
  exists doc t w1,
    subscriptions w !! uid = Some doc
    /\ doc !! "status" = Some (JStr "active")
    /\ doc !! "isActive" = Some (JBool true)
    /\ findCancellable env uid w = (Return doc, w)
    /\ determineEndDate env doc w = (Return (Some (JDate (Some t))), w1)
    /\ subscriptions w1 = subscriptions w
    /\ users w1 = users w.
Proof.
  intros Hvalid Hfault. rewrite cancelSubscriptionAtPeriodEnd_run.
  pose proof (findCancellable_run env uid w Hvalid Hfault) as Hfind. revert Hfind.
  destruct (subscriptions w !! uid) as [doc|] eqn:Hdoc.
  2:{ intros ->. discriminate. }
  destruct (forallb (satisfies doc) activeRecord) eqn:Hactive.
  2:{ intros ->. repeat case_match; discriminate. }
  intros Hfind. rewrite Hfind.
  apply active_fields in Hactive as [Hs Ha].
  pose proof (determineEndDate_stores env doc w) as [Hsub Husers].
  destruct (determineEndDate env doc w) as [[endDate|e] w1] eqn:Hdate; [|discriminate].
  cbn [snd] in Hsub, Husers.
  destruct (lacksValidDate endDate) as [[]|e] eqn:Hl; [discriminate| |discriminate].
  destruct (lacksValidDate_false endDate Hl) as [t ->].
  intros _. exists doc, t, w1. by split_and!.
Qed.

(** The days that remain until a date [d] days ahead, give or take less
    than a day. *)
Lemma daysRemaining_near now d t b :
  0 <= d -> Z.abs (t - (now + d * JsDate.msPerDay)) <= b -> b < JsDate.msPerDay ->
  JsDate.daysRemaining t now = if t <=? now + d * JsDate.msPerDay then d else d + 1.
Proof.
  intros Hd Hnear Hb. unfold JsDate.daysRemaining, JsDate.msPerDay in *.
  destruct (Z.leb_spec t (now + d * 86400000)).
  - assert (- (t - now) / 86400000 = - d) as ->; [|lia].
    symmetry. apply (Z.div_unique _ _ _ (now + d * 86400000 - t)); lia.
  - assert (- (t - now) / 86400000 = - (d + 1)) as ->; [|lia].
    symmetry. apply (Z.div_unique _ _ _ (now + (d + 1) * 86400000 - t)); lia.
Qed.

Lemma logged_calls w c :
  List.filter isStripeCall (calls (logged w c))
  = (List.filter isStripeCall (calls w) ++ (if isStripeCall c then [c] else []))%list.
Proof. cbn [calls logged]. rewrite List.filter_app. cbn. by destruct (isStripeCall c). Qed.

(** X11.  Cancelling an active subscription that has no remote id never
    reaches the gateway: the end date is now moved on by one period of
    the local calendar (365 or 366 days for the plan "annual", 28 to 31
    days otherwise), which is so many times 24 hours from now but for the
    change of the zone's offset in between; the record is scheduled for
    cancellation at that date and stays active, the answer carries the
    days that remain, rounded up (the days of the period, and one more
    when the offset has made the period longer), and no user is
    touched. *)
Theorem cancel_without_remote_subscription env uid w doc b :
  validObjectId env uid = true ->
  (forall op, storeFault env op = None) ->
  subscriptions w !! uid = Some doc ->
  doc !! "status" = Some (JStr "active") ->
  doc !! "isActive" = Some (JBool true) ->
  remoteId doc = None ->
  zoneDrift (tza env) b ->
  Z.abs (clock env) + 366 * JsDate.msPerDay + b <= JsDate.maxTime ->
  let r := cancelSubscriptionAtPeriodEnd env uid w in
  exists d t doc',
    periodDays (strictEq (doc !! "plan") (JStr "annual")) d
    /\ t = daysLater (tza env) (clock env) d
    /\ Z.abs (t - (clock env + d * JsDate.msPerDay)) <= b
    /\ fst r = Return (<["daysRemaining" := JNum (JsDate.daysRemaining t (clock env))]> doc')
    /\ (b < JsDate.msPerDay ->
        JsDate.daysRemaining t (clock env)
        = if t <=? clock env + d * JsDate.msPerDay then d else d + 1)
    /\ subscriptions (snd r) = <[uid := doc']> (subscriptions w)
    /\ doc' !! "endDate" = Some (JDate (Some t))
    /\ doc' !! "status" = Some (JStr "canceled")
    /\ doc' !! "isActive" = Some (JBool true)
    /\ doc' !! "cancelationType" = Some (JStr "end_of_period")
    /\ users (snd r) = users w
    /\ List.filter isStripeCall (calls (snd r)) = List.filter isStripeCall (calls w).
Proof.
  intros Hvalid Hfault Hdoc Hs Ha Hremote Hb Hclock. cbv zeta.
  destruct (localEndDate_period env (doc !! "plan") b Hb Hclock) as (d & Hd & Hnear & E).
  set (t := daysLater (tza env) (clock env) d) in *.
  assert (Hdate : determineEndDate env doc w = (Return (Some (JDate (Some t))), w)).
  { unfold determineEndDate. by rewrite Hremote, E. }
  destruct (cancel_persists env uid w doc w t Hvalid
              (Hfault SubscriptionUpdate)
              (findCancellable_active env uid w doc Hvalid (Hfault SubscriptionFind)
                 Hdoc Hs Ha)
              Hdate Hdoc) as (doc' & Hr & Hsub & Hu & Hc & Hs' & Ha' & He' & Hc').
  exists d, t, doc'.
  split; [exact Hd|]. split; [reflexivity|]. split; [exact Hnear|]. split; [exact Hr|].
  split.
  { intros Hday. apply (daysRemaining_near _ _ _ b); [|exact Hnear|exact Hday].
    destruct (strictEq (doc !! "plan") (JStr "annual")); cbn in Hd; lia. }
  split; [exact Hsub|]. split; [exact He'|]. split; [exact Hs'|]. split; [exact Ha'|].
  split; [exact Hc'|]. split; [exact Hu|].
  rewrite Hc, List.filter_app. cbn. by rewrite app_nil_r.
Qed.

Lemma oct15_in_range :
  Z.abs oct15 + 366 * JsDate.msPerDay + 3600000 <= JsDate.maxTime.
Proof. unfold oct15, JsDate.msPerDay, JsDate.maxTime. lia. Qed.

Lemma cancel_without_remote_subscription_witness :
  (exists doc',
     fst (cancelSubscriptionAtPeriodEnd goneEnv alice (worldOf monthlyLocal "premium"))
     = Return (<["daysRemaining" := JNum 31]> doc')
     /\ doc' !! "endDate" = Some (JDate (Some (jan15 + 31 * JsDate.msPerDay))))
  /\ (exists doc',
       fst (cancelSubscriptionAtPeriodEnd goneParisEnv alice
              (worldOf monthlyLocal "premium"))
       = Return (<["daysRemaining" := JNum 31]> doc')
       /\ doc' !! "endDate"
          = Some (JDate (Some (mar15 + 31 * JsDate.msPerDay - 3600000))))
  /\ (exists doc',
       fst (cancelSubscriptionAtPeriodEnd autumnEnv alice (worldOf monthlyLocal "premium"))
       = Return (<["daysRemaining" := JNum 32]> doc')
       /\ doc' !! "endDate"
          = Some (JDate (Some (oct15 + 31 * JsDate.msPerDay + 3600000)))).
Proof.
  split; [|split].
  - destruct (cancel_without_remote_subscription goneEnv alice
                (worldOf monthlyLocal "premium") monthlyLocal 0
                eq_refl (fun _ => eq_refl) (lookup_singleton_eq _ _) eq_refl eq_refl
                eq_refl utc_steady (proj1 (sample_clock_in_range 0 ltac:(lia))))
      as (d & t & doc' & _ & _ & _ & Hr & _ & Hsub & He & _).
    assert (Hc : field (subscriptions (snd (cancelSubscriptionAtPeriodEnd goneEnv alice
                   (worldOf monthlyLocal "premium")))) alice "endDate"
                 = Some (JDate (Some (jan15 + 31 * JsDate.msPerDay))))
      by (vm_compute; reflexivity).
    rewrite Hsub, field_stored, He in Hc. injection Hc as Hc.
    exists doc'. rewrite Hc in Hr, He. split; [exact Hr|exact He].
  - destruct (cancel_without_remote_subscription goneParisEnv alice
                (worldOf monthlyLocal "premium") monthlyLocal 3600000
                eq_refl (fun _ => eq_refl) (lookup_singleton_eq _ _) eq_refl eq_refl
                eq_refl paris_drift (proj2 (sample_clock_in_range 3600000 ltac:(lia))))
      as (d & t & doc' & _ & _ & _ & Hr & _ & Hsub & He & _).
    assert (Hc : field (subscriptions (snd (cancelSubscriptionAtPeriodEnd goneParisEnv
                   alice (worldOf monthlyLocal "premium")))) alice "endDate"
                 = Some (JDate (Some (mar15 + 31 * JsDate.msPerDay - 3600000))))
      by (vm_compute; reflexivity).
    rewrite Hsub, field_stored, He in Hc. injection Hc as Hc.
    exists doc'. rewrite Hc in Hr, He. split; [exact Hr|exact He].
  - destruct (cancel_without_remote_subscription autumnEnv alice
                (worldOf monthlyLocal "premium") monthlyLocal 3600000
                eq_refl (fun _ => eq_refl) (lookup_singleton_eq _ _) eq_refl eq_refl
                eq_refl paris_drift oct15_in_range)
      as (d & t & doc' & _ & _ & _ & Hr & _ & Hsub & He & _).
    assert (Hc : field (subscriptions (snd (cancelSubscriptionAtPeriodEnd autumnEnv
                   alice (worldOf monthlyLocal "premium")))) alice "endDate"
                 = Some (JDate (Some (oct15 + 31 * JsDate.msPerDay + 3600000))))
      by (vm_compute; reflexivity).
    rewrite Hsub, field_stored, He in Hc. injection Hc as Hc.
    exists doc'. rewrite Hc in Hr, He. split; [exact Hr|exact He].
Defined.

(** X12.  A cancellation that succeeded is refused when it is asked for
    again: the second call throws the "already scheduled" message, which
    names the end date the first call stored, and changes nothing. *)
Theorem cancel_is_refused_the_second_time env uid w :
  validObjectId env uid = true ->
  (forall op, storeFault env op = None) ->
  let r := cancelSubscriptionAtPeriodEnd env uid w in
  isThrow (fst r) = false ->
  exists t,
    field (subscriptions (snd r)) uid "endDate" = Some (JDate (Some t))
    /\ cancelSubscriptionAtPeriodEnd env uid (snd r)
       = (Throw (Error (msgAlreadyScheduled
                          (JsDate.toLocaleDateString_frFR (tza env) (Some t)))),
          snd r).
Proof.
  intros Hvalid Hfault. cbv zeta. intros Hok.
  destruct (cancel_success env uid w Hvalid (Hfault SubscriptionFind) Hok)
    as (doc & t & w1 & Hdoc & Hs & Ha & Hfind & Hdate & Hsub & Husers).
  assert (Hdoc1 : subscriptions w1 !! uid = Some doc) by (by rewrite Hsub).
  destruct (cancel_persists env uid w doc w1 t Hvalid (Hfault SubscriptionUpdate)
              Hfind Hdate Hdoc1) as (doc' & _ & Hstored & _ & _ & Hs' & Ha' & He' & Hc').
  exists t. rewrite Hstored, field_stored. split; [exact He'|].
  apply cancel_stops_when_nothing_found.
  rewrite (findCancellable_run env uid _ Hvalid (Hfault SubscriptionFind)).
  rewrite Hstored, lookup_insert_eq.
  unfold activeRecord, scheduledRecord. cbn [forallb satisfies].
  rewrite (strictEq_false (doc' !! "status") (JStr "active")) by (rewrite Hs'; discriminate).
  rewrite (strictEq_true _ _ Hs'), (strictEq_true _ _ Ha').
  rewrite (strictEq_false (doc' !! "cancelationType") (JStr "immediate"))
    by (rewrite Hc'; discriminate).
  cbn [andb negb]. unfold endDateFormatted. rewrite He'. reflexivity.
Qed.

Lemma cancel_is_refused_the_second_time_witness :
  exists t,
    field (subscriptions (snd (cancelSubscriptionAtPeriodEnd goneEnv alice
                                 (worldOf monthlyLocal "premium")))) alice "endDate"
    = Some (JDate (Some t))
    /\ fst (cancelSubscriptionAtPeriodEnd goneEnv alice
              (snd (cancelSubscriptionAtPeriodEnd goneEnv alice
                      (worldOf monthlyLocal "premium"))))
       = Throw (Error (msgAlreadyScheduled
                         (JsDate.toLocaleDateString_frFR (tza goneEnv) (Some t)))).
Proof.
  destruct (cancel_is_refused_the_second_time goneEnv alice
              (worldOf monthlyLocal "premium")) as (t & He & Hr).
  - reflexivity.
  - reflexivity.
  - vm_compute. reflexivity.
  - exists t. split; [exact He|]. by rewrite Hr.
Defined.

Lemma sent_absent env (data set : Obj) k :
  castUpdate env SubscriptionSchema (sentUpdate env data) = Return set ->
  (data !! k = None /\ k <> "updatedAt") \/ pathType SubscriptionSchema k = None ->
  set !! k = None.
Proof.
  intros Hc [[Hk Hne]|Hp].
  - apply (castUpdate_absent env SubscriptionSchema (sentUpdate env data)); [done|].
    by apply sentUpdate_absent.
  - pose proof (castUpdate_lookup env SubscriptionSchema _ set k Hc) as Hl.
    by rewrite Hp in Hl.
Qed.

Lemma updateSubscription_field_outside env uid (data : Obj) w doc k :
  subscriptions w !! uid = Some doc ->
  (data !! k = None /\ k <> "updatedAt") \/ pathType SubscriptionSchema k = None ->
  field (subscriptions (snd (updateSubscription env uid data w))) uid k = doc !! k.
Proof.
  intros Hdoc Hk.
  destruct (updateSubscription_subscriptions env uid data w) as [->|(set & Hc & ->)].
  - unfold field. by rewrite Hdoc.
  - rewrite field_stored, Hdoc. apply lookup_union_absent.
    by apply (sent_absent env data).
Qed.

Lemma reactivateSubscription_run env uid w :
  reactivateSubscription env uid w =
    match Subscription_findOne env uid reactivableRecord w with
    | (Throw e, w0) => (Throw e, w0)
    | (Return None, w0) => (Throw (Error msgNothingReactivable), w0)
    | (Return (Some doc), w0) =>
        match remoteId doc with
        | Some id =>
            match stripe_update env id (clearCancellation env) with
            | Return _ =>
                updateSubscription env uid reactivation
                  (logged w0 (CallStripeUpdate id (clearCancellation env)))
            | Throw e =>
                (Throw (Error ("Échec réactivation Stripe: " +:+ message e)),
                 logged w0 (CallStripeUpdate id (clearCancellation env)))
            end
        | None => updateSubscription env uid reactivation w0
        end
    end.
Proof.
  unfold reactivateSubscription. unfold bind at 1.
  destruct (Subscription_findOne env uid reactivableRecord w) as [[[doc|]|e] w0];
    [|reflexivity..].
  destruct (remoteId doc) as [id|]; [|reflexivity].
  unfold bind at 1. unfold try_catch. unfold bind at 1.
  rewrite stripe_subscriptions_update_run.
  by destruct (stripe_update env id (clearCancellation env)).
Qed.

Lemma reactivation_outside k :
  k ∉ ["status"; "isActive"; "cancelationType"; "updatedAt"] ->
  (reactivation !! k = None /\ k <> "updatedAt") \/ pathType SubscriptionSchema k = None.
Proof.
  rewrite !not_elem_of_cons. intros (H1 & H2 & H3 & H4 & _).
  destruct (decide (k = "updateUserRole")) as [->|H5]; [by right|].
  left. split; [|done]. apply not_elem_of_list_to_map_1. cbn [fmap list_fmap fst].
  rewrite !not_elem_of_cons. split_and!; try done. apply not_elem_of_nil.
Qed.

(** X13.  Whatever its outcome, [reactivateSubscription] changes in the
    record of [userId] no path other than [status], [isActive],
    [cancelationType] and [updatedAt] (so [endDate] and [plan] stay as
    they were), in the user of [userId] nothing but [role] and
    [updatedAt], and nothing in the records and users of other ids. *)
Theorem reactivateSubscription_touches_three_paths env uid w :
  let w' := snd (reactivateSubscription env uid w) in
  (forall uid', uid' <> uid ->
      subscriptions w' !! uid' = subscriptions w !! uid'
      /\ users w' !! uid' = users w !! uid')
  /\ (forall k, k ∉ ["status"; "isActive"; "cancelationType"; "updatedAt"] ->
      field (subscriptions w') uid k = field (subscriptions w) uid k)
  /\ (forall k, k <> "role" -> k <> "updatedAt" ->
      field (users w') uid k = field (users w) uid k).
Proof.
  cbv zeta. rewrite reactivateSubscription_run.
  pose proof (Subscription_findOne_run env uid reactivableRecord w) as Hfind.
  assert (Hcases :
    fst (Subscription_findOne env uid reactivableRecord w) = Return None
    \/ isThrow (fst (Subscription_findOne env uid reactivableRecord w)) = true
    \/ exists doc, subscriptions w !! uid = Some doc
         /\ fst (Subscription_findOne env uid reactivableRecord w) = Return (Some doc)).
  { rewrite Hfind. destruct (validObjectId env uid); [|by right; left].
    destruct (storeFault env SubscriptionFind); [by right; left|]. cbn [fst].
    destruct (subscriptions w !! uid) as [doc|]; [|by left].
    destruct (forallb (satisfies doc) reactivableRecord); [|by left].
    right; right. by exists doc. }
  pose proof (keeps_Subscription_findOne (fun w => w) env uid reactivableRecord w) as Hw.
  cbn beta in Hw.
  destruct (Subscription_findOne env uid reactivableRecord w) as [[[doc|]|e] w0];
    cbn [fst snd] in *; subst w0; try done.
  destruct Hcases as [?|[?|(doc0 & Hdoc & [= <-])]]; try done.
  assert (Hupd : forall c,
    let w' := snd (updateSubscription env uid reactivation (logged w c)) in
    (forall uid', uid' <> uid ->
        subscriptions w' !! uid' = subscriptions w !! uid'
        /\ users w' !! uid' = users w !! uid')
    /\ (forall k, k ∉ ["status"; "isActive"; "cancelationType"; "updatedAt"] ->
        field (subscriptions w') uid k = field (subscriptions w) uid k)
    /\ (forall k, k <> "role" -> k <> "updatedAt" ->
        field (users w') uid k = field (users w) uid k)).
  { intros c. cbv zeta.
    pose proof (updateSubscription_users_cases env uid reactivation (logged w c)) as Hu.
    cbn [users logged] in Hu. split_and!.
    - intros uid' Hne. split.
      + by rewrite updateSubscription_other_records.
      + destruct Hu as [->|[role ->]]; [done|]. by apply withRole_other.
    - intros k Hk. rewrite (updateSubscription_field_outside env uid _ _ doc).
      + unfold field. by rewrite Hdoc.
      + done.
      + by apply reactivation_outside.
    - intros k H1 H2. destruct Hu as [->|[role ->]]; [done|]. by apply withRole_field. }
  destruct (remoteId doc) as [id|].
  - destruct (stripe_update env id (clearCancellation env)); [apply Hupd|done].
  - pose proof (updateSubscription_users_cases env uid reactivation w) as Hu.
    split_and!.
    + intros uid' Hne. split.
      * by rewrite updateSubscription_other_records.
      * destruct Hu as [->|[role ->]]; [done|]. by apply withRole_other.
    + intros k Hk. rewrite (updateSubscription_field_outside env uid _ _ doc).
      * unfold field. by rewrite Hdoc.
      * done.
      * by apply reactivation_outside.
    + intros k H1 H2. destruct Hu as [->|[role ->]]; [done|]. by apply withRole_field.
Qed.

Lemma cancellation_outside endDate k :
  k ∉ ["endDate"; "status"; "isActive"; "cancelationType"; "updatedAt"] ->
  (cancellation endDate !! k = None /\ k <> "updatedAt")
  \/ pathType SubscriptionSchema k = None.
Proof.
  rewrite !not_elem_of_cons. intros (H1 & H2 & H3 & H4 & H5 & _).
  destruct (decide (k = "updateUserRole")) as [->|H6]; [by right|].
  left. split; [|done]. unfold cancellation. apply setDefined_absent; [done|].
  apply not_elem_of_list_to_map_1. cbn [fmap list_fmap fst].
  rewrite !not_elem_of_cons. split_and!; try done. apply not_elem_of_nil.
Qed.

(** The world a cancellation that succeeded leaves. *)
Lemma cancel_success_stored env uid w :
  validObjectId env uid = true ->
  (forall op, storeFault env op = None) ->
  isThrow (fst (cancelSubscriptionAtPeriodEnd env uid w)) = false ->
  exists doc doc' t,
    subscriptions w !! uid = Some doc
    /\ doc !! "status" = Some (JStr "active")
    /\ doc !! "isActive" = Some (JBool true)
    /\ subscriptions (snd (cancelSubscriptionAtPeriodEnd env uid w))
       = <[uid := doc']> (subscriptions w)
    /\ users (snd (cancelSubscriptionAtPeriodEnd env uid w)) = users w
    /\ doc' !! "status" = Some (JStr "canceled")
    /\ doc' !! "isActive" = Some (JBool true)
    /\ doc' !! "endDate" = Some (JDate (Some t))
    /\ doc' !! "cancelationType" = Some (JStr "end_of_period")
    /\ (forall k, k ∉ ["endDate"; "status"; "isActive"; "cancelationType"; "updatedAt"] ->
          doc' !! k = doc !! k).
Proof.
  intros Hvalid Hfault Hok.
  destruct (cancel_success env uid w Hvalid (Hfault SubscriptionFind) Hok)
    as (doc & t & w1 & Hdoc & Hs & Ha & Hfind & Hdate & Hsub & Husers).
  assert (Hdoc1 : subscriptions w1 !! uid = Some doc) by (by rewrite Hsub).
  destruct (cast_cancellation env t) as (set & Hcast & Hs' & Ha' & He' & Hc').
  pose proof (updateSubscription_existing env uid _ w1 doc set Hvalid
                (roleChange_cancellation (Some (JDate (Some t))))
                (Hfault SubscriptionUpdate) Hdoc1 Hcast) as Hupd.
  assert (Hworld : snd (cancelSubscriptionAtPeriodEnd env uid w)
                   = snd (updateSubscription env uid
                            (cancellation (Some (JDate (Some t)))) w1)).
  { rewrite cancelSubscriptionAtPeriodEnd_run, Hfind, Hdate.
    cbn [lacksValidDate truthy negb JsDate.isNaN_getTime].
    by destruct (updateSubscription env uid _ w1) as [[]]. }
  exists doc, (set ∪ doc), t. rewrite Hworld, Hupd.
  cbn [snd subscriptions users stored logged]. rewrite Hsub, Husers.
  split; [exact Hdoc|]. split; [exact Hs|]. split; [exact Ha|].
  split; [reflexivity|]. split; [reflexivity|].
  split; [apply lookup_union_Some_l; exact Hs'|].
  split; [apply lookup_union_Some_l; exact Ha'|].
  split; [apply lookup_union_Some_l; exact He'|].
  split; [apply lookup_union_Some_l; exact Hc'|].
  intros k Hk. apply lookup_union_absent.
  apply (sent_absent env (cancellation (Some (JDate (Some t))))); [done|].
  by apply cancellation_outside.
Qed.

(** X14.  Reactivating right after a cancellation that succeeded undoes
    it (the gateway accepting the update where the record has a remote
    id): the record is active again with [cancelationType] null, every
    path other than [endDate], [cancelationType] and [updatedAt] is as it
    was before the cancellation, [endDate] remains the date the
    cancellation stored, and the user's role is set to "premium". *)
Theorem reactivation_undoes_cancellation env uid w :
  validObjectId env uid = true ->
  (forall op, storeFault env op = None) ->
  (forall id, isThrow (stripe_update env id (clearCancellation env)) = false) ->
  let r := cancelSubscriptionAtPeriodEnd env uid w in
  let r2 := reactivateSubscription env uid (snd r) in
  isThrow (fst r) = false ->
  isThrow (fst r2) = false
  /\ (forall k, k ∉ ["endDate"; "cancelationType"; "updatedAt"] ->
        field (subscriptions (snd r2)) uid k = field (subscriptions w) uid k)
  /\ field (subscriptions (snd r2)) uid "endDate"
     = field (subscriptions (snd r)) uid "endDate"
  /\ field (subscriptions (snd r2)) uid "cancelationType" = Some JNull
  /\ users (snd r2) = withRole env uid "premium" (users w).
Proof.
  intros Hvalid Hfault Hgateway. cbv zeta. intros Hok.
  destruct (cancel_success_stored env uid w Hvalid Hfault Hok)
    as (doc & doc' & t & Hdoc & Hs & Ha & Hsub & Husers & Hs' & Ha' & He' & Hc' & Hkept).
  set (w1 := snd (cancelSubscriptionAtPeriodEnd env uid w)) in *.
  assert (Hdoc' : subscriptions w1 !! uid = Some doc')
    by (rewrite Hsub; apply lookup_insert_eq).
  assert (Hreact : forallb (satisfies doc') reactivableRecord = true)
    by (by apply reactivable_fields).
  destruct (cast_reactivation env) as (set & Hcast & Rs & Ra & Rc).
  assert (Hupd : forall w2,
    subscriptions w2 = subscriptions w1 -> users w2 = users w1 ->
    let r2 := updateSubscription env uid reactivation w2 in
    fst r2 = Return (set ∪ doc')
    /\ subscriptions (snd r2) = <[uid := set ∪ doc']> (subscriptions w1)
    /\ users (snd r2) = withRole env uid "premium" (users w)).
  { intros w2 H1 H2.
    pose proof (updateSubscription_existing_role env uid reactivation w2 doc' set "premium"
                  Hvalid roleChange_reactivation (Hfault UserUpdate)
                  (Hfault SubscriptionUpdate)) as Hrole.
    rewrite H1, H2, Husers in Hrole. by apply Hrole. }
  assert (Hrun : exists w2,
    subscriptions w2 = subscriptions w1 /\ users w2 = users w1
    /\ reactivateSubscription env uid w1 = updateSubscription env uid reactivation w2).
  { rewrite (reactivateSubscription_found env uid w1 doc' Hvalid
               (Hfault SubscriptionFind) Hdoc' Hreact).
    destruct (remoteId doc') as [id|].
    - specialize (Hgateway id).
      destruct (stripe_update env id (clearCancellation env)) as [s|e];
        [|discriminate Hgateway].
      exists (logged w1 (CallStripeUpdate id (clearCancellation env))).
      split; [reflexivity|]. split; reflexivity.
    - exists w1. split; [reflexivity|]. split; reflexivity. }
  destruct Hrun as (w2 & H1 & H2 & ->).
  destruct (Hupd w2 H1 H2) as (Hret & Hstored & Hrole).
  rewrite Hret, Hstored, Hrole, Hsub.
  assert (Hnil : forall k : string, k ∉ @nil string) by (intros k; apply not_elem_of_nil).
  split; [reflexivity|]. split; [|split; [|split; [|reflexivity]]].
  - intros k Hk. rewrite field_stored. unfold field. rewrite Hdoc. cbn [mbind option_bind].
    rewrite !not_elem_of_cons in Hk. destruct Hk as (K1 & K2 & K3 & _).
    destruct (decide (k = "status")) as [->|K4].
    { rewrite Hs. apply lookup_union_Some_l. exact Rs. }
    destruct (decide (k = "isActive")) as [->|K5].
    { rewrite Ha. apply lookup_union_Some_l. exact Ra. }
    rewrite lookup_union_absent.
    + apply Hkept. rewrite !not_elem_of_cons. auto 10.
    + apply (sent_absent env reactivation); [exact Hcast|]. apply reactivation_outside.
      rewrite !not_elem_of_cons. auto 10.
  - rewrite !field_stored. apply lookup_union_absent.
    apply (sent_absent env reactivation); [exact Hcast|]. left. split; [reflexivity|discriminate].
  - rewrite field_stored. apply lookup_union_Some_l. exact Rc.
Qed.

Lemma reactivation_undoes_cancellation_witness :
  let r := cancelSubscriptionAtPeriodEnd (remoteEnv false 1707991200) alice
             (worldOf monthlyRemote "premium") in
  let r2 := reactivateSubscription (remoteEnv false 1707991200) alice (snd r) in
  isThrow (fst r2) = false
  /\ field (subscriptions (snd r2)) alice "status" = Some (JStr "active")
  /\ field (subscriptions (snd r2)) alice "endDate" = Some (JDate (Some 1707991200000)).
Proof.
  destruct (reactivation_undoes_cancellation (remoteEnv false 1707991200) alice
              (worldOf monthlyRemote "premium")) as (H1 & H2 & H3 & _).
  - reflexivity.
  - reflexivity.
  - intros id. reflexivity.
  - vm_compute. reflexivity.
  - split_and!.
    + exact H1.
    + rewrite H2.
      * reflexivity.
      * rewrite !not_elem_of_cons.
        split; [discriminate|]. split; [discriminate|]. split; [discriminate|].
        apply not_elem_of_nil.
    + rewrite H3. reflexivity.
Defined.

(** *** services/subscriptionIntegrationService.js: [changePlan] *)

Lemma changeRemotely_run env id oldPlan target w :
  changeRemotely env id oldPlan target w =
    match priceIdFor env target with
    | Some price =>
        if String.eqb price "" then
          (Throw (Error ("Price ID non défini pour le plan " +:+ target)), w)
        else
          let w1 := logged w (CallStripeRetrieve id) in
          match stripe_retrieve env id with
          | Throw e => (Throw e, w1)
          | Return current =>
              match items_data current with
              | [] => (Throw (Error "Cannot read properties of undefined (reading 'id')"), w1)
              | item :: _ =>
                  let w2 := logged w1 (CallStripeUpdate id
                                         (swapPrice env item price oldPlan target)) in
                  match stripe_update env id (swapPrice env item price oldPlan target) with
                  | Throw e => (Throw e, w2)
                  | Return _ =>
                      (Return (periodAhead env target, proration oldPlan target), w2)
                  end
              end
          end
    | None => (Throw (Error ("Price ID non défini pour le plan " +:+ target)), w)
    end.
Proof.
  unfold changeRemotely, priceIdFor. cbv zeta.
  destruct (if String.eqb target "annual" then STRIPE_PRICE_ANNUAL_ID env
            else STRIPE_PRICE_MONTHLY_ID env) as [price|]; [|reflexivity].
  destruct (String.eqb price ""); [reflexivity|].
  unfold bind at 1. rewrite stripe_subscriptions_retrieve_run.
  destruct (stripe_retrieve env id) as [current|e]; [|reflexivity].
  destruct (items_data current) as [|item rest]; [reflexivity|].
  unfold bind. rewrite stripe_subscriptions_update_run.
  by destruct (stripe_update env id _).
Qed.

Lemma determineChange_remote env doc id target w :
  remoteId doc = Some id ->
  determineChange env doc target w =
    match changeRemotely env id (doc !! "plan") target w with
    | (Return change, w1) => (Return change, w1)
    | (Throw e, w1) =>
        (Throw (Error ("Échec changement de plan Stripe: " +:+ message e)), w1)
    end.
Proof.
  intros Hid. unfold determineChange. rewrite Hid. unfold try_catch.
  by destruct (changeRemotely env id (doc !! "plan") target w) as [[]].
Qed.

Lemma changePlan_not_found env uid target w :
  validObjectId env uid = true ->
  storeFault env SubscriptionFind = None ->
  match subscriptions w !! uid with
  | Some doc => forallb (satisfies doc) activeRecord = false
  | None => True
  end ->
  changePlan env uid target w
  = (Throw (Error "Aucun abonnement actif trouvé pour changer le plan."), w).
Proof.
  intros Hvalid Hfault Hnone. unfold changePlan. unfold bind at 1.
  rewrite Subscription_findOne_run, Hvalid, Hfault.
  destruct (subscriptions w !! uid) as [doc|]; [|reflexivity].
  by rewrite Hnone.
Qed.

(** X15.  [changePlan] refuses, before it has called the gateway or
    written anything, when the user has no active record and when the
    record has a remote id but no price id is configured for the new
    plan; each refusal has its own message. *)
Theorem changePlan_refuses_without_effect env uid target w :
  validObjectId env uid = true ->
  storeFault env SubscriptionFind = None ->
  (match subscriptions w !! uid with
   | Some doc => forallb (satisfies doc) activeRecord = false
   | None => True
   end ->
   changePlan env uid target w
   = (Throw (Error "Aucun abonnement actif trouvé pour changer le plan."), w))
  /\ (forall doc id,
      subscriptions w !! uid = Some doc ->
      doc !! "status" = Some (JStr "active") ->
      doc !! "isActive" = Some (JBool true) ->
      doc !! "plan" <> Some (JStr target) ->
      remoteId doc = Some id ->
      priceIdFor env target = None \/ priceIdFor env target = Some "" ->
      changePlan env uid target w
      = (Throw (Error ("Échec changement de plan Stripe: Price ID non défini pour le plan "
                         +:+ target)), w)).
Proof.
  intros Hvalid Hfault. split.
  - by apply changePlan_not_found.
  - intros doc id Hdoc Hs Ha Hplan Hid Hprice.
    rewrite (changePlan_found env uid target w doc Hvalid Hfault Hdoc Hs Ha).
    rewrite (strictEq_false _ _ Hplan).
    rewrite (determineChange_remote env doc id target w Hid), changeRemotely_run.
    by destruct Hprice as [-> | ->].
Qed.

Lemma changePlan_refuses_without_effect_witness :
  changePlan goneEnv alice "annual" emptyWorld
  = (Throw (Error "Aucun abonnement actif trouvé pour changer le plan."), emptyWorld).
Proof.
  destruct (changePlan_refuses_without_effect goneEnv alice "annual" emptyWorld
              eq_refl eq_refl) as (H & _).
  apply H. exact I.
Defined.

Lemma cast_planUpdate_any env target (date : JsDate.Date) :
  exists set,
    castUpdate env SubscriptionSchema (sentUpdate env (planUpdate target date)) = Return set.
Proof.
  destruct date as [t|].
  - destruct (cast_planUpdate env target t) as (set & Hcast & _). by exists set.
  - assert (H : isThrow (castUpdate env SubscriptionSchema
                           (sentUpdate env (planUpdate target None))) = false)
      by (vm_compute; reflexivity).
    destruct (castUpdate env SubscriptionSchema _) as [set|e]; [|discriminate].
    by exists set.
Qed.

Lemma updateSubscription_store_fault env uid (data : Obj) w e set :
  validObjectId env uid = true ->
  roleChange data = None ->
  castUpdate env SubscriptionSchema (sentUpdate env data) = Return set ->
  storeFault env SubscriptionUpdate = Some e ->
  updateSubscription env uid data w
  = (Throw e, logged w (CallSubscriptionUpdate uid
                          (<["updatedAt" := JDate (newDate env)]> (checkEndDate env data)))).
Proof.
  intros Hvalid Hrole Hcast Hfault.
  rewrite updateSubscription_run, Hvalid. unfold afterRole.
  rewrite roleChange_checkEndDate, Hrole. cbv beta iota.
  rewrite Subscription_findOneAndUpdate_run, Hvalid, stamped_sent. cbv zeta.
  fold (sentUpdate env data). by rewrite Hcast, Hfault.
Qed.

(** X16.  A plan change on a record with a remote id is not atomic.  A
    gateway failure (the retrieve fails, the remote subscription has no
    item, or the update fails) is reported with the prefix "Échec
    changement de plan Stripe: " and leaves both collections as they
    were.  A store failure after the gateway has accepted the new price is
    reported as "Erreur sauvegarde changement plan: ...": the local record
    keeps the old plan although the retrieve and the price swap have been
    issued. *)
Theorem changePlan_is_not_atomic env uid target w doc id price :
  validObjectId env uid = true ->
  storeFault env SubscriptionFind = None ->
  subscriptions w !! uid = Some doc ->
  doc !! "status" = Some (JStr "active") ->
  doc !! "isActive" = Some (JBool true) ->
  doc !! "plan" <> Some (JStr target) ->
  remoteId doc = Some id ->
  priceIdFor env target = Some price -> price <> "" ->
  let r := changePlan env uid target w in
  (forall e, stripe_retrieve env id = Throw e ->
      r = (Throw (Error ("Échec changement de plan Stripe: " +:+ message e)),
           logged w (CallStripeRetrieve id)))
  /\ (forall current,
      stripe_retrieve env id = Return current -> items_data current = [] ->
      r = (Throw (Error ("Échec changement de plan Stripe: "
                           +:+ "Cannot read properties of undefined (reading 'id')")),
           logged w (CallStripeRetrieve id)))
  /\ (forall current item rest e,
      stripe_retrieve env id = Return current -> items_data current = item :: rest ->
      stripe_update env id (swapPrice env item price (doc !! "plan") target) = Throw e ->
      r = (Throw (Error ("Échec changement de plan Stripe: " +:+ message e)),
           logged (logged w (CallStripeRetrieve id))
             (CallStripeUpdate id (swapPrice env item price (doc !! "plan") target))))
  /\ (forall current item rest updated e,
      stripe_retrieve env id = Return current -> items_data current = item :: rest ->
      stripe_update env id (swapPrice env item price (doc !! "plan") target)
      = Return updated ->
      Z.abs (clock env) + 366 * JsDate.msPerDay <= JsDate.maxTime ->
      storeFault env SubscriptionUpdate = Some e ->
      fst r = Throw (Error ("Erreur sauvegarde changement plan: " +:+ message e))
      /\ subscriptions (snd r) = subscriptions w
      /\ users (snd r) = users w
      /\ List.filter isStripeCall (calls (snd r))
         = (List.filter isStripeCall (calls w)
            ++ [ CallStripeRetrieve id;
                 CallStripeUpdate id
                   (swapPrice env item price (doc !! "plan") target) ])%list).
Proof.
  intros Hvalid Hfault Hdoc Hs Ha Hplan Hid Hprice Hne. cbv zeta.
  assert (Hne' : String.eqb price "" = false) by (by apply String.eqb_neq).
  rewrite (changePlan_found env uid target w doc Hvalid Hfault Hdoc Hs Ha).
  rewrite (strictEq_false _ _ Hplan).
  rewrite (determineChange_remote env doc id target w Hid), changeRemotely_run.
  rewrite Hprice, Hne'. cbv zeta. split_and!.
  - intros e ->. reflexivity.
  - intros current -> ->. reflexivity.
  - intros current item rest e -> -> ->. reflexivity.
  - intros current item rest updated e -> -> -> Hclock Hstore. cbn [fst].
    destruct (cast_planUpdate_any env target (periodAhead env target)) as (set & Hcast).
    rewrite (updateSubscription_store_fault env uid _ _ e set Hvalid
               (roleChange_planUpdate _ _) Hcast Hstore).
    cbn [fst snd subscriptions users calls logged].
    split; [reflexivity|]. split; [reflexivity|]. split; [reflexivity|].
    rewrite !List.filter_app. cbn. rewrite app_nil_r. by rewrite <- app_assoc.
Qed.

Lemma changePlan_is_not_atomic_witness :
  let env := sampleEnv (fun id => Return (mkStripeSub id false (Some 1707991200) ["si_1"]))
               (fun id _ => Return (mkStripeSub id false (Some 1707991200) ["si_1"]))
               brokenStore in
  let r := changePlan env alice "annual" (worldOf monthlyRemote "premium") in
  fst r = Throw (Error "Erreur sauvegarde changement plan: connection lost")
  /\ subscriptions (snd r) = subscriptions (worldOf monthlyRemote "premium").
Proof.
  cbv zeta.
  destruct (changePlan_is_not_atomic
              (sampleEnv (fun id => Return (mkStripeSub id false (Some 1707991200) ["si_1"]))
                 (fun id _ => Return (mkStripeSub id false (Some 1707991200) ["si_1"]))
                 brokenStore)
              alice "annual" (worldOf monthlyRemote "premium") monthlyRemote
              "sub_1" "price_annual") as (_ & _ & _ & H).
  - reflexivity.
  - reflexivity.
  - apply lookup_singleton_eq.
  - reflexivity.
  - reflexivity.
  - discriminate.
  - reflexivity.
  - reflexivity.
  - discriminate.
  - destruct (H (mkStripeSub "sub_1" false (Some 1707991200) ["si_1"]) "si_1" []
                (mkStripeSub "sub_1" false (Some 1707991200) ["si_1"])
                (Error "connection lost") eq_refl eq_refl eq_refl) as (H1 & H2 & _).
    + vm_compute. discriminate.
    + reflexivity.
    + split; [exact H1|exact H2].
Defined.

Lemma proration_to_monthly oldPlan :
  proration oldPlan "monthly"
  = if strictEq oldPlan (JStr "annual") then (99.99 / 12 - 9.99)%float else 0%float.
Proof.
  unfold proration. change (String.eqb "monthly" "annual") with false.
  change (String.eqb "monthly" "monthly") with true.
  by rewrite andb_false_r, andb_true_r.
Qed.

Lemma periodAhead_monthly env b :
  zoneDrift (tza env) b ->
  Z.abs (clock env) + 366 * JsDate.msPerDay + b <= JsDate.maxTime ->
  exists d, 28 <= d <= 31
    /\ Z.abs (daysLater (tza env) (clock env) d - (clock env + d * JsDate.msPerDay)) <= b
    /\ periodAhead env "monthly" = Some (daysLater (tza env) (clock env) d).
Proof.
  intros Hb Hclock.
  destruct (period_from (tza env) false (clock env) b Hb Hclock) as (d & Hd & Hnear & E).
  exists d. split; [exact Hd|]. split; [exact Hnear|]. exact E.
Qed.

(** X17.  A change to the plan "monthly" that succeeds makes the record
    end a month of the local calendar from now (28 to 31 days, which is so
    many times 24 hours but for the change of the zone's offset in
    between), whatever end date it had, and stores the new plan; the
    proration returned is 99.99 / 12 - 9.99 when the record has a remote
    id and was on the plan "annual", and 0 otherwise. *)
Theorem changePlan_to_monthly env uid w doc b :
  validObjectId env uid = true ->
  (forall op, storeFault env op = None) ->
  subscriptions w !! uid = Some doc ->
  doc !! "status" = Some (JStr "active") ->
  doc !! "isActive" = Some (JBool true) ->
  doc !! "plan" <> Some (JStr "monthly") ->
  zoneDrift (tza env) b ->
  Z.abs (clock env) + 366 * JsDate.msPerDay + b <= JsDate.maxTime ->
  let r := changePlan env uid "monthly" w in
  (remoteId doc = None ->
    exists pc d t,
      28 <= d <= 31
      /\ t = daysLater (tza env) (clock env) d
      /\ Z.abs (t - (clock env + d * JsDate.msPerDay)) <= b
      /\ fst r = Return pc
      /\ oldPlan pc = doc !! "plan"
      /\ effectiveDate pc = Some t
      /\ prorationAmount pc = 0%float
      /\ field (subscriptions (snd r)) uid "plan" = Some (JStr "monthly")
      /\ field (subscriptions (snd r)) uid "endDate" = Some (JDate (Some t)))
  /\ (forall id price current item rest updated,
      remoteId doc = Some id ->
      STRIPE_PRICE_MONTHLY_ID env = Some price -> price <> "" ->
      stripe_retrieve env id = Return current ->
      items_data current = item :: rest ->
      stripe_update env id (swapPrice env item price (doc !! "plan") "monthly")
      = Return updated ->
      exists pc d t,
        28 <= d <= 31
        /\ t = daysLater (tza env) (clock env) d
        /\ Z.abs (t - (clock env + d * JsDate.msPerDay)) <= b
        /\ fst r = Return pc
        /\ oldPlan pc = doc !! "plan"
        /\ effectiveDate pc = Some t
        /\ prorationAmount pc
           = (if strictEq (doc !! "plan") (JStr "annual")
              then (99.99 / 12 - 9.99)%float else 0%float)
        /\ field (subscriptions (snd r)) uid "plan" = Some (JStr "monthly")
        /\ field (subscriptions (snd r)) uid "endDate" = Some (JDate (Some t))).
Proof.
  intros Hvalid Hfault Hdoc Hs Ha Hplan Hb Hclock. cbv zeta.
  destruct (periodAhead_monthly env b Hb Hclock) as (d & Hd & Hnear & Hahead).
  set (t := daysLater (tza env) (clock env) d) in *.
  split.
  - intros Hlocal.
    assert (Hchange : determineChange env doc "monthly" w
                      = (Return (Some t, 0%float), w)).
    { unfold determineChange. by rewrite Hlocal, Hahead. }
    destruct (changePlan_persists env uid "monthly" w doc w _ _
                Hvalid Hfault Hdoc Hs Ha Hplan Hchange eq_refl)
      as (pc & Hr & F1 & F2 & F3 & F4 & F5 & F6 & _).
    exists pc, d, t. split; [exact Hd|]. split; [reflexivity|]. split; [exact Hnear|].
    by split_and!.
  - intros id price current item rest updated Hid Hprice Hne Hret Hitems Hupd.
    assert (Hchange : determineChange env doc "monthly" w
                      = (Return (Some t, proration (doc !! "plan") "monthly"),
                         logged (logged w (CallStripeRetrieve id))
                           (CallStripeUpdate id
                              (swapPrice env item price (doc !! "plan") "monthly")))).
    { unfold determineChange. rewrite Hid. unfold try_catch.
      rewrite (changeRemotely_success env id (doc !! "plan") "monthly" w price current
                 item rest updated Hprice Hne Hret Hitems Hupd).
      by rewrite Hahead. }
    destruct (changePlan_persists env uid "monthly" w doc _ _ _
                Hvalid Hfault Hdoc Hs Ha Hplan Hchange eq_refl)
      as (pc & Hr & F1 & F2 & F3 & F4 & F5 & F6 & _).
    exists pc, d, t. rewrite proration_to_monthly in F4.
    split; [exact Hd|]. split; [reflexivity|]. split; [exact Hnear|]. by split_and!.
Qed.

Lemma changePlan_to_monthly_witness :
  (exists pc,
     fst (changePlan (remoteEnv false 1707991200) alice "monthly"
            (worldOf annualRemote "premium")) = Return pc
     /\ effectiveDate pc = Some (jan15 + 31 * JsDate.msPerDay)
     /\ prorationAmount pc = (99.99 / 12 - 9.99)%float)
  /\ (exists pc,
       fst (changePlan remoteParisEnv alice "monthly" (worldOf annualRemote "premium"))
       = Return pc
       /\ effectiveDate pc = Some apr15paris
       /\ apr15paris = mar15 + 31 * JsDate.msPerDay - 3600000
       /\ prorationAmount pc = (99.99 / 12 - 9.99)%float).
Proof.
  split.
  - destruct (changePlan_to_monthly (remoteEnv false 1707991200) alice
                (worldOf annualRemote "premium") annualRemote 0
                eq_refl (fun _ => eq_refl) (lookup_singleton_eq _ _) eq_refl eq_refl
                ltac:(discriminate) utc_steady
                (proj1 (sample_clock_in_range 0 ltac:(lia)))) as (_ & H).
    destruct (H "sub_1" "price_monthly"
                (mkStripeSub "sub_1" false (Some 1707991200) ["si_1"]) "si_1" []
                (mkStripeSub "sub_1" true (Some 1707991200) ["si_1"])
                eq_refl eq_refl ltac:(discriminate) eq_refl eq_refl eq_refl)
      as (pc & d & t & _ & _ & _ & H2 & _ & H3 & H4 & _ & H5).
    assert (Hc : field (subscriptions (snd (changePlan (remoteEnv false 1707991200) alice
                   "monthly" (worldOf annualRemote "premium")))) alice "endDate"
                 = Some (JDate (Some (jan15 + 31 * JsDate.msPerDay))))
      by (vm_compute; reflexivity).
    rewrite H5 in Hc. injection Hc as Hc. rewrite Hc in H3.
    exists pc. split; [exact H2|]. split; [exact H3|exact H4].
  - destruct (changePlan_to_monthly remoteParisEnv alice
                (worldOf annualRemote "premium") annualRemote 3600000
                eq_refl (fun _ => eq_refl) (lookup_singleton_eq _ _) eq_refl eq_refl
                ltac:(discriminate) paris_drift
                (proj2 (sample_clock_in_range 3600000 ltac:(lia)))) as (_ & H).
    destruct (H "sub_1" "price_monthly"
                (mkStripeSub "sub_1" false (Some 1707991200) ["si_1"]) "si_1" []
                (mkStripeSub "sub_1" true (Some 1707991200) ["si_1"])
                eq_refl eq_refl ltac:(discriminate) eq_refl eq_refl eq_refl)
      as (pc & d & t & _ & _ & _ & H2 & _ & H3 & H4 & _ & H5).
    assert (Hc : field (subscriptions (snd (changePlan remoteParisEnv alice
                   "monthly" (worldOf annualRemote "premium")))) alice "endDate"
                 = Some (JDate (Some apr15paris)))
      by (vm_compute; reflexivity).
    rewrite H5 in Hc. injection Hc as Hc. rewrite Hc in H3.
    exists pc. split; [exact H2|]. split; [exact H3|]. split; [reflexivity|exact H4].
Defined.

(** *** services/subscriptionIntegrationService.js: reading *)

Lemma getCurrentSubscription_run env uid w :
  getCurrentSubscription env uid w =
    if validObjectId env uid then
      match storeFault env SubscriptionFind with
      | Some e => (Throw e, w)
      | None =>
          match subscriptions w !! uid with
          | None => (Return None, w)
          | Some doc =>
              if truthy (doc !! "endDate") then
                match match doc !! "endDate" with
                      | Some v => toDate env v
                      | None => None
                      end with
                | Some t =>
                    (Return (Some (<["daysRemaining" :=
                                       JNum (JsDate.daysRemaining t (clock env))]> doc)), w)
                | None => (Return (Some (<["daysRemaining" := JNaN]> doc)), w)
                end
              else (Return (Some doc), w)
          end
      end
    else (Throw (Error "input must be a 24 character hex string"), w).
Proof.
  unfold getCurrentSubscription. unfold bind at 1.
  destruct (validObjectId env uid) eqn:Hvalid; [|reflexivity].
  cbn [ret]. unfold bind at 1. rewrite Subscription_findOne_run, Hvalid.
  destruct (storeFault env SubscriptionFind); [reflexivity|].
  destruct (subscriptions w !! uid) as [doc|]; [|reflexivity].
  cbn [forallb]. by repeat case_match.
Qed.

(** X18.  [getCurrentSubscription] only reads: the world is the same
    after it, whatever it answers.  With a well-formed id and the store
    answering, it answers [null] for a user without a record and otherwise
    the record, to which it adds, when the record has a valid [endDate],
    the days that remain: the whole days from now to [endDate] rounded up,
    and 0 once [endDate] has passed. *)
Theorem getCurrentSubscription_only_reads env uid w :
  snd (getCurrentSubscription env uid w) = w
  /\ (validObjectId env uid = true -> storeFault env SubscriptionFind = None ->
      (subscriptions w !! uid = None ->
         fst (getCurrentSubscription env uid w) = Return None)
      /\ (forall doc, subscriptions w !! uid = Some doc ->
          exists r,
            fst (getCurrentSubscription env uid w) = Return (Some r)
            /\ (forall k, k <> "daysRemaining" -> r !! k = doc !! k)
            /\ (truthy (doc !! "endDate") = false -> r = doc)
            /\ (forall t, doc !! "endDate" = Some (JDate (Some t)) ->
                exists n,
                  r !! "daysRemaining" = Some (JNum n)
                  /\ 0 <= n
                  /\ (n = 0 <-> t <= clock env)
                  /\ (n - 1) * JsDate.msPerDay < Z.max (t - clock env) 0
                     <= n * JsDate.msPerDay))).
Proof.
  rewrite getCurrentSubscription_run. split.
  - by repeat case_match.
  - intros -> ->. split.
    + by intros ->.
    + intros doc ->.
      destruct (truthy (doc !! "endDate")) eqn:Ht.
      * destruct (match doc !! "endDate" with Some v => toDate env v | None => None end)
          as [t0|] eqn:Hd.
        -- eexists. split; [reflexivity|]. split_and!.
           ++ intros k Hk. by rewrite lookup_insert_ne.
           ++ discriminate.
           ++ intros t He. rewrite He in Hd. cbn [toDate] in Hd. injection Hd as <-.
              exists (JsDate.daysRemaining t (clock env)).
              rewrite lookup_insert_eq.
              destruct (daysRemaining_ceil t (clock env)) as (H0 & Hz & Hp).
              unfold JsDate.msPerDay in *. split_and!; try done; lia.
        -- eexists. split; [reflexivity|]. split_and!.
           ++ intros k Hk. by rewrite lookup_insert_ne.
           ++ discriminate.
           ++ intros t He. rewrite He in Hd. discriminate Hd.
      * exists doc. split; [reflexivity|]. split_and!; try done.
        intros t He. rewrite He in Ht. discriminate Ht.
Qed.

(** X19.  What [getCurrentSubscription] answers right after a
    cancellation that succeeded is what the cancellation answered: the
    stored record with the same days remaining. *)
Theorem getCurrentSubscription_after_cancel env uid w :
  validObjectId env uid = true ->
  (forall op, storeFault env op = None) ->
  let r := cancelSubscriptionAtPeriodEnd env uid w in
  isThrow (fst r) = false ->
  exists answer,
    fst r = Return answer
    /\ getCurrentSubscription env uid (snd r) = (Return (Some answer), snd r).
Proof.
  intros Hvalid Hfault. cbv zeta. intros Hok.
  destruct (cancel_success env uid w Hvalid (Hfault SubscriptionFind) Hok)
    as (doc & t & w1 & Hdoc & Hs & Ha & Hfind & Hdate & Hsub & Husers).
  assert (Hdoc1 : subscriptions w1 !! uid = Some doc) by (by rewrite Hsub).
  destruct (cancel_persists env uid w doc w1 t Hvalid (Hfault SubscriptionUpdate)
              Hfind Hdate Hdoc1) as (doc' & Hr & Hstored & _ & _ & _ & _ & He' & _).
  eexists. split; [exact Hr|].
  rewrite getCurrentSubscription_run, Hvalid, (Hfault SubscriptionFind), Hstored.
  rewrite lookup_insert_eq, He'. reflexivity.
Qed.

Lemma getCurrentSubscription_after_cancel_witness :
  exists answer,
    fst (cancelSubscriptionAtPeriodEnd goneEnv alice (worldOf monthlyLocal "premium"))
    = Return answer
    /\ fst (getCurrentSubscription goneEnv alice
              (snd (cancelSubscriptionAtPeriodEnd goneEnv alice
                      (worldOf monthlyLocal "premium")))) = Return (Some answer).
Proof.
  destruct (getCurrentSubscription_after_cancel goneEnv alice
              (worldOf monthlyLocal "premium")) as (answer & H1 & H2).
  - reflexivity.
  - reflexivity.
  - vm_compute. reflexivity.
  - exists answer. split; [exact H1|]. by rewrite H2.
Defined.

(** X20.  [getPlanFromStripePrice] answers one of "annual", "monthly" and
    "premium", the last exactly for an id that is neither of the two
    configured.  It reads back the price id [changePlan] sends for the
    plan "annual"; the one sent for "monthly" it reads back as "monthly"
    only when the two configured ids differ, and as "annual" otherwise
    (as when neither is set). *)
Theorem getPlanFromStripePrice_reads_back env :
  (forall priceId,
      getPlanFromStripePrice env priceId ∈ ["annual"; "monthly"; "premium"]
      /\ (getPlanFromStripePrice env priceId = "premium" <->
          priceId <> STRIPE_PRICE_ANNUAL_ID env
          /\ priceId <> STRIPE_PRICE_MONTHLY_ID env))
  /\ getPlanFromStripePrice env (priceIdFor env "annual") = "annual"
  /\ getPlanFromStripePrice env (priceIdFor env "monthly")
     = (if bool_decide (STRIPE_PRICE_MONTHLY_ID env = STRIPE_PRICE_ANNUAL_ID env)
        then "annual" else "monthly").
Proof.
  unfold getPlanFromStripePrice. split_and!.
  - intros priceId. split.
    + rewrite !elem_of_cons. repeat case_bool_decide; auto.
    + repeat case_bool_decide; split; try done; try tauto.
  - change (priceIdFor env "annual") with (STRIPE_PRICE_ANNUAL_ID env).
    by rewrite bool_decide_eq_true_2.
  - change (priceIdFor env "monthly") with (STRIPE_PRICE_MONTHLY_ID env).
    case_bool_decide; [done|]. by rewrite bool_decide_eq_true_2.
Qed.

(** *** controllers/webhookController.js: the signed endpoint *)

(** X21.  [WebhookController.handleStripeWebhook] never throws.  It
    answers 400 with the text "Webhook Error: ..." exactly when the
    verification of the signature throws, and then no handler runs and
    nothing changes; every verified event is answered 200. *)
Theorem handleStripeWebhook_answers_400_or_200
    (W : Type) (h1 h2 h3 h4 : StripeObject -> M W (option Obj))
    (constructEvent : Request -> Result Event) req (w : W) :
  let r := WebhookController.handleStripeWebhook W h1 h2 h3 h4 constructEvent req w in
  isThrow (fst r) = false
  /\ (forall err, constructEvent req = Throw err ->
      r = (Return (mkResponse 400 (Text ("Webhook Error: " +:+ message err))), w))
  /\ (forall event, constructEvent req = Return event -> statusOf r = Some 200)
  /\ (statusOf r = Some 400 <-> isThrow (constructEvent req) = true).
Proof.
  cbv zeta. unfold WebhookController.handleStripeWebhook.
  destruct (constructEvent req) as [event|err].
  - pose proof (processWebhookEvent_status h1 h2 h3 h4 event w) as Hst.
    split_and!.
    + unfold statusOf in Hst.
      by destruct (fst (WebhookController.processWebhookEvent W h1 h2 h3 h4 event w)).
    + discriminate.
    + by intros ? [= <-].
    + rewrite Hst. split; discriminate.
  - split_and!; try done. by intros ? [= <-].
Qed.

(** *** controllers/webhook.controller.js: the endpoint and its route *)

Lemma legacy_not_verified env this req w :
  (forall event, ~ verified env req event) ->
  statusOf (Webhook_controller.handleStripeWebhook env this req w) = Some 400
  /\ snd (Webhook_controller.handleStripeWebhook env this req w) = w.
Proof.
  intros Hnot. unfold Webhook_controller.handleStripeWebhook.
  destruct (stripe_signature req) as [sig|] eqn:Hsig; [|done].
  destruct (rawBody req) as [raw|] eqn:Hraw; [|done].
  destruct (String.eqb_spec sig "") as [->|Hs]; [done|].
  destruct (String.eqb_spec raw "") as [->|Hr]; [done|]. cbn [orb].
  destruct (Webhook_controller.constructWebhookEvent env raw sig) as [event|e] eqn:Hc;
    [|done].
  exfalso. apply (Hnot event). by exists sig, raw.
Qed.

Lemma verified_dec env req :
  (exists event, verified env req event) \/ (forall event, ~ verified env req event).
Proof.
  destruct (stripe_signature req) as [sig|] eqn:Hsig.
  2:{ right. intros event (s & r & H & _). congruence. }
  destruct (rawBody req) as [raw|] eqn:Hraw.
  2:{ right. intros event (s & r & _ & H & _). congruence. }
  destruct (decide (sig = "")) as [->|Hs].
  { right. intros event (s & r & H & _ & Hne & _). congruence. }
  destruct (decide (raw = "")) as [->|Hr].
  { right. intros event (s & r & _ & H & _ & Hne & _). congruence. }
  destruct (Webhook_controller.constructWebhookEvent env raw sig) as [event|e] eqn:Hc.
  - left. exists event, sig, raw. by split_and!.
  - right. intros event (s & r & H1 & H2 & _ & _ & H3). congruence.
Qed.

(** X22.  The legacy endpoint never throws and answers 200, 400 or 500.
    It answers 400 exactly when the request carries no verified event (no
    signature, no raw body, or a signature that does not verify), and
    then nothing has changed; a verified event is answered 200 when its
    type is not handled or its handler returns, and 500 when its handler
    throws. *)
Theorem legacy_endpoint_statuses env this req w :
  let r := Webhook_controller.handleStripeWebhook env this req w in
  isThrow (fst r) = false
  /\ ((forall event, ~ verified env req event) -> statusOf r = Some 400 /\ snd r = w)
  /\ (forall event, verified env req event ->
      match Webhook_controller.kindOf (event_type event) with
      | None => r = (Return (mkResponse 200 receivedBody), w)
      | Some k =>
          statusOf r
          = Some (if isThrow (fst (Webhook_controller.method env this k
                                     (event_object event) w))
                  then 500 else 200)
          /\ snd r = snd (Webhook_controller.method env this k (event_object event) w)
      end).
Proof.
  cbv zeta. split_and!.
  - destruct (verified_dec env req) as [[event Hv]|Hnot].
    + rewrite (handleStripeWebhook_verified env this req event w Hv).
      destruct (Webhook_controller.kindOf (event_type event)) as [k|]; [|done].
      by destruct (Webhook_controller.method env this k (event_object event) w) as [[]].
    + destruct (legacy_not_verified env this req w Hnot) as [Hst _].
      unfold statusOf in Hst.
      by destruct (fst (Webhook_controller.handleStripeWebhook env this req w)).
  - apply legacy_not_verified.
  - intros event Hv. rewrite (handleStripeWebhook_verified env this req event w Hv).
    destruct (Webhook_controller.kindOf (event_type event)) as [k|]; [|done].
    by destruct (Webhook_controller.method env this k (event_object event) w) as [[]].
Qed.

(** X23.  The route [POST /stripe] registers the method detached from its
    instance.  Called that way, the endpoint answers 500 to every verified
    event whose type it handles, and nothing is stored or sent; only the
    verified events it does not handle are answered 200. *)
Theorem postStripe_fails_on_handled_events env req event w :
  verified env req event ->
  (forall k, Webhook_controller.kindOf (event_type event) = Some k ->
      statusOf (Webhook_controller.postStripe env req w) = Some 500
      /\ snd (Webhook_controller.postStripe env req w) = w)
  /\ (Webhook_controller.kindOf (event_type event) = None ->
      Webhook_controller.postStripe env req w
      = (Return (mkResponse 200 receivedBody), w)).
Proof.
  intros Hv. unfold Webhook_controller.postStripe.
  rewrite (handleStripeWebhook_verified env None req event w Hv). split.
  - by intros k ->.
  - by intros ->.
Qed.

Lemma postStripe_fails_on_handled_events_witness :
  statusOf (Webhook_controller.postStripe (legacyEnv (fun _ => None))
              (signed "customer.subscription.deleted") legacyWorld) = Some 500
  /\ snd (Webhook_controller.postStripe (legacyEnv (fun _ => None))
            (signed "customer.subscription.deleted") legacyWorld) = legacyWorld.
Proof.
  destruct (postStripe_fails_on_handled_events (legacyEnv (fun _ => None))
              (signed "customer.subscription.deleted")
              (mkEvent "customer.subscription.deleted" (mkStripeObject "sub_1" ∅))
              legacyWorld) as (H & _).
  - exists "valid", "customer.subscription.deleted". split_and!; try reflexivity; discriminate.
  - exact (H Webhook_controller.SubscriptionDeleted eq_refl).
Defined.

Lemma notified_outgoing env (doc : Obj) w :
  Webhook_controller.outgoing (notified env doc w)
  = (Webhook_controller.outgoing w
     ++ [ Webhook_controller.PatchUserSubscription (doc !! "userId")
            (setDefined "subscriptionEndDate" (doc !! "currentPeriodEnd")
               {["subscriptionStatus" := JStr "canceled"]});
          Webhook_controller.GetUserById (doc !! "userId") ]
     ++ match Webhook_controller.getUser env (doc !! "userId") with
        | Return user => [Webhook_controller.SendEmail (user !! "email") "Fin d'abonnement"]
        | Throw _ => []
        end)%list.
Proof.
  unfold notified, Webhook_controller.userService_updateUserSubscription,
    Webhook_controller.userService_getUserById, Webhook_controller.emailService_sendEmail,
    Webhook_controller.send, Webhook_controller.attempt, bind, modify, ret, throw.
  cbn [fst snd].
  destruct (Webhook_controller.fault env Webhook_controller.OpPatchUser);
    cbn [fst snd Webhook_controller.outgoing Webhook_controller.subscriptions];
    destruct (Webhook_controller.getUser env (doc !! "userId")) as [user|e];
    cbn [fst snd Webhook_controller.outgoing Webhook_controller.subscriptions];
    try destruct (Webhook_controller.fault env Webhook_controller.OpSendEmail);
    cbn [fst snd Webhook_controller.outgoing Webhook_controller.subscriptions];
    by rewrite <- ?app_assoc.
Qed.

Lemma lacks_canceledNow env (existing : Obj) :
  existsb (Webhook_controller.lacks (canceledNow env existing))
    Webhook_controller.requiredPaths
  = existsb (Webhook_controller.lacks existing) Webhook_controller.requiredPaths.
Proof.
  unfold Webhook_controller.requiredPaths, Webhook_controller.lacks, canceledNow.
  cbn [existsb]. by rewrite !lookup_insert_ne by discriminate.
Qed.

Lemma written_fields env (existing : Obj) :
  written env existing !! "status" = Some (JStr "canceled")
  /\ written env existing !! "canceledAt"
     = Some (JDate (Some (Webhook_controller.clock env)))
  /\ (existing !! "status" <> Some (JStr "canceled")
      \/ existing !! "canceledAt" <> Some (JDate (Some (Webhook_controller.clock env))) ->
      written env existing !! "updatedAt"
      = Some (JDate (Some (Webhook_controller.clock env))))
  /\ (forall k, k <> "status" -> k <> "canceledAt" -> k <> "updatedAt" ->
        written env existing !! k = existing !! k).
Proof.
  unfold written.
  assert (Hs : canceledNow env existing !! "status" = Some (JStr "canceled"))
    by (unfold canceledNow; rewrite lookup_insert_ne by done; apply lookup_insert_eq).
  assert (Hc : canceledNow env existing !! "canceledAt"
               = Some (JDate (Some (Webhook_controller.clock env))))
    by (unfold canceledNow; apply lookup_insert_eq).
  assert (Hk : forall k, k <> "status" -> k <> "canceledAt" ->
                 canceledNow env existing !! k = existing !! k)
    by (intros k H1 H2; unfold canceledNow; by rewrite !lookup_insert_ne).
  case_bool_decide as Hsame.
  - split; [exact Hs|]. split; [exact Hc|]. split.
    + rewrite <- Hsame at 1 2. rewrite Hs, Hc. intros [H|H]; by destruct H.
    + intros k H1 H2 _. by apply Hk.
  - split; [by rewrite lookup_insert_ne|]. split; [by rewrite lookup_insert_ne|]. split.
    + intros _. apply lookup_insert_eq.
    + intros k H1 H2 H3. rewrite lookup_insert_ne by done. by apply Hk.
Qed.

(** X24.  The legacy handler of [customer.subscription.deleted] does
    nothing for a subscription it does not know.  For one it knows, it
    throws the validation error of the mapper, and stores and sends
    nothing, when the record lacks a path the schema requires, and
    throws the error of the store when the store refuses the write.
    Otherwise it returns normally whatever the user service and the
    mailer answer: the record is then canceled now, stamped as updated
    now (unless it was already marked canceled at this very instant) and
    has kept the value of every other path it had; the handler has
    patched the user, then asked for the user, and sent the e-mail only if
    the user service answered. *)
Theorem legacy_deleted_event_cancels env subscription w :
  Webhook_controller.fault env Webhook_controller.OpFindOne = None ->
  let r := Webhook_controller.handleSubscriptionDeleted env subscription w in
  (Webhook_controller.subscriptions w !! object_id subscription = None ->
      r = (Return tt, w))
  /\ (forall existing,
      Webhook_controller.subscriptions w !! object_id subscription = Some existing ->
      existsb (Webhook_controller.lacks existing) Webhook_controller.requiredPaths = true ->
      r = (Throw (Webhook_controller.validationError env
                    (<["canceledAt" := JDate (Some (Webhook_controller.clock env))]>
                       (<["status" := JStr "canceled"]> existing))), w))
  /\ (forall existing e,
      Webhook_controller.subscriptions w !! object_id subscription = Some existing ->
      existsb (Webhook_controller.lacks existing) Webhook_controller.requiredPaths = false ->
      Webhook_controller.fault env Webhook_controller.OpSave = Some e ->
      r = (Throw e, w))
  /\ (forall existing,
      Webhook_controller.subscriptions w !! object_id subscription = Some existing ->
      existsb (Webhook_controller.lacks existing) Webhook_controller.requiredPaths = false ->
      Webhook_controller.fault env Webhook_controller.OpSave = None ->
      exists doc,
        fst r = Return tt
        /\ Webhook_controller.subscriptions (snd r)
           = <[object_id subscription := doc]> (Webhook_controller.subscriptions w)
        /\ doc !! "status" = Some (JStr "canceled")
        /\ doc !! "canceledAt" = Some (JDate (Some (Webhook_controller.clock env)))
        /\ (existing !! "status" <> Some (JStr "canceled")
            \/ existing !! "canceledAt"
               <> Some (JDate (Some (Webhook_controller.clock env))) ->
            doc !! "updatedAt" = Some (JDate (Some (Webhook_controller.clock env))))
        /\ (forall k v, k <> "status" -> k <> "canceledAt" -> k <> "updatedAt" ->
              existing !! k = Some v -> doc !! k = Some v)
        /\ Webhook_controller.outgoing (snd r)
           = (Webhook_controller.outgoing w
              ++ [ Webhook_controller.PatchUserSubscription (existing !! "userId")
                     (setDefined "subscriptionEndDate" (existing !! "currentPeriodEnd")
                        {["subscriptionStatus" := JStr "canceled"]});
                   Webhook_controller.GetUserById (existing !! "userId") ]
              ++ match Webhook_controller.getUser env (existing !! "userId") with
                 | Return user =>
                     [Webhook_controller.SendEmail (user !! "email") "Fin d'abonnement"]
                 | Throw _ => []
                 end)%list).
Proof.
  intros Hfind. cbv zeta.
  rewrite handleSubscriptionDeleted_run, Hfind. split; [|split; [|split]].
  - by intros ->.
  - intros existing -> Hlacks. cbv zeta. by rewrite lacks_canceledNow, Hlacks.
  - intros existing e -> Hlacks Hsave. cbv zeta. by rewrite lacks_canceledNow, Hlacks, Hsave.
  - intros existing -> Hlacks Hsave. cbv zeta. rewrite lacks_canceledNow, Hlacks, Hsave.
    destruct (written_fields env existing) as (F1 & F2 & F3 & F4).
    exists (written env existing). cbn [fst snd].
    split; [reflexivity|]. split; [by rewrite notified_subscriptions|].
    split; [exact F1|]. split; [exact F2|]. split; [exact F3|].
    split; [intros k v H1 H2 H3 Hk; by rewrite F4|].
    rewrite notified_outgoing. cbn [Webhook_controller.outgoing].
    unfold canceledNow. by rewrite !lookup_insert_ne.
Qed.

Lemma legacy_deleted_event_cancels_witness :
  (let r := Webhook_controller.handleSubscriptionDeleted (legacyEnv patchFails)
              (mkStripeObject "sub_1" ∅) legacyWorld in
   fst r = Return tt
   /\ field (Webhook_controller.subscriptions (snd r)) "sub_1" "status"
      = Some (JStr "canceled")
   /\ field (Webhook_controller.subscriptions (snd r)) "sub_1" "updatedAt"
      = Some (JDate (Some jan15))
   /\ field (Webhook_controller.subscriptions (snd r)) "sub_1" "planName"
      = Some (JStr "monthly"))
  /\ Webhook_controller.handleSubscriptionDeleted (legacyEnv patchFails)
       (mkStripeObject "sub_1" ∅) brokenWorld
     = (Throw (Error
          "Subscription validation failed: planName: Path `planName` is required."),
        brokenWorld).
Proof.
  split; cbv zeta.
  - destruct (legacy_deleted_event_cancels (legacyEnv patchFails)
                (mkStripeObject "sub_1" ∅) legacyWorld eq_refl) as (_ & _ & _ & H).
    destruct (H legacyRecord (lookup_singleton_eq _ _) eq_refl eq_refl)
      as (doc & H1 & H2 & H3 & _ & H4 & H5 & _).
    split; [exact H1|]. rewrite H2, !field_stored.
    split; [exact H3|]. split.
    + apply H4. left. vm_compute. discriminate.
    + apply H5; [discriminate..|reflexivity].
  - destruct (legacy_deleted_event_cancels (legacyEnv patchFails)
                (mkStripeObject "sub_1" ∅) brokenWorld eq_refl) as (_ & H & _).
    rewrite (H (delete "planName" legacyRecord) (lookup_singleton_eq _ _) eq_refl).
    reflexivity.
Defined.

(** *** controllers/subscriptionController.js: refunds and plan changes *)

Lemma getCurrentSubscription_found env uid w doc :
  validObjectId env uid = true ->
  storeFault env SubscriptionFind = None ->
  subscriptions w !! uid = Some doc ->
  exists subscription,
    getCurrentSubscription env uid w = (Return (Some subscription), w)
    /\ (forall k, k <> "daysRemaining" -> subscription !! k = doc !! k).
Proof.
  intros Hvalid Hfault Hdoc. rewrite getCurrentSubscription_run, Hvalid, Hfault, Hdoc.
  destruct (truthy (doc !! "endDate")); [|by exists doc].
  destruct (match doc !! "endDate" with Some v => toDate env v | None => None end).
  - eexists. split; [reflexivity|]. intros k Hk. by rewrite lookup_insert_ne.
  - eexists. split; [reflexivity|]. intros k Hk. by rewrite lookup_insert_ne.
Qed.

Lemma getCurrentSubscription_missing env uid w :
  validObjectId env uid = true ->
  storeFault env SubscriptionFind = None ->
  subscriptions w !! uid = None ->
  getCurrentSubscription env uid w = (Return None, w).
Proof.
  intros Hvalid Hfault Hdoc. by rewrite getCurrentSubscription_run, Hvalid, Hfault, Hdoc.
Qed.

Lemma getCurrentSubscription_world env uid w :
  snd (getCurrentSubscription env uid w) = w.
Proof. rewrite getCurrentSubscription_run. by repeat case_match. Qed.

Lemma refundDays_same env (subscription doc : Obj) :
  (forall k, k <> "daysRemaining" -> subscription !! k = doc !! k) ->
  subscriptionController.refundDays env subscription
  = subscriptionController.refundDays env doc.
Proof.
  intros H. unfold subscriptionController.refundDays. by rewrite (H "startDate").
Qed.

Lemma eligibilityStart_same env (subscription doc : Obj) :
  (forall k, k <> "daysRemaining" -> subscription !! k = doc !! k) ->
  subscriptionController.eligibilityStart env subscription
  = subscriptionController.eligibilityStart env doc.
Proof.
  intros H. unfold subscriptionController.eligibilityStart.
  by rewrite (H "startDate"), (H "createdAt").
Qed.

Lemma requestRefund_found env req uid w doc :
  requester req = Some uid ->
  validObjectId env uid = true ->
  storeFault env SubscriptionFind = None ->
  subscriptions w !! uid = Some doc ->
  let r := subscriptionController.requestRefund env req w in
  if strictEq (doc !! "status") (JStr "active")
     && (subscriptionController.refundDays env doc <=? maxRefundDays)
  then snd r = snd (updateSubscription env uid (refundUpdate env) w)
       /\ answered r
          = Some (if isThrow (fst (updateSubscription env uid (refundUpdate env) w))
                  then 500 else 200)
  else answered r = Some 400 /\ snd r = w.
Proof.
  intros Hreq Hvalid Hfault Hdoc. cbv zeta.
  destruct (getCurrentSubscription_found env uid w doc Hvalid Hfault Hdoc)
    as (subscription & Hget & Hsame).
  unfold subscriptionController.requestRefund, try_catch, bind. rewrite Hreq. cbv zeta.
  rewrite Hget. cbv beta iota.
  rewrite (refundDays_same env subscription doc Hsame), (Hsame "status") by done.
  destruct (strictEq (doc !! "status") (JStr "active")); cbn [negb andb];
    [|split; reflexivity].
  rewrite andb_true_r.
  destruct (subscriptionController.refundDays env doc <=? maxRefundDays);
    cbn [negb]; [|split; reflexivity].
  destruct (updateSubscription env uid (refundUpdate env) w) as [[updated|e] w'];
    split; reflexivity.
Qed.

Lemma cast_refund env :
  exists set,
    castUpdate env SubscriptionSchema (sentUpdate env (refundUpdate env)) = Return set
    /\ set !! "status" = Some (JStr "canceled")
    /\ set !! "isActive" = Some (JBool false)
    /\ set !! "endDate" = Some (JDate (Some (clock env)))
    /\ set !! "cancelationType" = Some (JStr "immediate").
Proof.
  assert (H :
    match castUpdate env SubscriptionSchema (sentUpdate env (refundUpdate env)) with
    | Return s => (s !! "status", s !! "isActive", s !! "endDate", s !! "cancelationType")
    | Throw _ => (None, None, None, None)
    end
    = (Some (JStr "canceled"), Some (JBool false), Some (JDate (Some (clock env))),
       Some (JStr "immediate"))) by (vm_compute; reflexivity).
  destruct (castUpdate env SubscriptionSchema _) as [set|e]; [|discriminate].
  exists set. by simplify_eq.
Qed.

Lemma roleChange_refund env : roleChange (refundUpdate env) = Some "user".
Proof. vm_compute. reflexivity. Qed.

Lemma refundUpdate_outside env k :
  k ∈ ["refundStatus"; "refundAmount"; "refundDate"; "refundReason"; "totalRefunded";
       "plan"; "startDate"; "stripeSubscriptionId"] ->
  refundUpdate env !! k = None /\ k <> "updatedAt".
Proof.
  rewrite !elem_of_cons, elem_of_nil.
  intros [->|[->|[->|[->|[->|[->|[->|[->|[]]]]]]]]]; split; (reflexivity || discriminate).
Qed.

(** What a refund that is accepted stores. *)
Lemma refund_stored env uid w doc :
  validObjectId env uid = true ->
  (forall op, storeFault env op = None) ->
  subscriptions w !! uid = Some doc ->
  exists doc',
    fst (updateSubscription env uid (refundUpdate env) w) = Return doc'
    /\ subscriptions (snd (updateSubscription env uid (refundUpdate env) w))
       = <[uid := doc']> (subscriptions w)
    /\ users (snd (updateSubscription env uid (refundUpdate env) w))
       = withRole env uid "user" (users w)
    /\ doc' !! "status" = Some (JStr "canceled")
    /\ doc' !! "isActive" = Some (JBool false)
    /\ doc' !! "endDate" = Some (JDate (Some (clock env)))
    /\ doc' !! "cancelationType" = Some (JStr "immediate")
    /\ (forall k, refundUpdate env !! k = None /\ k <> "updatedAt" -> doc' !! k = doc !! k).
Proof.
  intros Hvalid Hfault Hdoc.
  destruct (cast_refund env) as (set & Hcast & Hs & Ha & He & Hc).
  destruct (updateSubscription_existing_role env uid (refundUpdate env) w doc set "user"
              Hvalid (roleChange_refund env) (Hfault UserUpdate)
              (Hfault SubscriptionUpdate) Hdoc Hcast) as (Hret & Hsub & Husers).
  exists (set ∪ doc).
  split; [exact Hret|]. split; [exact Hsub|]. split; [exact Husers|].
  split; [apply lookup_union_Some_l; exact Hs|].
  split; [apply lookup_union_Some_l; exact Ha|].
  split; [apply lookup_union_Some_l; exact He|].
  split; [apply lookup_union_Some_l; exact Hc|].
  intros k Hk. apply lookup_union_absent.
  apply (sent_absent env (refundUpdate env)); [exact Hcast|]. by left.
Qed.

(** X25.  A refund is granted to an active subscription whose
    [startDate] is at most 7 days old (or unusable).  Granting it cancels
    the subscription at once: the record becomes canceled, inactive, of
    cancellation type "immediate" and ends now, and the user's role is
    set to "user".  Nothing else of the refund is recorded ([refundStatus],
    [refundAmount], [refundDate], [refundReason] and [totalRefunded] keep
    their values) and the payment gateway is not called. *)
Theorem requestRefund_cancels_at_once env req uid w doc :
  requester req = Some uid ->
  validObjectId env uid = true ->
  (forall op, storeFault env op = None) ->
  subscriptions w !! uid = Some doc ->
  doc !! "status" = Some (JStr "active") ->
  subscriptionController.refundDays env doc <= maxRefundDays ->
  let r := subscriptionController.requestRefund env req w in
  answered r = Some 200
  /\ field (subscriptions (snd r)) uid "status" = Some (JStr "canceled")
  /\ field (subscriptions (snd r)) uid "isActive" = Some (JBool false)
  /\ field (subscriptions (snd r)) uid "cancelationType" = Some (JStr "immediate")
  /\ field (subscriptions (snd r)) uid "endDate" = Some (JDate (Some (clock env)))
  /\ (forall k,
      k ∈ ["refundStatus"; "refundAmount"; "refundDate"; "refundReason"; "totalRefunded";
           "plan"; "startDate"; "stripeSubscriptionId"] ->
      field (subscriptions (snd r)) uid k = doc !! k)
  /\ users (snd r) = withRole env uid "user" (users w)
  /\ List.filter isStripeCall (calls (snd r)) = List.filter isStripeCall (calls w).
Proof.
  intros Hreq Hvalid Hfault Hdoc Hs Hdays. cbv zeta.
  pose proof (requestRefund_found env req uid w doc Hreq Hvalid
                (Hfault SubscriptionFind) Hdoc) as Hcases.
  cbv zeta in Hcases.
  rewrite (strictEq_true _ _ Hs), (proj2 (Z.leb_le _ _) Hdays) in Hcases.
  cbn [andb] in Hcases. destruct Hcases as [Hworld Hans].
  destruct (refund_stored env uid w doc Hvalid Hfault Hdoc)
    as (doc' & Hret & Hsub & Husers & F1 & F2 & F3 & F4 & Hkept).
  rewrite Hret in Hans. rewrite Hworld, Hsub, Husers, !field_stored.
  split; [exact Hans|]. split; [exact F1|]. split; [exact F2|].
  split; [exact F4|]. split; [exact F3|]. split.
  - intros k Hk. rewrite field_stored. apply Hkept. by apply refundUpdate_outside.
  - split; [reflexivity|]. apply updateSubscription_calls.
Qed.

Lemma requestRefund_cancels_at_once_witness :
  answered (subscriptionController.requestRefund goneEnv (asAlice ∅)
              (worldOf twoDaysIn "premium")) = Some 200
  /\ field (subscriptions (snd (subscriptionController.requestRefund goneEnv (asAlice ∅)
                                  (worldOf twoDaysIn "premium")))) alice "refundStatus"
     = twoDaysIn !! "refundStatus".
Proof.
  destruct (requestRefund_cancels_at_once goneEnv (asAlice ∅) alice
              (worldOf twoDaysIn "premium") twoDaysIn)
    as (H1 & _ & _ & _ & _ & H2 & _).
  - reflexivity.
  - reflexivity.
  - reflexivity.
  - apply lookup_singleton_eq.
  - reflexivity.
  - vm_compute. discriminate.
  - split; [exact H1|]. apply H2. rewrite !elem_of_cons. by left.
Defined.

Lemma requestRefund_not_found env req uid w :
  requester req = Some uid ->
  validObjectId env uid = true ->
  storeFault env SubscriptionFind = None ->
  subscriptions w !! uid = None ->
  answered (subscriptionController.requestRefund env req w) = Some 404
  /\ snd (subscriptionController.requestRefund env req w) = w.
Proof.
  intros Hreq Hvalid Hfault Hnone.
  unfold subscriptionController.requestRefund, try_catch, bind. rewrite Hreq. cbv zeta.
  rewrite (getCurrentSubscription_missing env uid w Hvalid Hfault Hnone).
  split; reflexivity.
Qed.

Lemma requestRefund_never_throws env req w :
  isThrow (fst (subscriptionController.requestRefund env req w)) = false.
Proof.
  unfold subscriptionController.requestRefund, try_catch.
  by destruct (_ w) as [[reply|e] w'].
Qed.

(** X26.  [requestRefund] never throws, and a request it refuses changes
    nothing: 401 without an authenticated user, 404 for a user without a
    record, 400 for a record that is not active and 400 for one whose
    [startDate] is more than 7 days old. *)
Theorem requestRefund_refusals_change_nothing env req w :
  let r := subscriptionController.requestRefund env req w in
  isThrow (fst r) = false
  /\ (requester req = None -> answered r = Some 401 /\ snd r = w)
  /\ (forall uid,
      requester req = Some uid ->
      validObjectId env uid = true ->
      storeFault env SubscriptionFind = None ->
      (subscriptions w !! uid = None -> answered r = Some 404 /\ snd r = w)
      /\ (forall doc,
          subscriptions w !! uid = Some doc ->
          doc !! "status" <> Some (JStr "active")
          \/ maxRefundDays < subscriptionController.refundDays env doc ->
          answered r = Some 400 /\ snd r = w)).
Proof.
  cbv zeta. split; [apply requestRefund_never_throws|]. split.
  - intros Hreq. unfold subscriptionController.requestRefund, try_catch.
    rewrite Hreq. split; reflexivity.
  - intros uid Hreq Hvalid Hfault. split.
    + by apply requestRefund_not_found.
    + intros doc Hdoc Hrefused.
      pose proof (requestRefund_found env req uid w doc Hreq Hvalid Hfault Hdoc) as Hcases.
      cbv zeta in Hcases.
      destruct Hrefused as [Hs|Hdays].
      * by rewrite (strictEq_false _ _ Hs) in Hcases.
      * rewrite (proj2 (Z.leb_gt _ _) Hdays), andb_false_r in Hcases. exact Hcases.
Qed.

Lemma checkRefundEligibility_found env req uid w doc :
  requester req = Some uid ->
  validObjectId env uid = true ->
  storeFault env SubscriptionFind = None ->
  subscriptions w !! uid = Some doc ->
  let days := snd (subscriptionController.eligibilityStart env doc) in
  let eligible := (days <=? maxRefundDays)
                  && strictEq (doc !! "status") (JStr "active") && (0 <=? days) in
  let r := subscriptionController.checkRefundEligibility env req w in
  answered r = Some 200
  /\ snd r = w
  /\ answeredMember r "eligible" = Some (Value (JBool eligible))
  /\ answeredMember r "daysSinceStart" = Some (Value (JNum days))
  /\ (eligible = false -> (maxRefundDays <? days) = false ->
      strictEq (doc !! "status") (JStr "active") = true ->
      answeredMember r "reason" = Some (Value (JStr "Erreur de calcul de date"))).
Proof.
  intros Hreq Hvalid Hfault Hdoc. cbv zeta.
  destruct (getCurrentSubscription_found env uid w doc Hvalid Hfault Hdoc)
    as (subscription & Hget & Hsame).
  unfold subscriptionController.checkRefundEligibility, try_catch, bind.
  rewrite Hreq, Hget. cbv beta iota zeta.
  rewrite (eligibilityStart_same env subscription doc Hsame), (Hsame "status") by done.
  unfold answered, answeredMember. cbn [fst snd reply_status reply_body].
  split; [reflexivity|]. split; [reflexivity|]. split; [reflexivity|].
  split; [reflexivity|].
  intros He Hmax Hact. rewrite He, Hmax, Hact. cbn [negb].
  assert (Hneg : (snd (subscriptionController.eligibilityStart env doc) <? 0) = true).
  { rewrite Hact, andb_true_r in He. apply andb_false_iff in He as [He|He].
    - apply Z.leb_gt in He. apply Z.ltb_ge in Hmax. lia.
    - apply Z.leb_gt in He. by apply Z.ltb_lt. }
  rewrite Hneg. by destruct (doc !! "status").
Qed.

Lemma daysBetween_future start now : now < start -> daysBetween start now < 0.
Proof.
  intros H. unfold daysBetween, JsDate.msPerDay.
  apply Z.div_lt_upper_bound; lia.
Qed.

(** X27.  [checkRefundEligibility] only reads.  Whenever it answers that
    the user is eligible, [requestRefund] grants the refund; but the two
    do not apply the same rule: for an active subscription whose
    [startDate] lies in the future the check answers "not eligible"
    ("Erreur de calcul de date") while the request is granted, and so it
    is for one whose [startDate] is [null] and that was created 8 days
    ago or earlier (the check falls back on [createdAt], the request does
    not). *)
Theorem eligibility_is_stricter_than_refund env req uid w doc :
  requester req = Some uid ->
  validObjectId env uid = true ->
  (forall op, storeFault env op = None) ->
  subscriptions w !! uid = Some doc ->
  let check := subscriptionController.checkRefundEligibility env req w in
  let refund := subscriptionController.requestRefund env req w in
  (answered check = Some 200 /\ snd check = w)
  /\ (answeredMember check "eligible" = Some (Value (JBool true)) ->
      answered refund = Some 200)
  /\ (forall t,
      doc !! "status" = Some (JStr "active") ->
      doc !! "startDate" = Some (JDate (Some t)) ->
      clock env < t ->
      answeredMember check "eligible" = Some (Value (JBool false))
      /\ answeredMember check "reason" = Some (Value (JStr "Erreur de calcul de date"))
      /\ answered refund = Some 200)
  /\ (forall t,
      doc !! "status" = Some (JStr "active") ->
      doc !! "startDate" = Some JNull ->
      doc !! "createdAt" = Some (JDate (Some t)) ->
      t + 8 * JsDate.msPerDay <= clock env ->
      answeredMember check "eligible" = Some (Value (JBool false))
      /\ answered refund = Some 200).
Proof.
  intros Hreq Hvalid Hfault Hdoc. cbv zeta.
  destruct (checkRefundEligibility_found env req uid w doc Hreq Hvalid
              (Hfault SubscriptionFind) Hdoc) as (C1 & C2 & C3 & C4 & C5).
  pose proof (requestRefund_found env req uid w doc Hreq Hvalid
                (Hfault SubscriptionFind) Hdoc) as Hcases.
  cbv zeta in Hcases.
  destruct (refund_stored env uid w doc Hvalid Hfault Hdoc) as (doc' & Hret & _).
  rewrite Hret in Hcases. cbn [isThrow] in Hcases.
  split; [by split|]. split; [|split].
  - rewrite C3. intros [= He].
    apply andb_true_iff in He as [He H0]. apply andb_true_iff in He as [Hle Hact].
    assert (Hdays : (subscriptionController.refundDays env doc <=? maxRefundDays) = true).
    { unfold subscriptionController.refundDays.
      unfold subscriptionController.eligibilityStart in Hle.
      destruct (truthy (doc !! "startDate")); [|reflexivity].
      destruct (dateOf env (doc !! "startDate")); [exact Hle|reflexivity]. }
    rewrite Hact, Hdays in Hcases. by destruct Hcases.
  - intros t Hs Hstart Hfuture.
    assert (Hd : snd (subscriptionController.eligibilityStart env doc)
                 = daysBetween t (clock env)).
    { unfold subscriptionController.eligibilityStart. by rewrite Hstart. }
    assert (Hr : subscriptionController.refundDays env doc = daysBetween t (clock env)).
    { unfold subscriptionController.refundDays. by rewrite Hstart. }
    pose proof (daysBetween_future t (clock env) Hfuture) as Hneg.
    assert (He : (snd (subscriptionController.eligibilityStart env doc) <=? maxRefundDays)
                 && strictEq (doc !! "status") (JStr "active")
                 && (0 <=? snd (subscriptionController.eligibilityStart env doc)) = false).
    { rewrite Hd. apply andb_false_iff. right. apply Z.leb_gt. exact Hneg. }
    rewrite C3, He. split; [reflexivity|]. split.
    + apply C5; [exact He| |by apply strictEq_true].
      rewrite Hd. apply Z.ltb_ge. unfold maxRefundDays. lia.
    + rewrite (strictEq_true _ _ Hs), Hr in Hcases.
      rewrite (proj2 (Z.leb_le _ _)) in Hcases by (unfold maxRefundDays; lia).
      by destruct Hcases.
  - intros t Hs Hnull Hcreated Hold.
    assert (Hstart : truthy (doc !! "startDate") = false) by (by rewrite Hnull).
    assert (Hd : snd (subscriptionController.eligibilityStart env doc)
                 = daysBetween t (clock env)).
    { unfold subscriptionController.eligibilityStart. by rewrite Hstart, Hcreated. }
    assert (Hr : subscriptionController.refundDays env doc = 0).
    { unfold subscriptionController.refundDays. by rewrite Hstart. }
    assert (Hlate : maxRefundDays < daysBetween t (clock env)).
    { unfold daysBetween, maxRefundDays, JsDate.msPerDay in *.
      apply Z.lt_le_trans with 8; [lia|]. apply Z.div_le_lower_bound; lia. }
    rewrite C3, Hd. rewrite (proj2 (Z.leb_gt _ _) Hlate). split; [reflexivity|].
    rewrite (strictEq_true _ _ Hs), Hr in Hcases. by destruct Hcases.
Qed.

Lemma eligibility_is_stricter_than_refund_witness :
  (answeredMember (subscriptionController.checkRefundEligibility goneEnv (asAlice ∅)
                     (worldOf startsTomorrow "premium")) "eligible"
   = Some (Value (JBool false))
   /\ answered (subscriptionController.requestRefund goneEnv (asAlice ∅)
                  (worldOf startsTomorrow "premium")) = Some 200)
  /\ (answeredMember (subscriptionController.checkRefundEligibility goneEnv (asAlice ∅)
                        (worldOf undated "premium")) "eligible"
      = Some (Value (JBool false))
      /\ answered (subscriptionController.requestRefund goneEnv (asAlice ∅)
                     (worldOf undated "premium")) = Some 200).
Proof.
  split.
  - destruct (eligibility_is_stricter_than_refund goneEnv (asAlice ∅) alice
                (worldOf startsTomorrow "premium") startsTomorrow)
      as (_ & _ & H & _).
    + reflexivity.
    + reflexivity.
    + reflexivity.
    + apply lookup_singleton_eq.
    + destruct (H (jan15 + JsDate.msPerDay)) as (H1 & _ & H3).
      * reflexivity.
      * reflexivity.
      * vm_compute. reflexivity.
      * split; [exact H1|exact H3].
  - destruct (eligibility_is_stricter_than_refund goneEnv (asAlice ∅) alice
                (worldOf undated "premium") undated)
      as (_ & _ & _ & H).
    + reflexivity.
    + reflexivity.
    + reflexivity.
    + apply lookup_singleton_eq.
    + apply (H (jan15 - 9 * JsDate.msPerDay)).
      * reflexivity.
      * reflexivity.
      * reflexivity.
      * vm_compute. discriminate.
Defined.

(** What [requestRefund] went through when it answers 200. *)
Lemma requestRefund_granted env req uid w :
  requester req = Some uid ->
  validObjectId env uid = true ->
  (forall op, storeFault env op = None) ->
  answered (subscriptionController.requestRefund env req w) = Some 200 ->
  exists doc doc',
    subscriptions w !! uid = Some doc
    /\ subscriptions (snd (subscriptionController.requestRefund env req w))
       = <[uid := doc']> (subscriptions w)
    /\ doc' !! "status" = Some (JStr "canceled")
    /\ doc' !! "isActive" = Some (JBool false)
    /\ doc' !! "cancelationType" = Some (JStr "immediate").
Proof.
  intros Hreq Hvalid Hfault Hok.
  destruct (subscriptions w !! uid) as [doc|] eqn:Hdoc.
  2:{ destruct (requestRefund_not_found env req uid w Hreq Hvalid
                  (Hfault SubscriptionFind) Hdoc) as [H _]. congruence. }
  pose proof (requestRefund_found env req uid w doc Hreq Hvalid
                (Hfault SubscriptionFind) Hdoc) as Hcases.
  cbv zeta in Hcases.
  destruct (strictEq (doc !! "status") (JStr "active")
            && (subscriptionController.refundDays env doc <=? maxRefundDays)).
  2:{ destruct Hcases as [H _]. congruence. }
  destruct Hcases as [Hworld _].
  destruct (refund_stored env uid w doc Hvalid Hfault Hdoc)
    as (doc' & _ & Hsub & _ & F1 & F2 & _ & F4 & _).
  exists doc, doc'. rewrite Hworld, Hsub. by split_and!.
Qed.

Lemma expired_fields (doc : Obj) :
  doc !! "status" = Some (JStr "canceled") ->
  doc !! "isActive" = Some (JBool false) ->
  forallb (satisfies doc) activeRecord = false
  /\ forallb (satisfies doc) scheduledRecord = false
  /\ forallb (satisfies doc) expiredRecord = true
  /\ forallb (satisfies doc) reactivableRecord = false.
Proof.
  intros Hs Ha. unfold activeRecord, scheduledRecord, expiredRecord, reactivableRecord.
  cbn [forallb satisfies]. rewrite Hs, Ha. by split_and!.
Qed.

(** X28.  A refund that has been granted is final for the service: on the
    world it leaves, a reactivation is refused (nothing reactivable), a
    cancellation is refused with the message of an expired subscription,
    and a second refund request is answered 400; none of the three changes
    anything. *)
Theorem refund_is_final env req uid w :
  requester req = Some uid ->
  validObjectId env uid = true ->
  (forall op, storeFault env op = None) ->
  let w' := snd (subscriptionController.requestRefund env req w) in
  answered (subscriptionController.requestRefund env req w) = Some 200 ->
  reactivateSubscription env uid w' = (Throw (Error msgNothingReactivable), w')
  /\ cancelSubscriptionAtPeriodEnd env uid w' = (Throw (Error msgExpired), w')
  /\ answered (subscriptionController.requestRefund env req w') = Some 400
  /\ snd (subscriptionController.requestRefund env req w') = w'.
Proof.
  intros Hreq Hvalid Hfault. cbv zeta. intros Hok.
  destruct (requestRefund_granted env req uid w Hreq Hvalid Hfault Hok)
    as (doc & doc' & Hdoc & Hsub & Hs & Ha & Hc).
  set (w' := snd (subscriptionController.requestRefund env req w)) in *.
  assert (Hdoc' : subscriptions w' !! uid = Some doc')
    by (rewrite Hsub; apply lookup_insert_eq).
  destruct (expired_fields doc' Hs Ha) as (E1 & E2 & E3 & E4).
  split; [|split].
  - apply reactivateSubscription_not_found; [done..|]. by rewrite Hdoc'.
  - apply cancel_stops_when_nothing_found.
    rewrite (findCancellable_run env uid w' Hvalid (Hfault SubscriptionFind)), Hdoc'.
    by rewrite E1, E2, E3.
  - pose proof (requestRefund_found env req uid w' doc' Hreq Hvalid
                  (Hfault SubscriptionFind) Hdoc') as Hcases.
    cbv zeta in Hcases.
    rewrite (strictEq_false (doc' !! "status") (JStr "active")) in Hcases
      by (rewrite Hs; discriminate).
    exact Hcases.
Qed.

Lemma refund_is_final_witness :
  let w' := snd (subscriptionController.requestRefund goneEnv (asAlice ∅)
                   (worldOf twoDaysIn "premium")) in
  fst (reactivateSubscription goneEnv alice w') = Throw (Error msgNothingReactivable)
  /\ fst (cancelSubscriptionAtPeriodEnd goneEnv alice w') = Throw (Error msgExpired).
Proof.
  cbv zeta.
  destruct (refund_is_final goneEnv (asAlice ∅) alice (worldOf twoDaysIn "premium"))
    as (H1 & H2 & _).
  - reflexivity.
  - reflexivity.
  - reflexivity.
  - vm_compute. reflexivity.
  - rewrite H1, H2. split; reflexivity.
Defined.

(** X29.  The handler of [PUT /change-plan] never throws.  It answers 401
    without an authenticated user and 400 when [newPlan] is not "monthly"
    or "annual", in both cases without calling the service; otherwise it
    hands the plan to [changePlan] and answers 200 when that returns and
    500 when it throws, a refusal of the service included. *)
Theorem changePlan_handler_statuses env req w :
  let r := subscriptionController.changePlan env req w in
  isThrow (fst r) = false
  /\ (requester req = None -> answered r = Some 401 /\ snd r = w)
  /\ (forall uid,
      requester req = Some uid ->
      (req_body req !! "newPlan" <> Some (JStr "monthly") ->
       req_body req !! "newPlan" <> Some (JStr "annual") ->
       answered r = Some 400 /\ snd r = w)
      /\ (forall plan,
          req_body req !! "newPlan" = Some (JStr plan) ->
          plan = "monthly" \/ plan = "annual" ->
          snd r = snd (changePlan env uid plan w)
          /\ answered r
             = Some (if isThrow (fst (changePlan env uid plan w)) then 500 else 200))).
Proof.
  cbv zeta. split; [|split].
  - unfold subscriptionController.changePlan, try_catch.
    by destruct (_ w) as [[reply|e] w'].
  - intros Hreq. unfold subscriptionController.changePlan, try_catch.
    rewrite Hreq. split; reflexivity.
  - intros uid Hreq. unfold subscriptionController.changePlan, try_catch.
    rewrite Hreq. split.
    + intros H1 H2.
      destruct (req_body req !! "newPlan") as [[| | | |plan|]|]; try (split; reflexivity).
      destruct (String.eqb_spec plan "monthly") as [->|Hm]; [done|].
      destruct (String.eqb_spec plan "annual") as [->|Hn]; [done|].
      split; reflexivity.
    + intros plan -> Hplan.
      assert (Hok : String.eqb plan "monthly" || String.eqb plan "annual" = true).
      { destruct Hplan as [-> | ->]; reflexivity. }
      rewrite Hok. unfold bind.
      destruct (changePlan env uid plan w) as [[result|e] w']; split; reflexivity.
Qed.

(** *** services/subscriptionIntegrationService.js: a gateway answer without a period end *)

Lemma settle_own_date env doc t w :
  doc !! "endDate" = Some (JDate (Some t)) ->
  settle env doc (doc !! "endDate") w = (Return (Some (JDate (Some t))), w).
Proof. intros ->. reflexivity. Qed.

Lemma settle_local_date env (doc : Obj) w :
  truthy (doc !! "endDate") = false \/ doc !! "endDate" = Some (JDate None) ->
  settle env doc (doc !! "endDate") w
  = (Return (Some (JDate (localEndDate env (doc !! "plan")))), w).
Proof.
  intros [H| ->]; [|reflexivity]. unfold settle, lacksValidDate. by rewrite H.
Qed.

Lemma determineEndDate_no_period_end env doc id w :
  remoteId doc = Some id ->
  noPeriodEnd env id ->
  exists w1,
    subscriptions w1 = subscriptions w /\ users w1 = users w
    /\ (forall endDate,
          settle env doc (doc !! "endDate") w1 = (Return endDate, w1) ->
          determineEndDate env doc w = (Return endDate, w1)).
Proof.
  intros Hid (current & Hret & Hcases).
  unfold determineEndDate. rewrite Hid. unfold try_catch.
  rewrite cancelRemotely_run, Hret. cbv zeta.
  destruct Hcases as [[-> Hcpe]|[-> (updated & -> & Hcpe)]].
  - exists (logged w (CallStripeRetrieve id)).
    split; [reflexivity|]. split; [reflexivity|].
    assert (Hend : match current_period_end current with
                   | Some cpe => if cpe =? 0 then doc !! "endDate"
                                 else Some (dateOfSeconds cpe)
                   | None => doc !! "endDate"
                   end = doc !! "endDate")
      by (destruct Hcpe as [-> | ->]; reflexivity).
    rewrite Hend. by intros endDate ->.
  - exists (logged (logged w (CallStripeRetrieve id))
              (CallStripeUpdate id (scheduleCancellation env))).
    split; [reflexivity|]. split; [reflexivity|].
    assert (Hend : match current_period_end updated with
                   | Some cpe => if 0 <? cpe then Some (dateOfSeconds cpe)
                                 else doc !! "endDate"
                   | None => doc !! "endDate"
                   end = doc !! "endDate").
    { destruct Hcpe as [-> |(cpe & -> & Hle)]; [reflexivity|].
      by rewrite (proj2 (Z.ltb_ge _ _) Hle). }
    rewrite Hend. by intros endDate ->.
Qed.

(** X30.  When the gateway answers the calls of a cancellation but shows
    no usable [current_period_end] (missing or 0 on a subscription
    already scheduled, missing or not positive after the update), the
    cancellation succeeds all the same: it keeps the end date the record
    has if that is a valid date, and otherwise ends the subscription one
    period of the local calendar from now (365 or 366 days for the plan
    "annual", 28 to 31 days otherwise, which is so many times 24 hours
    but for the change of the zone's offset in between). *)
Theorem cancel_without_remote_period_end env uid w doc id b :
  validObjectId env uid = true ->
  (forall op, storeFault env op = None) ->
  subscriptions w !! uid = Some doc ->
  doc !! "status" = Some (JStr "active") ->
  doc !! "isActive" = Some (JBool true) ->
  remoteId doc = Some id ->
  noPeriodEnd env id ->
  zoneDrift (tza env) b ->
  Z.abs (clock env) + 366 * JsDate.msPerDay + b <= JsDate.maxTime ->
  let r := cancelSubscriptionAtPeriodEnd env uid w in
  (forall t, doc !! "endDate" = Some (JDate (Some t)) ->
      isThrow (fst r) = false
      /\ field (subscriptions (snd r)) uid "endDate" = Some (JDate (Some t))
      /\ field (subscriptions (snd r)) uid "status" = Some (JStr "canceled")
      /\ field (subscriptions (snd r)) uid "isActive" = Some (JBool true)
      /\ field (subscriptions (snd r)) uid "cancelationType" = Some (JStr "end_of_period"))
  /\ (truthy (doc !! "endDate") = false \/ doc !! "endDate" = Some (JDate None) ->
      exists d t,
        periodDays (strictEq (doc !! "plan") (JStr "annual")) d
        /\ t = daysLater (tza env) (clock env) d
        /\ Z.abs (t - (clock env + d * JsDate.msPerDay)) <= b
        /\ isThrow (fst r) = false
        /\ field (subscriptions (snd r)) uid "endDate" = Some (JDate (Some t))
        /\ field (subscriptions (snd r)) uid "status" = Some (JStr "canceled")
        /\ field (subscriptions (snd r)) uid "isActive" = Some (JBool true)
        /\ field (subscriptions (snd r)) uid "cancelationType"
           = Some (JStr "end_of_period")).
Proof.
  intros Hvalid Hfault Hdoc Hs Ha Hid Hno Hb Hclock. cbv zeta.
  destruct (determineEndDate_no_period_end env doc id w Hid Hno)
    as (w1 & Hsub & Husers & Hdate).
  assert (Hdoc1 : subscriptions w1 !! uid = Some doc) by (by rewrite Hsub).
  pose proof (findCancellable_active env uid w doc Hvalid (Hfault SubscriptionFind)
                Hdoc Hs Ha) as Hfind.
  assert (Hpersist : forall t,
    determineEndDate env doc w = (Return (Some (JDate (Some t))), w1) ->
    isThrow (fst (cancelSubscriptionAtPeriodEnd env uid w)) = false
    /\ field (subscriptions (snd (cancelSubscriptionAtPeriodEnd env uid w))) uid "endDate"
       = Some (JDate (Some t))
    /\ field (subscriptions (snd (cancelSubscriptionAtPeriodEnd env uid w))) uid "status"
       = Some (JStr "canceled")
    /\ field (subscriptions (snd (cancelSubscriptionAtPeriodEnd env uid w))) uid "isActive"
       = Some (JBool true)
    /\ field (subscriptions (snd (cancelSubscriptionAtPeriodEnd env uid w))) uid
         "cancelationType" = Some (JStr "end_of_period")).
  { intros t Ht.
    destruct (cancel_persists env uid w doc w1 t Hvalid (Hfault SubscriptionUpdate)
                Hfind Ht Hdoc1) as (doc' & Hr & Hstored & _ & _ & F1 & F2 & F3 & F4).
    rewrite Hr, Hstored, !field_stored. by split_and!. }
  split.
  - intros t He. apply Hpersist, Hdate. by apply settle_own_date.
  - intros He.
    destruct (localEndDate_period env (doc !! "plan") b Hb Hclock) as (d & Hd & Hnear & E).
    exists d, (daysLater (tza env) (clock env) d).
    split; [exact Hd|]. split; [reflexivity|]. split; [exact Hnear|].
    apply Hpersist, Hdate.
    by rewrite (settle_local_date env doc w1 He), E.
Qed.

Lemma cancel_without_remote_period_end_witness :
  field (subscriptions
           (snd (cancelSubscriptionAtPeriodEnd scheduledParisEnv
                   alice (worldOf monthlyRemote "premium")))) alice "endDate"
  = Some (JDate (Some (jan15 + 1000)))
  /\ (exists d t,
       28 <= d <= 31
       /\ Z.abs (t - (mar15 + d * JsDate.msPerDay)) <= 3600000
       /\ field (subscriptions
                   (snd (cancelSubscriptionAtPeriodEnd scheduledParisEnv
                           alice (worldOf openEnded "premium")))) alice "endDate"
          = Some (JDate (Some t))
       /\ t = apr15paris).
Proof.
  assert (Hno : noPeriodEnd scheduledParisEnv "sub_1").
  { exists (mkStripeSub "sub_1" true None ["si_1"]). split; [reflexivity|].
    left. split; [reflexivity|]. by left. }
  split.
  - destruct (cancel_without_remote_period_end scheduledParisEnv
                alice (worldOf monthlyRemote "premium") monthlyRemote "sub_1" 3600000
                eq_refl (fun _ => eq_refl) (lookup_singleton_eq _ _) eq_refl eq_refl
                eq_refl Hno paris_drift
                (proj2 (sample_clock_in_range 3600000 ltac:(lia))))
      as (H & _).
    destruct (H (jan15 + 1000) eq_refl) as (_ & He & _). exact He.
  - destruct (cancel_without_remote_period_end scheduledParisEnv
                alice (worldOf openEnded "premium") openEnded "sub_1" 3600000
                eq_refl (fun _ => eq_refl) (lookup_singleton_eq _ _) eq_refl eq_refl
                eq_refl Hno paris_drift
                (proj2 (sample_clock_in_range 3600000 ltac:(lia))))
      as (_ & H).
    destruct (H (or_introl eq_refl)) as (d & t & Hd & _ & Hnear & _ & He & _).
    assert (Hc : field (subscriptions
                   (snd (cancelSubscriptionAtPeriodEnd scheduledParisEnv
                           alice (worldOf openEnded "premium")))) alice "endDate"
                 = Some (JDate (Some apr15paris))) by (vm_compute; reflexivity).
    exists d, t. split; [exact Hd|]. split; [exact Hnear|]. split; [exact He|].
    rewrite He in Hc. by injection Hc.
Defined.
